(** * Mushroom demand data generation: a shallow embedding of
      [src/data_generation.py] and the properties of its two generators.

    Conventions of the embedding.
    - The historical generator is embedded twice.  In the first embedding,
      which also holds the intraday generator, a Python
      [float] is an exact real number ([R]): it carries the structure of the
      runs and the ranges of the columns.  In the second, module [B64], a
      [float] is an IEEE 754 binary64 number and every operation rounds as
      the processor does: it carries what depends on the rounding, the
      demand, fulfilment and wastage arithmetic of a row.  A Python [int] is
      a [Z] in both.
    - The ambient [random] module is an explicit random source: a table
      giving the outcome of the k-th call, threaded through the code by a
      state-and-exception monad whose state is the number of calls made.
    - The wall clock read by [datetime.today()] and [datetime.now()] is an
      explicit argument of the generators.
    - The module-level constants are the fields of a [Config] record;
      [default_config] holds the values of the source.
    - A formatted date is kept as the date itself (its proleptic Gregorian
      ordinal, as [date.toordinal()]); the two CSV files are the returned
      row lists. *)

From Stdlib Require Import Reals ZArith List String Ascii Bool Lia Lra Psatz.
From Stdlib Require Import DecimalString.
From Stdlib Require Floats Uint63.
Import ListNotations.

Open Scope R_scope.

(** ** Python primitives *)

Module Py.

Inductive exn : Type :=
| KeyError
| IndexError
| ZeroDivisionError
| TypeError
| ValueError
| OverflowError.

Inductive result (A : Type) : Type :=
| Ok (a : A)
| Raise (e : exn).

Arguments Ok {A} a.
Arguments Raise {A} e.

(** [int(x)] on a float: truncation toward zero. *)
Definition py_int (x : R) : Z :=
  if Rle_dec 0 x then Int_part x else (- Int_part (- x))%Z.

(** Rounding of a real to the nearest integer, ties to even. *)
Definition round_half_even (x : R) : Z :=
  let f := Int_part x in
  let r := x - IZR f in
  if Rlt_dec r (1 / 2) then f
  else if Rlt_dec (1 / 2) r then (f + 1)%Z
  else if Z.even f then f else (f + 1)%Z.

(** [round(x, nd)] on a float. *)
Definition py_round (x : R) (nd : nat) : R :=
  IZR (round_half_even (x * 10 ^ nd)) / 10 ^ nd.

(** [x / y] on floats. *)
Definition py_div (x y : R) : result R :=
  if Req_dec_T y 0 then Raise ZeroDivisionError else Ok (x / y).

(** [x ** e] on floats, for the negative and non-integral exponents the
    program uses: a zero base raises, a negative base yields a complex
    number, which the later [int(...)] rejects. *)
Definition py_pow (x e : R) : result R :=
  if Rlt_dec 0 x then Ok (Rpower x e)
  else if Req_dec_T x 0 then Raise ZeroDivisionError
  else Raise TypeError.

(** Truthiness of an [int] flag. *)
Definition truthy (z : Z) : bool := negb (z =? 0)%Z.

(** Dictionaries with string keys, as association lists. *)
Fixpoint dict_get {V : Type} (d : list (string * V)) (k : string) : option V :=
  match d with
  | [] => None
  | (k', v) :: d' => if String.eqb k k' then Some v else dict_get d' k
  end.

(** [d[k]] *)
Definition dict_index {V : Type} (d : list (string * V)) (k : string) : result V :=
  match dict_get d k with
  | Some v => Ok v
  | None => Raise KeyError
  end.

(** Dictionaries with integer keys. *)
Fixpoint zdict_get {V : Type} (d : list (Z * V)) (k : Z) : option V :=
  match d with
  | [] => None
  | (k', v) :: d' => if (k =? k')%Z then Some v else zdict_get d' k
  end.

(** [k in d] *)
Definition zdict_mem {V : Type} (d : list (Z * V)) (k : Z) : bool :=
  match zdict_get d k with Some _ => true | None => false end.

(** [d.get(k, dflt)] *)
Definition zdict_get_default {V : Type} (d : list (Z * V)) (k : Z) (dflt : V) : V :=
  match zdict_get d k with Some v => v | None => dflt end.

(** [l[i]] for a non-negative index. *)
Definition list_index {A : Type} (l : list A) (i : nat) : result A :=
  match nth_error l i with
  | Some a => Ok a
  | None => Raise IndexError
  end.

(** [str.upper()] on ASCII letters. *)
Definition upper_ascii (c : ascii) : ascii :=
  let n := nat_of_ascii c in
  if (97 <=? n)%nat && (n <=? 122)%nat then ascii_of_nat (n - 32) else c.

Fixpoint upper (s : string) : string :=
  match s with
  | EmptyString => EmptyString
  | String c s' => String (upper_ascii c) (upper s')
  end.

(** [str(n)] on an [int]. *)
Definition str_of_Z (z : Z) : string := NilZero.string_of_int (Z.to_int z).

End Py.
Export Py.

(** ** Dates *)

Module Calendar.

(** [date.weekday()] of the date with the given ordinal: 0 is Monday. *)
Definition weekday_of_ordinal (n : Z) : Z := ((n + 6) mod 7)%Z.

(** [date.month] of the date with the given ordinal. *)
Definition month_of_ordinal (n : Z) : Z :=
  (let z := n + 305 in
   let era := z / 146097 in
   let doe := z - era * 146097 in
   let yoe := (doe - doe / 1460 + doe / 36524 - doe / 146096) / 365 in
   let doy := doe - (365 * yoe + yoe / 4 - yoe / 100) in
   let mp := (5 * doy + 2) / 153 in
   if mp <? 10 then mp + 3 else mp - 9)%Z.

(** A [datetime], down to the second (what [strftime] prints). *)
Record DateTime : Type := mkDateTime {
  dt_ordinal : Z;
  dt_hour : Z;
  dt_minute : Z;
  dt_second : Z
}.

(** [dt + timedelta(hours=h)] *)
Definition add_hours (dt : DateTime) (h : Z) : DateTime :=
  (let t := dt_ordinal dt * 24 + dt_hour dt + h in
   mkDateTime (t / 24) (t mod 24) (dt_minute dt) (dt_second dt))%Z.

(** [dt - timedelta(days=d)] *)
Definition sub_days (dt : DateTime) (d : Z) : DateTime :=
  mkDateTime (dt_ordinal dt - d)%Z (dt_hour dt) (dt_minute dt) (dt_second dt).

End Calendar.
Export Calendar.

(** ** The random source and the generator monad *)

(** Outcome of the k-th call to the [random] module: the value of
    [random.random()], the standard normal variate behind
    [random.normalvariate], and the value of [_randbelow(n)] behind
    [random.randint]. *)
Record RandomSource : Type := mkSource {
  unit_at : nat -> R;
  gauss_at : nat -> R;
  below_at : nat -> Z -> Z
}.

(** What the [random] module guarantees of its draws. *)
Definition valid_source (src : RandomSource) : Prop :=
  (forall k, 0 <= unit_at src k < 1) /\
  (forall k n, (0 < n)%Z -> (0 <= below_at src k n < n)%Z).

(** Two sources that answer every call alike. *)
Definition same_draws (s1 s2 : RandomSource) : Prop :=
  (forall k, unit_at s1 k = unit_at s2 k) /\
  (forall k, gauss_at s1 k = gauss_at s2 k) /\
  (forall k n, below_at s1 k n = below_at s2 k n).

(** Computations that count the calls made and may raise. *)
Definition M (A : Type) : Type := nat -> result (A * nat).

Definition ret {A : Type} (a : A) : M A := fun k => Ok (a, k).

Definition bind {A B : Type} (m : M A) (f : A -> M B) : M B :=
  fun k => match m k with
           | Ok (a, k') => f a k'
           | Raise e => Raise e
           end.

Definition lift {A : Type} (r : result A) : M A :=
  fun k => match r with
           | Ok a => Ok (a, k)
           | Raise e => Raise e
           end.

Notation "x <- m ;; f" := (bind m (fun x => f))
  (at level 61, m at next level, right associativity).

(** A [for] loop whose body appends rows to the shared [data] list: the
    rows of the loop are the rows of its iterations, in order. *)
Fixpoint for_each {A B : Type} (xs : list A) (body : A -> M (list B)) : M (list B) :=
  match xs with
  | [] => ret []
  | x :: xs' =>
      ys <- body x ;;
      zs <- for_each xs' body ;;
      ret (ys ++ zs)
  end.

(** The result of a run from the first call on, without the call count. *)
Definition run {A : Type} (m : M A) : result A :=
  match m 0%nat with
  | Ok (a, _) => Ok a
  | Raise e => Raise e
  end.

Section Random.

Variable src : RandomSource.

(** [random.random()] *)
Definition random : M R := fun k => Ok (unit_at src k, S k).

(** [random.uniform(a, b)] *)
Definition uniform (a b : R) : M R :=
  u <- random ;; ret (a + (b - a) * u).

(** [random.normalvariate(mu, sigma)] *)
Definition normalvariate (mu sigma : R) : M R :=
  fun k => Ok (mu + gauss_at src k * sigma, S k).

(** [random.randint(a, b)] *)
Definition randint (a b : Z) : M Z :=
  fun k => Ok ((a + below_at src k (b - a + 1))%Z, S k).

End Random.

(** ** Configuration *)

(** The module-level constants of [data_generation.py]. [MANDIS] is derived
    from [REGIONS] and appears as the function [mandi_of]. *)
Record Config : Type := mkConfig {
  NUM_DAYS : nat;
  REGIONS : list string;
  SKUS : list string;
  PACKAGING_MAP : list (string * R);
  CHANNELS : list string;
  STORES_PER_REGION : nat;
  SEASONALITY_MONTHS : list (Z * R);
  WEEKDAY_FACTORS : list (string * list R)
}.

Definition default_config : Config := {|
  NUM_DAYS := 360;
  REGIONS := ["Pune"; "Nashik"; "Mumbai"; "Nagpur"; "Aurangabad"; "Kolhapur";
              "Solapur"; "Amravati"; "Nanded"; "Jalgaon"]%string;
  SKUS := ["MUSH-200g"; "MUSH-250g"; "MUSH-500g"; "MUSH-1kg"; "MUSH-5kg"]%string;
  PACKAGING_MAP := [("MUSH-200g", 0.2); ("MUSH-250g", 0.25); ("MUSH-500g", 0.5);
                    ("MUSH-1kg", 1.0); ("MUSH-5kg", 5.0)]%string;
  CHANNELS := ["B2B"; "B2C"]%string;
  STORES_PER_REGION := 5;
  SEASONALITY_MONTHS := [(11%Z, 1.2); (12%Z, 1.3); (1%Z, 1.1)];
  WEEKDAY_FACTORS := [("B2B", [1.1; 1.1; 1.1; 1.2; 1.3; 0.8; 0.7]);
                      ("B2C", [0.8; 0.8; 0.8; 0.9; 1.1; 1.3; 1.2])]%string
|}.

(** [MANDIS[region]], for a region of [REGIONS]. *)
Definition mandi_of (region : string) : string :=
  ("MANDI_" ++ upper region)%string.

(** ** The historical sales generator *)

(** One row of [historical_sales.csv]: the keys of the [row] dictionary. *)
Module SalesRow.
Record t : Type := mk {
  date : Z;
  region_id : string;
  mandi_id : string;
  store_id : string;
  sku_id : string;
  channel : string;
  packaging : string;
  sales_units : Z;
  sales_kg : R;
  inventory_received_kg : R;
  wastage_kg : R;
  price_offered_per_kg : R;
  optimal_price_per_kg : R;
  b2b_b2c_ratio : R;
  mandi_price_per_kg : R;
  mandi_price_change_1d : R;
  panchang_fasting_flag : Z;
  wedding_density_30d : R;
  festival_flag : Z;
  temp_max_c : R;
  temp_min_c : R;
  humidity_avg : R;
  rainfall_mm : R;
  logistics_disruption_flag : Z;
  volatility_score_14d : R;
  packaging_pref_score : R;
  lag_1_sales : Z;
  lag_7_sales_mean : R;
  label_daily_demand : Z
}.
End SalesRow.

(** The local variables of the innermost loop body at the moment the row is
    appended: the unrounded quantities the row is assembled from. *)
Module Locals.
Record t : Type := mk {
  channel : string;
  pkg_size : R;
  temp_max : R;
  humidity : R;
  base_demand : R;
  season_factor : R;
  weekday_factor : R;
  fasting_impact : R;
  wedding_impact : R;
  optimal_price : R;
  price_offered : R;
  elasticity : R;
  price_factor : R;
  noise : R;
  demand_units : Z;
  inventory_received : R;
  sales_units : Z;
  sales_kg : R;
  unsold_kg : R;
  decay_rate : R;
  wastage_kg : R
}.
End Locals.

(** The variables set once per day, before the region loop. *)
Record DayVars : Type := mkDayVars {
  curr_date : Z;
  weekday : Z;
  month : Z;
  panchang_fasting : Z;
  wedding_density : R;
  festival_flag : Z;
  logistics_disruption : Z;
  base_temp : R
}.

(** The variables set once per region of a day, before the SKU loop. *)
Record RegionVars : Type := mkRegionVars {
  region : string;
  mandi_id : string;
  temp_max : R;
  temp_min : R;
  humidity : R;
  rainfall : R;
  mandi_price : R;
  mandi_change : R
}.

(** The demand formulas of the loop body, as functions of their inputs. *)

Definition base_demand_of (channel : string) : R :=
  if (channel =? "B2C")%string then 50 else 200.

Definition fasting_impact_of (panchang_fasting : Z) (channel : string) : R :=
  if truthy panchang_fasting && (channel =? "B2C")%string then 0.7 else 1.0.

Definition wedding_impact_of (wedding_density : R) (channel : string) : R :=
  if (channel =? "B2B")%string then 1.0 + wedding_density else 1.0.

Definition optimal_price_of (mandi_price : R) (channel : string) (pkg_size : R) : R :=
  mandi_price * (if (channel =? "B2B")%string then 1.2 else 1.5) + pkg_size * 10.

Definition elasticity_of (channel : string) : R :=
  if (channel =? "B2C")%string then -1.5 else -0.8.

(** [(price_offered / optimal_price) ** elasticity] *)
Definition price_factor_of (channel : string) (price_offered optimal_price : R) : result R :=
  match py_div price_offered optimal_price with
  | Ok ratio => py_pow ratio (elasticity_of channel)
  | Raise e => Raise e
  end.

(** The product under [int(...)] on the [demand_units] line. *)
Definition demand_product (base season wkday fasting wedding pfactor noise : R) : R :=
  base * season * wkday * fasting * wedding * pfactor * noise.

Definition demand_units_of (base season wkday fasting wedding pfactor noise : R) : Z :=
  py_int (demand_product base season wkday fasting wedding pfactor noise).

(** The fulfilment and wastage formulas. *)

Definition sales_units_of (demand_units : Z) (inventory_received pkg_size : R) : result Z :=
  match py_div inventory_received pkg_size with
  | Ok q => Ok (Z.min demand_units (py_int q))
  | Raise e => Raise e
  end.

Definition decay_rate_of (temp_max humidity : R) : R :=
  0.1 + (if Rgt_dec temp_max 30 then 0.05 else 0)
      + (if Rgt_dec humidity 80 then 0.05 else 0).

Definition unsold_of (inventory_received sales_kg : R) : R :=
  Rmax 0 (inventory_received - sales_kg).

(** The [store_id] entry of the row. *)
Definition store_id_of (region channel : string) (store_idx : nat) : string :=
  (region ++ "_" ++ channel ++ "_" ++ str_of_Z (Z.of_nat store_idx))%string.

(** The [packaging] entry of the row. *)
Definition packaging_of (pkg_size : R) : string :=
  if Rlt_dec pkg_size 1
  then (str_of_Z (py_int (pkg_size * 1000)) ++ "g")%string
  else (str_of_Z (py_int pkg_size) ++ "kg")%string.

Section Historical.

Variable cfg : Config.
Variable src : RandomSource.

(** The body of the store loop: one row per (day, region, SKU, channel,
    store), together with its local variables. *)
Definition store_body (d : DayVars) (r : RegionVars) (sku : string) (pkg_size : R)
    (channel : string) (store_idx : nat) : M (list (Locals.t * SalesRow.t)) :=
  let store_id := store_id_of (region r) channel store_idx in
  let base_demand := base_demand_of channel in
  let season_factor := zdict_get_default (SEASONALITY_MONTHS cfg) (month d) 1.0 in
  table <- lift (dict_index (WEEKDAY_FACTORS cfg) channel) ;;
  weekday_factor <- lift (list_index table (Z.to_nat (weekday d))) ;;
  let fasting_impact := fasting_impact_of (panchang_fasting d) channel in
  let wedding_impact := wedding_impact_of (wedding_density d) channel in
  let optimal_price := optimal_price_of (mandi_price r) channel pkg_size in
  u <- uniform src 0.95 1.05 ;;
  let price_offered := optimal_price * u in
  let elasticity := elasticity_of channel in
  price_factor <- lift (price_factor_of channel price_offered optimal_price) ;;
  noise <- uniform src 0.8 1.2 ;;
  let demand_units :=
    demand_units_of base_demand season_factor weekday_factor fasting_impact
                    wedding_impact price_factor noise in
  inventory_received <-
    (if truthy (logistics_disruption d)
     then (s <- uniform src 0.5 0.8 ;; ret (IZR demand_units * pkg_size * s))
     else (s <- uniform src 1.0 1.2 ;; ret (IZR demand_units * pkg_size * s))) ;;
  sales_units <- lift (sales_units_of demand_units inventory_received pkg_size) ;;
  let sales_kg := IZR sales_units * pkg_size in
  let unsold_kg := unsold_of inventory_received sales_kg in
  let decay_rate := decay_rate_of (temp_max r) (humidity r) in
  let wastage_kg := unsold_kg * decay_rate in
  volatility <- uniform src 0 1 ;;
  pref <- uniform src 0.3 0.9 ;;
  lag1 <- uniform src 0.9 1.1 ;;
  lag7 <- uniform src 0.8 1.2 ;;
  ret [(Locals.mk channel pkg_size (temp_max r) (humidity r)
          base_demand season_factor weekday_factor fasting_impact wedding_impact
          optimal_price price_offered elasticity price_factor noise demand_units
          inventory_received sales_units sales_kg unsold_kg decay_rate wastage_kg,
        {| SalesRow.date := curr_date d;
           SalesRow.region_id := region r;
           SalesRow.mandi_id := mandi_id r;
           SalesRow.store_id := store_id;
           SalesRow.sku_id := sku;
           SalesRow.channel := channel;
           SalesRow.packaging := packaging_of pkg_size;
           SalesRow.sales_units := sales_units;
           SalesRow.sales_kg := py_round sales_kg 2;
           SalesRow.inventory_received_kg := py_round inventory_received 2;
           SalesRow.wastage_kg := py_round wastage_kg 2;
           SalesRow.price_offered_per_kg := py_round price_offered 2;
           SalesRow.optimal_price_per_kg := py_round optimal_price 2;
           SalesRow.b2b_b2c_ratio := if (channel =? "B2B")%string then 0.8 else 0.2;
           SalesRow.mandi_price_per_kg := py_round (mandi_price r) 2;
           SalesRow.mandi_price_change_1d := py_round (mandi_change r) 2;
           SalesRow.panchang_fasting_flag := panchang_fasting d;
           SalesRow.wedding_density_30d := py_round (wedding_density d) 2;
           SalesRow.festival_flag := festival_flag d;
           SalesRow.temp_max_c := py_round (temp_max r) 1;
           SalesRow.temp_min_c := py_round (temp_min r) 1;
           SalesRow.humidity_avg := py_round (humidity r) 1;
           SalesRow.rainfall_mm := py_round (rainfall r) 1;
           SalesRow.logistics_disruption_flag := logistics_disruption d;
           SalesRow.volatility_score_14d := py_round volatility 2;
           SalesRow.packaging_pref_score := py_round pref 2;
           SalesRow.lag_1_sales := py_int (IZR sales_units * lag1);
           SalesRow.lag_7_sales_mean := py_round (IZR sales_units * lag7) 2;
           SalesRow.label_daily_demand := demand_units |})].

(** The body of the SKU loop: the channel loop over [range(2)] stores. *)
Definition sku_body (d : DayVars) (r : RegionVars) (sku : string)
    : M (list (Locals.t * SalesRow.t)) :=
  pkg_size <- lift (dict_index (PACKAGING_MAP cfg) sku) ;;
  for_each (CHANNELS cfg) (fun channel =>
    for_each (seq 0 2) (fun store_idx =>
      store_body d r sku pkg_size channel store_idx)).

(** The body of the region loop. *)
Definition region_body (d : DayVars) (region : string) : M (list (Locals.t * SalesRow.t)) :=
  let mandi_id := mandi_of region in
  t <- uniform src (-3) 5 ;;
  let temp_max := base_temp d + t in
  t' <- uniform src 8 15 ;;
  let temp_min := temp_max - t' in
  humidity <- uniform src 30 90 ;;
  rainfall <-
    (if Rgt_dec humidity 70
     then (p <- random src ;;
           if Rlt_dec p 0.3 then uniform src 5 100 else ret 0.0)
     else ret 0.0) ;;
  let mandi_price_base := 120 in
  v <- uniform src 0.9 1.1 ;;
  let mandi_volatility := if truthy (festival_flag d) then v + 0.1 else v in
  let mandi_price := mandi_price_base * mandi_volatility in
  mandi_change <- uniform src (-10) 10 ;;
  let r := mkRegionVars region mandi_id temp_max temp_min humidity rainfall
                        mandi_price mandi_change in
  for_each (SKUS cfg) (fun sku => sku_body d r sku).

(** The body of the day loop; [today] is the date read at import time. *)
Definition day_body (today : Z) (day_offset : nat) : M (list (Locals.t * SalesRow.t)) :=
  let curr_date := (today - Z.of_nat (NUM_DAYS cfg) + Z.of_nat day_offset)%Z in
  let weekday := weekday_of_ordinal curr_date in
  let month := month_of_ordinal curr_date in
  p <- random src ;;
  let panchang_fasting := if Rlt_dec p 0.15 then 1%Z else 0%Z in
  w <- uniform src 0.0 0.3 ;;
  wedding_density <-
    (if zdict_mem (SEASONALITY_MONTHS cfg) month
     then (w' <- uniform src 0.3 0.6 ;; ret (w + w'))
     else ret w) ;;
  p <- random src ;;
  let festival_flag := if Rlt_dec p 0.05 then 1%Z else 0%Z in
  p <- random src ;;
  let logistics_disruption := if Rlt_dec p 0.02 then 1%Z else 0%Z in
  let base_temp := 25 + 10 * sin (2 * PI * INR day_offset / 365) in
  let d := mkDayVars curr_date weekday month panchang_fasting wedding_density
                     festival_flag logistics_disruption base_temp in
  for_each (REGIONS cfg) (fun region => region_body d region).

(** The loop nest of [generate_historical_sales], with the local variables
    of each row. *)
Definition historical_loop (today : Z) : M (list (Locals.t * SalesRow.t)) :=
  for_each (seq 0 (NUM_DAYS cfg)) (fun day_offset => day_body today day_offset).

End Historical.

(** A run of the generator with its local variables kept. *)
Definition generate_historical_trace (cfg : Config) (today : Z) (src : RandomSource)
    : result (list (Locals.t * SalesRow.t)) :=
  run (historical_loop cfg src today).

(** [generate_historical_sales()]: the rows handed to [pd.DataFrame]. *)
Definition generate_historical_sales (cfg : Config) (today : Z) (src : RandomSource)
    : result (list SalesRow.t) :=
  match generate_historical_trace cfg today src with
  | Ok t => Ok (map snd t)
  | Raise e => Raise e
  end.

(** ** The intraday telemetry generator *)

(** One row of [intraday_telemetry.csv]. *)
Module Telemetry.
Record t : Type := mk {
  datetime : DateTime;
  region_id : string;
  mandi_price_per_kg : R;
  pos_transactions_last_hour : Z;
  vehicle_delay_minutes : Z;
  weather_now_temp : R;
  weather_now_humidity : R;
  logistics_disruption_flag : Z;
  intraday_baseline_pred : R;
  intraday_actual_sales_partial : Z;
  intraday_event : string
}.
End Telemetry.

(** [[0.01]*8 + [0.05, ..., 0.01] + [0.0]*4] *)
Definition hourly_profile : list R :=
  repeat 0.01 8
  ++ [0.05; 0.08; 0.1; 0.1; 0.1; 0.1; 0.1; 0.1; 0.08; 0.05; 0.02; 0.01]
  ++ repeat 0.0 4.

Section Intraday.

Variable cfg : Config.
Variable src : RandomSource.

(** The body of the region loop of [generate_intraday_telemetry]. *)
Definition telemetry_body (curr_dt : DateTime) (is_daytime : bool) (region : string)
    : M (list Telemetry.t) :=
  n <- uniform src (-5) 5 ;;
  let mandi_price := 120 + n in
  n <- uniform src (-2) 2 ;;
  let temp := 25 + (if is_daytime then 5 else -5) + n in
  n <- uniform src (-10) 10 ;;
  let humidity := 60 + n in
  let event := "none"%string in
  p <- random src ;;
  let event := if Rlt_dec p 0.01 then "heavy_rain"%string else event in
  p <- random src ;;
  let event := if Rlt_dec p 0.005 then "strike"%string else event in
  g <- (if is_daytime then normalvariate src 50 15 else normalvariate src 5 2) ;;
  let pos_tx := py_int g in
  let pos_tx :=
    if (event =? "heavy_rain")%string then py_int (IZR pos_tx * 0.5) else pos_tx in
  let delay := 0%Z in
  delay <- (if (event =? "strike")%string then randint src 60 300 else ret delay) ;;
  p <- random src ;;
  delay <- (if Rlt_dec p 0.05 then randint src 10 45 else ret delay) ;;
  let baseline := 1000 in
  expected_fraction <-
    (if (dt_hour curr_dt <? 24)%Z
     then lift (list_index hourly_profile (Z.to_nat (dt_hour curr_dt)))
     else ret 0) ;;
  let baseline_hourly := baseline * expected_fraction in
  s <- uniform src 0.8 1.2 ;;
  let actual_sales := py_int (baseline_hourly * s) in
  ret [ {| Telemetry.datetime := curr_dt;
           Telemetry.region_id := region;
           Telemetry.mandi_price_per_kg := py_round mandi_price 2;
           Telemetry.pos_transactions_last_hour := pos_tx;
           Telemetry.vehicle_delay_minutes := delay;
           Telemetry.weather_now_temp := py_round temp 1;
           Telemetry.weather_now_humidity := py_round humidity 1;
           Telemetry.logistics_disruption_flag := if (60 <? delay)%Z then 1%Z else 0%Z;
           Telemetry.intraday_baseline_pred := py_round baseline_hourly 2;
           Telemetry.intraday_actual_sales_partial := actual_sales;
           Telemetry.intraday_event := event |} ].

(** The body of the hour loop; [start_dt] is seven days before [now]. *)
Definition hour_body (start_dt : DateTime) (hour_offset : nat) : M (list Telemetry.t) :=
  let curr_dt := add_hours start_dt (Z.of_nat hour_offset) in
  let is_daytime := ((8 <=? dt_hour curr_dt) && (dt_hour curr_dt <=? 20))%Z in
  for_each (REGIONS cfg) (fun region => telemetry_body curr_dt is_daytime region).

Definition intraday_loop (now : DateTime) : M (list Telemetry.t) :=
  let start_dt := sub_days now 7 in
  for_each (seq 0 (7 * 24)) (fun hour_offset => hour_body start_dt hour_offset).

End Intraday.

(** [generate_intraday_telemetry()]: the rows handed to [pd.DataFrame]. *)
Definition generate_intraday_telemetry (cfg : Config) (now : DateTime) (src : RandomSource)
    : result (list Telemetry.t) :=
  run (intraday_loop cfg src now).

(** ** Well-formed configurations *)

(** Every SKU has a packaging entry accepted by [unit_ok]. *)
Definition skus_packaged (unit_ok : R -> Prop) (cfg : Config) : Prop :=
  forall sku, In sku (SKUS cfg) ->
    exists p, dict_get (PACKAGING_MAP cfg) sku = Some p /\ unit_ok p.

(** Every channel has a weekday table with an entry for each of the seven
    weekdays, accepted by [factor_ok]. *)
Definition channels_tabled (factor_ok : R -> Prop) (cfg : Config) : Prop :=
  forall ch, In ch (CHANNELS cfg) ->
    exists tbl, dict_get (WEEKDAY_FACTORS cfg) ch = Some tbl /\
      forall i, (i < 7)%nat -> exists f, nth_error tbl i = Some f /\ factor_ok f.

(** Every seasonality multiplier is non-negative. *)
Definition seasons_nonneg (cfg : Config) : Prop :=
  forall m f, In (m, f) (SEASONALITY_MONTHS cfg) -> 0 <= f.

(** The configuration the demand, fulfilment and wastage formulas are
    written for: positive unit sizes and non-negative multipliers. *)
Definition valid_config (cfg : Config) : Prop :=
  skus_packaged (fun p => 0 < p) cfg /\
  channels_tabled (fun f => 0 <= f) cfg /\
  seasons_nonneg cfg.

(** What the loop body needs in order not to raise: unit sizes that are
    non-zero and keep the optimal price positive, and complete tables. *)
Definition runnable_config (cfg : Config) : Prop :=
  skus_packaged (fun p => p <> 0 /\ -12 < p) cfg /\
  channels_tabled (fun _ => True) cfg.

(** ** Provenance of a historical row *)

(** What the loop body establishes of the local variables of a row it
    appends, and how the row is assembled from them. *)
Record generated (cfg : Config) (l : Locals.t) (row : SalesRow.t) : Prop := mkGenerated {
  gen_pkg : exists sku, In sku (SKUS cfg) /\
              dict_get (PACKAGING_MAP cfg) sku = Some (Locals.pkg_size l);
  gen_channel : In (Locals.channel l) (CHANNELS cfg);
  gen_base : Locals.base_demand l = base_demand_of (Locals.channel l);
  gen_season : exists m,
      Locals.season_factor l = zdict_get_default (SEASONALITY_MONTHS cfg) m 1.0;
  gen_weekday : exists tbl i,
      dict_get (WEEKDAY_FACTORS cfg) (Locals.channel l) = Some tbl /\
      (i < 7)%nat /\ nth_error tbl i = Some (Locals.weekday_factor l);
  gen_fasting : exists flag,
      Locals.fasting_impact l = fasting_impact_of flag (Locals.channel l);
  gen_wedding : exists wd, 0 <= wd /\
      Locals.wedding_impact l = wedding_impact_of wd (Locals.channel l);
  gen_optimal : 0 < Locals.optimal_price l;
  gen_offered : exists u, 0.95 <= u < 1.05 /\
      Locals.price_offered l = Locals.optimal_price l * u;
  gen_elasticity : Locals.elasticity l = elasticity_of (Locals.channel l);
  gen_pfactor :
      price_factor_of (Locals.channel l) (Locals.price_offered l)
                      (Locals.optimal_price l) = Ok (Locals.price_factor l);
  gen_noise : 0.8 <= Locals.noise l < 1.2;
  gen_demand :
      Locals.demand_units l =
      demand_units_of (Locals.base_demand l) (Locals.season_factor l)
        (Locals.weekday_factor l) (Locals.fasting_impact l)
        (Locals.wedding_impact l) (Locals.price_factor l) (Locals.noise l);
  gen_inventory : exists s, 0.5 <= s < 1.2 /\
      Locals.inventory_received l =
      IZR (Locals.demand_units l) * Locals.pkg_size l * s;
  gen_sales :
      sales_units_of (Locals.demand_units l) (Locals.inventory_received l)
                     (Locals.pkg_size l) = Ok (Locals.sales_units l);
  gen_sales_kg :
      Locals.sales_kg l = IZR (Locals.sales_units l) * Locals.pkg_size l;
  gen_unsold :
      Locals.unsold_kg l = unsold_of (Locals.inventory_received l) (Locals.sales_kg l);
  gen_decay :
      Locals.decay_rate l = decay_rate_of (Locals.temp_max l) (Locals.humidity l);
  gen_wastage : Locals.wastage_kg l = Locals.unsold_kg l * Locals.decay_rate l;
  gen_row_demand : SalesRow.label_daily_demand row = Locals.demand_units l;
  gen_row_units : SalesRow.sales_units row = Locals.sales_units l;
  gen_row_sales_kg : SalesRow.sales_kg row = py_round (Locals.sales_kg l) 2;
  gen_row_inventory :
      SalesRow.inventory_received_kg row = py_round (Locals.inventory_received l) 2;
  gen_row_wastage : SalesRow.wastage_kg row = py_round (Locals.wastage_kg l) 2;
  gen_row_channel : SalesRow.channel row = Locals.channel l;
  gen_row_temp_max : SalesRow.temp_max_c row = py_round (Locals.temp_max l) 1;
  gen_row_humidity : SalesRow.humidity_avg row = py_round (Locals.humidity l) 1
}.

(** The coordinates of a row in the loop nest. *)
Definition RowKey : Type := (Z * string * string * string * string)%type.

Definition row_key (row : SalesRow.t) : RowKey :=
  (SalesRow.date row, SalesRow.region_id row, SalesRow.sku_id row, SalesRow.channel row, SalesRow.store_id row).

(** The coordinates the loop nest visits, in its iteration order. *)
Definition store_keys (date : Z) (region sku channel : string) : list RowKey :=
  map (fun store_idx => (date, region, sku, channel, store_id_of region channel store_idx))
      (seq 0 2).

Definition sku_keys (cfg : Config) (date : Z) (region sku : string) : list RowKey :=
  flat_map (fun channel => store_keys date region sku channel) (CHANNELS cfg).

Definition region_keys (cfg : Config) (date : Z) (region : string) : list RowKey :=
  flat_map (fun sku => sku_keys cfg date region sku) (SKUS cfg).

Definition day_keys (cfg : Config) (today : Z) (day_offset : nat) : list RowKey :=
  flat_map (fun region =>
              region_keys cfg (today - Z.of_nat (NUM_DAYS cfg) + Z.of_nat day_offset)%Z region)
           (REGIONS cfg).

Definition cross_product (cfg : Config) (today : Z) : list RowKey :=
  flat_map (fun day_offset => day_keys cfg today day_offset) (seq 0 (NUM_DAYS cfg)).

(** ** Sample inputs *)

(** The source every call of which falls in the middle of its range. *)
Definition half_source : RandomSource :=
  mkSource (fun _ => 1 / 2) (fun _ => 0) (fun _ _ => 0%Z).

(** 3 November 2026, a Tuesday. *)
Definition sample_today : Z := 739923.

(** The source whose uniform draws are all 0: every Bernoulli test
    succeeds and every [randint] returns its lower bound. *)
Definition zero_source : RandomSource :=
  mkSource (fun _ => 0) (fun _ => 0) (fun _ _ => 0%Z).

(** A source whose normal variates lie four deviations below the mean. *)
Definition cold_source : RandomSource :=
  mkSource (fun _ => 1 / 2) (fun _ => -4) (fun _ _ => 0%Z).

(** 3 November 2026 at 02:30:00, and one second later. *)
Definition sample_now : DateTime := mkDateTime 739923 2 30 0.
Definition sample_now_later : DateTime := mkDateTime 739923 2 30 1.

(** ** What a telemetry row is computed from *)

(** The row appended by the intraday loop body when it starts at call [k]:
    the event, the transaction count and the delay as functions of the
    draws. *)
Definition telemetry_event (src : RandomSource) (k : nat) : string :=
  if Rlt_dec (unit_at src (4 + k)) 0.005 then "strike"%string
  else if Rlt_dec (unit_at src (3 + k)) 0.01 then "heavy_rain"%string
  else "none"%string.

Definition telemetry_pos_tx (src : RandomSource) (is_daytime : bool) (k : nat) : Z :=
  let g := if is_daytime then 50 + gauss_at src (5 + k) * 15
           else 5 + gauss_at src (5 + k) * 2 in
  if (telemetry_event src k =? "heavy_rain")%string
  then py_int (IZR (py_int g) * 0.5) else py_int g.

(** The call at which the minor-delay test is made: one later on a strike. *)
Definition minor_delay_call (src : RandomSource) (k : nat) : nat :=
  if (telemetry_event src k =? "strike")%string then (7 + k)%nat else (6 + k)%nat.

Definition telemetry_delay (src : RandomSource) (k : nat) : Z :=
  if Rlt_dec (unit_at src (minor_delay_call src k)) 0.05
  then (10 + below_at src (S (minor_delay_call src k)) (45 - 10 + 1))%Z
  else if (telemetry_event src k =? "strike")%string
       then (60 + below_at src (6 + k) (300 - 60 + 1))%Z
       else 0%Z.

Definition telemetry_post (src : RandomSource) (curr_dt : DateTime) (is_daytime : bool)
    (region : string) (k : nat) (row : Telemetry.t) : Prop :=
  Telemetry.datetime row = curr_dt /\
  Telemetry.region_id row = region /\
  Telemetry.intraday_event row = telemetry_event src k /\
  Telemetry.pos_transactions_last_hour row = telemetry_pos_tx src is_daytime k /\
  Telemetry.vehicle_delay_minutes row = telemetry_delay src k.

(** [8 <= curr_dt.hour <= 20] *)
Definition is_daytime_at (dt : DateTime) : bool :=
  ((8 <=? dt_hour dt) && (dt_hour dt <=? 20))%Z.

(** The coordinates of a telemetry row, and those the intraday loop nest
    visits, in its iteration order. *)
Definition telemetry_key (row : Telemetry.t) : DateTime * string :=
  (Telemetry.datetime row, Telemetry.region_id row).

Definition intraday_keys (cfg : Config) (now : DateTime) : list (DateTime * string) :=
  flat_map (fun hour_offset =>
              map (fun region => (add_hours (sub_days now 7) (Z.of_nat hour_offset), region))
                  (REGIONS cfg))
           (seq 0 (7 * 24)).

(** A telemetry row computed by the loop body from some call on. *)
Definition telemetry_generated (src : RandomSource) (row : Telemetry.t) : Prop :=
  exists k,
    telemetry_post src (Telemetry.datetime row) (is_daytime_at (Telemetry.datetime row))
                   (Telemetry.region_id row) k row.

(** ** Demand as a function of the offered price *)

(** The [price_factor] and [demand_units] lines of the loop body, with
    every input but [price_offered] held fixed. *)
Definition demand_at_price (channel : string) (season wkday : R) (fasting : Z)
    (wedding_density noise optimal_price price_offered : R) : result Z :=
  match price_factor_of channel price_offered optimal_price with
  | Ok pf =>
      Ok (demand_units_of (base_demand_of channel) season wkday
            (fasting_impact_of fasting channel)
            (wedding_impact_of wedding_density channel) pf noise)
  | Raise e => Raise e
  end.

(** ** Variants of the configuration *)

(** The configuration with another value of [STORES_PER_REGION]. *)
Definition with_stores (cfg : Config) (n : nat) : Config :=
  mkConfig (NUM_DAYS cfg) (REGIONS cfg) (SKUS cfg) (PACKAGING_MAP cfg)
           (CHANNELS cfg) n (SEASONALITY_MONTHS cfg) (WEEKDAY_FACTORS cfg).

(** The default configuration with a negative size for the 200 g pack. *)
Definition negative_unit_config : Config :=
  mkConfig (NUM_DAYS default_config) (REGIONS default_config) (SKUS default_config)
           [("MUSH-200g", -0.2); ("MUSH-250g", 0.25); ("MUSH-500g", 0.5);
            ("MUSH-1kg", 1.0); ("MUSH-5kg", 5.0)]%string
           (CHANNELS default_config) (STORES_PER_REGION default_config)
           (SEASONALITY_MONTHS default_config) (WEEKDAY_FACTORS default_config).

(** The default configuration without regions. *)
Definition no_region_config : Config :=
  mkConfig (NUM_DAYS default_config) [] (SKUS default_config)
           (PACKAGING_MAP default_config) (CHANNELS default_config)
           (STORES_PER_REGION default_config)
           (SEASONALITY_MONTHS default_config) (WEEKDAY_FACTORS default_config).

(** ** The scenario of a Business row on an ordinary Monday *)

(** A Monday of June without fasting, weddings, festival or disruption. *)
Definition scenario_day : DayVars :=
  mkDayVars 739775 0 6 0 0 0 0 25.

(** A region at a mandi price of 120. *)
Definition scenario_region : RegionVars :=
  mkRegionVars "Pune" (mandi_of "Pune") 27 17 60 0 120 0.

(** ** What a day, a region and a row are sampled from *)

(** The variables of the day loop body at offset [day_offset]: the date,
    the flags and the ranges of the draws. *)
Record day_sampled (cfg : Config) (today : Z) (day_offset : nat) (d : DayVars)
    : Prop := mkDaySampled {
  ds_date : curr_date d = (today - Z.of_nat (NUM_DAYS cfg) + Z.of_nat day_offset)%Z;
  ds_weekday : weekday d = weekday_of_ordinal (curr_date d);
  ds_month : month d = month_of_ordinal (curr_date d);
  ds_fasting : panchang_fasting d = 0%Z \/ panchang_fasting d = 1%Z;
  ds_festival : festival_flag d = 0%Z \/ festival_flag d = 1%Z;
  ds_disruption : logistics_disruption d = 0%Z \/ logistics_disruption d = 1%Z;
  ds_wedding :
    if zdict_mem (SEASONALITY_MONTHS cfg) (month d)
    then 0.3 <= wedding_density d < 0.9
    else 0 <= wedding_density d < 0.3;
  ds_base_temp : base_temp d = 25 + 10 * sin (2 * PI * INR day_offset / 365)
}.

(** The variables of the region loop body for [region] on the day [d]. *)
Record region_sampled (d : DayVars) (region0 : string) (r : RegionVars)
    : Prop := mkRegionSampled {
  rs_region : region r = region0;
  rs_mandi : mandi_id r = mandi_of region0;
  rs_temp_max : base_temp d - 3 <= temp_max r < base_temp d + 5;
  rs_temp_min : 8 <= temp_max r - temp_min r < 15;
  rs_humidity : 30 <= humidity r < 90;
  rs_rainfall : rainfall r = 0 \/ (70 < humidity r /\ 5 <= rainfall r < 100);
  rs_mandi_price :
    if truthy (festival_flag d)
    then 120 <= mandi_price r < 144
    else 108 <= mandi_price r < 132;
  rs_mandi_change : -10 <= mandi_change r < 10
}.

(** How the store loop body fills a row and its local variables from the
    day [d], the region [r] and the SKU. *)
Record row_assembled (cfg : Config) (d : DayVars) (r : RegionVars) (sku : string)
    (l : Locals.t) (row : SalesRow.t) : Prop := mkRowAssembled {
  ra_date : SalesRow.date row = curr_date d;
  ra_region : SalesRow.region_id row = region r;
  ra_mandi : SalesRow.mandi_id row = mandi_id r;
  ra_sku : SalesRow.sku_id row = sku;
  ra_pkg : dict_get (PACKAGING_MAP cfg) sku = Some (Locals.pkg_size l);
  ra_packaging : SalesRow.packaging row = packaging_of (Locals.pkg_size l);
  ra_ratio :
    SalesRow.b2b_b2c_ratio row =
    if (SalesRow.channel row =? "B2B")%string then 0.8 else 0.2;
  ra_fasting : SalesRow.panchang_fasting_flag row = panchang_fasting d;
  ra_festival : SalesRow.festival_flag row = festival_flag d;
  ra_disruption : SalesRow.logistics_disruption_flag row = logistics_disruption d;
  ra_wedding : SalesRow.wedding_density_30d row = py_round (wedding_density d) 2;
  ra_temp_max : SalesRow.temp_max_c row = py_round (temp_max r) 1;
  ra_temp_min : SalesRow.temp_min_c row = py_round (temp_min r) 1;
  ra_humidity : SalesRow.humidity_avg row = py_round (humidity r) 1;
  ra_rainfall : SalesRow.rainfall_mm row = py_round (rainfall r) 1;
  ra_mandi_price : SalesRow.mandi_price_per_kg row = py_round (mandi_price r) 2;
  ra_mandi_change : SalesRow.mandi_price_change_1d row = py_round (mandi_change r) 2;
  ra_offered : SalesRow.price_offered_per_kg row = py_round (Locals.price_offered l) 2;
  ra_optimal_row :
    SalesRow.optimal_price_per_kg row = py_round (Locals.optimal_price l) 2;
  ra_optimal :
    Locals.optimal_price l =
    optimal_price_of (mandi_price r) (Locals.channel l) (Locals.pkg_size l);
  ra_season :
    Locals.season_factor l = zdict_get_default (SEASONALITY_MONTHS cfg) (month d) 1.0;
  ra_weekday : exists tbl,
    dict_get (WEEKDAY_FACTORS cfg) (Locals.channel l) = Some tbl /\
    nth_error tbl (Z.to_nat (weekday d)) = Some (Locals.weekday_factor l);
  ra_fasting_impact :
    Locals.fasting_impact l = fasting_impact_of (panchang_fasting d) (Locals.channel l);
  ra_wedding_impact :
    Locals.wedding_impact l = wedding_impact_of (wedding_density d) (Locals.channel l);
  ra_inventory : exists s,
    (if truthy (logistics_disruption d) then 0.5 <= s < 0.8 else 1 <= s < 1.2) /\
    Locals.inventory_received l = IZR (Locals.demand_units l) * Locals.pkg_size l * s;
  ra_volatility : exists v,
    0 <= v < 1 /\ SalesRow.volatility_score_14d row = py_round v 2;
  ra_pref : exists p,
    0.3 <= p < 0.9 /\ SalesRow.packaging_pref_score row = py_round p 2;
  ra_lag1 : exists u,
    0.9 <= u < 1.1 /\
    SalesRow.lag_1_sales row = py_int (IZR (Locals.sales_units l) * u);
  ra_lag7 : exists u,
    0.8 <= u < 1.2 /\
    SalesRow.lag_7_sales_mean row = py_round (IZR (Locals.sales_units l) * u) 2
}.

(** A row of the trace, made on the day [d] in the region [r]. *)
Definition row_full (cfg : Config) (d : DayVars) (r : RegionVars)
    (x : Locals.t * SalesRow.t) : Prop :=
  exists sku, In sku (SKUS cfg) /\
    generated cfg (fst x) (snd x) /\ row_assembled cfg d r sku (fst x) (snd x).

(** The rows a region iteration appends: all made from one [RegionVars]. *)
Definition region_block (cfg : Config) (d : DayVars) (region0 : string)
    (ys : list (Locals.t * SalesRow.t)) : Prop :=
  exists r, region_sampled d region0 r /\ Forall (row_full cfg d r) ys.

(** The rows a day iteration appends: one region block per region, all made
    from one [DayVars]. *)
Definition day_block (cfg : Config) (today : Z) (day_offset : nat)
    (ys : list (Locals.t * SalesRow.t)) : Prop :=
  exists d yss,
    ys = List.concat yss /\ day_sampled cfg today day_offset d /\
    Forall2 (region_block cfg d) (REGIONS cfg) yss.

(** A computation that raises from every state. *)
Definition raises {A : Type} (m : M A) : Prop :=
  forall k, exists e, m k = Raise e.

(** ** What a telemetry row is assembled from *)

(** The entries of the row appended by the intraday loop body started at
    call [k], besides those of [telemetry_post]. *)
Record telemetry_assembled (src : RandomSource) (k : nat) (row : Telemetry.t)
    : Prop := mkTelemetryAssembled {
  ta_event : Telemetry.intraday_event row = telemetry_event src k;
  ta_delay : Telemetry.vehicle_delay_minutes row = telemetry_delay src k;
  ta_pos_tx :
    Telemetry.pos_transactions_last_hour row =
    telemetry_pos_tx src (is_daytime_at (Telemetry.datetime row)) k;
  ta_flag :
    Telemetry.logistics_disruption_flag row =
    if (60 <? Telemetry.vehicle_delay_minutes row)%Z then 1%Z else 0%Z;
  ta_mandi : exists n,
    -5 <= n < 5 /\ Telemetry.mandi_price_per_kg row = py_round (120 + n) 2;
  ta_temp : exists n,
    -2 <= n < 2 /\
    Telemetry.weather_now_temp row =
    py_round (25 + (if is_daytime_at (Telemetry.datetime row) then 5 else -5) + n) 1;
  ta_humidity : exists n,
    -10 <= n < 10 /\ Telemetry.weather_now_humidity row = py_round (60 + n) 1;
  ta_sales : exists f s,
    nth_error hourly_profile (Z.to_nat (dt_hour (Telemetry.datetime row))) = Some f /\
    0.8 <= s < 1.2 /\
    Telemetry.intraday_baseline_pred row = py_round (1000 * f) 2 /\
    Telemetry.intraday_actual_sales_partial row = py_int (1000 * f * s)
}.

(** The default configuration without a packaging entry for the 5 kg pack. *)
Definition unpackaged_config : Config :=
  mkConfig (NUM_DAYS default_config) (REGIONS default_config) (SKUS default_config)
           [("MUSH-200g", 0.2); ("MUSH-250g", 0.25); ("MUSH-500g", 0.5);
            ("MUSH-1kg", 1.0)]%string
           (CHANNELS default_config) (STORES_PER_REGION default_config)
           (SEASONALITY_MONTHS default_config) (WEEKDAY_FACTORS default_config).

(** The default configuration with the unit size 0 for the 5 kg pack. *)
Definition zero_unit_config : Config :=
  mkConfig (NUM_DAYS default_config) (REGIONS default_config) (SKUS default_config)
           [("MUSH-200g", 0.2); ("MUSH-250g", 0.25); ("MUSH-500g", 0.5);
            ("MUSH-1kg", 1.0); ("MUSH-5kg", 0)]%string
           (CHANNELS default_config) (STORES_PER_REGION default_config)
           (SEASONALITY_MONTHS default_config) (WEEKDAY_FACTORS default_config).

(** The default configuration without a weekday table for B2C. *)
Definition untabled_config : Config :=
  mkConfig (NUM_DAYS default_config) (REGIONS default_config) (SKUS default_config)
           (PACKAGING_MAP default_config) (CHANNELS default_config)
           (STORES_PER_REGION default_config) (SEASONALITY_MONTHS default_config)
           [("B2B", [1.1; 1.1; 1.1; 1.2; 1.3; 0.8; 0.7])]%string.

(** The default configuration with a B2C table for Monday to Friday only. *)
Definition weekdays_only_config : Config :=
  mkConfig (NUM_DAYS default_config) (REGIONS default_config) (SKUS default_config)
           (PACKAGING_MAP default_config) (CHANNELS default_config)
           (STORES_PER_REGION default_config) (SEASONALITY_MONTHS default_config)
           [("B2B", [1.1; 1.1; 1.1; 1.2; 1.3; 0.8; 0.7]);
            ("B2C", [0.8; 0.8; 0.8; 0.9; 1.1])]%string.

(** ** The entry point *)

(** The [__main__] block: the historical generator, then the intraday
    generator, on the same random module. *)
Definition main (cfg : Config) (today : Z) (now : DateTime) (src : RandomSource)
    : result (list SalesRow.t * list Telemetry.t) :=
  run (t <- historical_loop cfg src today ;;
       rows <- intraday_loop cfg src now ;;
       ret (map snd t, rows)).

(** * The historical generator in binary64 *)

(** The same loop nest with Python's [float] as an IEEE 754 binary64
    number ([PrimFloat.float]), every operation rounding as the processor
    does.  [np.sin], the C library's [pow] behind [**] and the rounding of a
    NumPy scalar are not fixed by the program: they are the fields of a
    [MathLib] the generator is run with. *)

Set Warnings "-inexact-float".

Module B64.

Import PrimFloat SpecFloat FloatOps FloatAxioms.
Local Open Scope float_scope.

Record MathLib : Type := mkMathLib {
  np_sin : float -> float;
  c_pow : float -> float -> float;
  np_round : float -> nat -> float
}.

(** [not (x < 0)]: a zero, a positive number, the infinity above or a NaN. *)
Definition nonneg (x : float) : Prop := (x <? 0) = false.

(** The same on the specification side of a float. *)
Definition sf_nonneg (x : spec_float) : bool :=
  match x with
  | S754_infinity true | S754_finite true _ _ => false
  | _ => true
  end.

(** The conversion of an [int] operand of a float operation. *)
Definition float_of_int (z : Z) : result float :=
  let f := SF2Prim (binary_normalize prec emax z 0 false) in
  if is_infinity f then Raise OverflowError else Ok f.

(** [z * x] and [x * z] for an [int] [z] and a float [x]. *)
Definition int_mul (z : Z) (x : float) : result float :=
  match float_of_int z with
  | Ok f => Ok (f * x)
  | Raise e => Raise e
  end.

Definition mul_int (x : float) (z : Z) : result float :=
  match float_of_int z with
  | Ok f => Ok (x * f)
  | Raise e => Raise e
  end.

(** [int(x)] on a float: truncation toward zero; a NaN and an infinity
    are rejected. *)
Definition py_int (x : float) : result Z :=
  match Prim2SF x with
  | S754_nan => Raise ValueError
  | S754_infinity _ => Raise OverflowError
  | S754_zero _ => Ok 0%Z
  | S754_finite s m e => Ok (cond_Zopp s (Z.shiftl (Zpos m) e))
  end.

(** [math.floor(x)]: the largest integer not above [x]. *)
Definition floor (x : float) : option Z :=
  match Prim2SF x with
  | S754_zero _ => Some 0%Z
  | S754_finite s m e => Some (Z.shiftl (cond_Zopp s (Zpos m)) e)
  | S754_nan | S754_infinity _ => None
  end.

(** The integer nearest to [m * 2 ^ e], ties to even. *)
Definition nearest_even (m e : Z) : Z :=
  match e with
  | Zneg p =>
      let d := Z.pow 2 (Zpos p) in
      let q := Z.div m d in
      match Z.compare (2 * Z.modulo m d) d with
      | Lt => q
      | Gt => (q + 1)%Z
      | Eq => if Z.even q then q else (q + 1)%Z
      end
  | _ => Z.shiftl m e
  end.

(** [round(x, nd)] on a Python float: the decimal with [nd] digits nearest
    to the exact value of [x] (ties to even), then the float nearest to that
    decimal. *)
Definition py_round (x : float) (nd : nat) : float :=
  match Prim2SF x with
  | S754_finite s m e =>
      let p := Z.pow 10 (Z.of_nat nd) in
      match nearest_even (Zpos m * p) e with
      | Zpos n => SF2Prim (SF64div (S754_finite s n 0) (S754_finite false (Z.to_pos p) 0))
      | _ => if s then neg_zero else zero
      end
  | _ => x
  end.

(** [x / y] on floats. *)
Definition py_div (x y : float) : result float :=
  if y =? 0 then Raise ZeroDivisionError else Ok (x / y).

(** [x ** e] on floats, for the negative and non-integral exponents the
    program uses: [float_pow] settles the special bases itself, turns a
    negative base into a complex number (which the later [int(...)]
    rejects) and reports an overflow of the library's [pow]. *)
Definition py_pow (lib : MathLib) (x e : float) : result float :=
  if is_nan x then Ok x
  else if is_infinity x then Ok 0
  else if x =? 0 then Raise ZeroDivisionError
  else if x <? 0 then Raise TypeError
  else if x =? 1 then Ok 1
  else let r := c_pow lib x e in
       if is_infinity r then Raise OverflowError else Ok r.

(** Outcome of the k-th call to [random.random()]. *)
Record RandomSource : Type := mkSource {
  unit_at : nat -> float
}.

(** [random.random()] returns a float in [[0, 1)]. *)
Definition valid_source (src : RandomSource) : Prop :=
  forall k, (0 <=? unit_at src k) = true /\ (unit_at src k <? 1) = true.

Section Random.

Variable src : RandomSource.

(** [random.random()] *)
Definition random : M float := fun k => Ok (unit_at src k, S k).

(** [random.uniform(a, b)]: [a + (b - a) * self.random()] *)
Definition uniform (a b : float) : M float :=
  u <- random ;; ret (a + (b - a) * u).

End Random.

(** The module-level constants. *)
Record Config : Type := mkConfig {
  NUM_DAYS : nat;
  REGIONS : list string;
  SKUS : list string;
  PACKAGING_MAP : list (string * float);
  CHANNELS : list string;
  STORES_PER_REGION : nat;
  SEASONALITY_MONTHS : list (Z * float);
  WEEKDAY_FACTORS : list (string * list float)
}.

Definition default_config : Config := {|
  NUM_DAYS := 360;
  REGIONS := ["Pune"; "Nashik"; "Mumbai"; "Nagpur"; "Aurangabad"; "Kolhapur";
              "Solapur"; "Amravati"; "Nanded"; "Jalgaon"]%string;
  SKUS := ["MUSH-200g"; "MUSH-250g"; "MUSH-500g"; "MUSH-1kg"; "MUSH-5kg"]%string;
  PACKAGING_MAP := [("MUSH-200g", 0.2); ("MUSH-250g", 0.25); ("MUSH-500g", 0.5);
                    ("MUSH-1kg", 1.0); ("MUSH-5kg", 5.0)]%string;
  CHANNELS := ["B2B"; "B2C"]%string;
  STORES_PER_REGION := 5;
  SEASONALITY_MONTHS := [(11%Z, 1.2); (12%Z, 1.3); (1%Z, 1.1)];
  WEEKDAY_FACTORS := [("B2B", [1.1; 1.1; 1.1; 1.2; 1.3; 0.8; 0.7]);
                      ("B2C", [0.8; 0.8; 0.8; 0.9; 1.1; 1.3; 1.2])]%string
|}.

(** One row of [historical_sales.csv]. *)
Module SalesRow.
Record t : Type := mk {
  date : Z;
  region_id : string;
  mandi_id : string;
  store_id : string;
  sku_id : string;
  channel : string;
  packaging : string;
  sales_units : Z;
  sales_kg : float;
  inventory_received_kg : float;
  wastage_kg : float;
  price_offered_per_kg : float;
  optimal_price_per_kg : float;
  b2b_b2c_ratio : float;
  mandi_price_per_kg : float;
  mandi_price_change_1d : float;
  panchang_fasting_flag : Z;
  wedding_density_30d : float;
  festival_flag : Z;
  temp_max_c : float;
  temp_min_c : float;
  humidity_avg : float;
  rainfall_mm : float;
  logistics_disruption_flag : Z;
  volatility_score_14d : float;
  packaging_pref_score : float;
  lag_1_sales : Z;
  lag_7_sales_mean : float;
  label_daily_demand : Z
}.
End SalesRow.

(** The local variables of the innermost loop body when the row is
    appended. *)
Module Locals.
Record t : Type := mk {
  channel : string;
  pkg_size : float;
  temp_max : float;
  humidity : float;
  base_demand : float;
  season_factor : float;
  weekday_factor : float;
  fasting_impact : float;
  wedding_impact : float;
  optimal_price : float;
  price_offered : float;
  elasticity : float;
  price_factor : float;
  noise : float;
  demand_units : Z;
  inventory_received : float;
  sales_units : Z;
  sales_kg : float;
  unsold_kg : float;
  decay_rate : float;
  wastage_kg : float
}.
End Locals.

Record DayVars : Type := mkDayVars {
  curr_date : Z;
  weekday : Z;
  month : Z;
  panchang_fasting : Z;
  wedding_density : float;
  festival_flag : Z;
  logistics_disruption : Z;
  base_temp : float
}.

Record RegionVars : Type := mkRegionVars {
  region : string;
  mandi_id : string;
  temp_max : float;
  temp_min : float;
  humidity : float;
  rainfall : float;
  mandi_price : float;
  mandi_change : float
}.

(** The demand formulas of the loop body. *)

Definition base_demand_of (channel : string) : float :=
  if (channel =? "B2C")%string then 50 else 200.

Definition fasting_impact_of (panchang_fasting : Z) (channel : string) : float :=
  if truthy panchang_fasting && (channel =? "B2C")%string then 0.7 else 1.0.

Definition wedding_impact_of (wedding_density : float) (channel : string) : float :=
  if (channel =? "B2B")%string then 1.0 + wedding_density else 1.0.

Definition optimal_price_of (mandi_price : float) (channel : string) (pkg_size : float)
    : float :=
  mandi_price * (if (channel =? "B2B")%string then 1.2 else 1.5) + pkg_size * 10.

Definition elasticity_of (channel : string) : float :=
  if (channel =? "B2C")%string then -1.5 else -0.8.

(** [(price_offered / optimal_price) ** elasticity] *)
Definition price_factor_of (lib : MathLib) (channel : string)
    (price_offered optimal_price : float) : result float :=
  match py_div price_offered optimal_price with
  | Ok ratio => py_pow lib ratio (elasticity_of channel)
  | Raise e => Raise e
  end.

(** The product under [int(...)] on the [demand_units] line, multiplied
    from the left as Python does. *)
Definition demand_product (base season wkday fasting wedding pfactor noise : float)
    : float :=
  base * season * wkday * fasting * wedding * pfactor * noise.

Definition demand_units_of (base season wkday fasting wedding pfactor noise : float)
    : result Z :=
  py_int (demand_product base season wkday fasting wedding pfactor noise).

(** [demand_units * pkg_size * s], [s] being the uniform draw. *)
Definition inventory_received_of (demand_units : Z) (pkg_size s : float) : result float :=
  match int_mul demand_units pkg_size with
  | Ok w => Ok (w * s)
  | Raise e => Raise e
  end.

(** [min(demand_units, int(inventory_received / pkg_size))] *)
Definition sales_units_of (demand_units : Z) (inventory_received pkg_size : float)
    : result Z :=
  match py_div inventory_received pkg_size with
  | Ok q =>
      match py_int q with
      | Ok n => Ok (Z.min demand_units n)
      | Raise e => Raise e
      end
  | Raise e => Raise e
  end.

(** [max(0, inventory_received - sales_kg)] *)
Definition unsold_of (inventory_received sales_kg : float) : float :=
  let x := inventory_received - sales_kg in
  if 0 <? x then x else 0.

(** [0.1 + (0.05 if temp_max > 30 else 0) + (0.05 if humidity > 80 else 0)] *)
Definition decay_rate_of (temp_max humidity : float) : float :=
  0.1 + (if 30 <? temp_max then 0.05 else 0) + (if 80 <? humidity then 0.05 else 0).

(** The [packaging] entry of the row. *)
Definition packaging_of (pkg_size : float) : result string :=
  if pkg_size <? 1
  then match py_int (pkg_size * 1000) with
       | Ok n => Ok (str_of_Z n ++ "g")%string
       | Raise e => Raise e
       end
  else match py_int pkg_size with
       | Ok n => Ok (str_of_Z n ++ "kg")%string
       | Raise e => Raise e
       end.

Section Historical.

Variable lib : MathLib.
Variable cfg : Config.
Variable src : RandomSource.

(** The body of the store loop. *)
Definition store_body (d : DayVars) (r : RegionVars) (sku : string) (pkg_size : float)
    (channel : string) (store_idx : nat) : M (list (Locals.t * SalesRow.t)) :=
  let store_id := store_id_of (region r) channel store_idx in
  let base_demand := base_demand_of channel in
  let season_factor := zdict_get_default (SEASONALITY_MONTHS cfg) (month d) 1.0 in
  table <- lift (dict_index (WEEKDAY_FACTORS cfg) channel) ;;
  weekday_factor <- lift (list_index table (Z.to_nat (weekday d))) ;;
  let fasting_impact := fasting_impact_of (panchang_fasting d) channel in
  let wedding_impact := wedding_impact_of (wedding_density d) channel in
  let optimal_price := optimal_price_of (mandi_price r) channel pkg_size in
  u <- uniform src 0.95 1.05 ;;
  let price_offered := optimal_price * u in
  let elasticity := elasticity_of channel in
  price_factor <- lift (price_factor_of lib channel price_offered optimal_price) ;;
  noise <- uniform src 0.8 1.2 ;;
  demand_units <-
    lift (demand_units_of base_demand season_factor weekday_factor fasting_impact
                          wedding_impact price_factor noise) ;;
  s <- (if truthy (logistics_disruption d)
        then uniform src 0.5 0.8 else uniform src 1.0 1.2) ;;
  inventory_received <- lift (inventory_received_of demand_units pkg_size s) ;;
  sales_units <- lift (sales_units_of demand_units inventory_received pkg_size) ;;
  sales_kg <- lift (int_mul sales_units pkg_size) ;;
  let unsold_kg := unsold_of inventory_received sales_kg in
  let decay_rate := decay_rate_of (temp_max r) (humidity r) in
  let wastage_kg := unsold_kg * decay_rate in
  packaging <- lift (packaging_of pkg_size) ;;
  volatility <- uniform src 0 1 ;;
  pref <- uniform src 0.3 0.9 ;;
  lag1 <- uniform src 0.9 1.1 ;;
  lag_1_scaled <- lift (int_mul sales_units lag1) ;;
  lag_1_sales <- lift (py_int lag_1_scaled) ;;
  lag7 <- uniform src 0.8 1.2 ;;
  lag_7_scaled <- lift (int_mul sales_units lag7) ;;
  ret [(Locals.mk channel pkg_size (temp_max r) (humidity r)
          base_demand season_factor weekday_factor fasting_impact wedding_impact
          optimal_price price_offered elasticity price_factor noise demand_units
          inventory_received sales_units sales_kg unsold_kg decay_rate wastage_kg,
        {| SalesRow.date := curr_date d;
           SalesRow.region_id := region r;
           SalesRow.mandi_id := mandi_id r;
           SalesRow.store_id := store_id;
           SalesRow.sku_id := sku;
           SalesRow.channel := channel;
           SalesRow.packaging := packaging;
           SalesRow.sales_units := sales_units;
           SalesRow.sales_kg := py_round sales_kg 2;
           SalesRow.inventory_received_kg := py_round inventory_received 2;
           SalesRow.wastage_kg := py_round wastage_kg 2;
           SalesRow.price_offered_per_kg := py_round price_offered 2;
           SalesRow.optimal_price_per_kg := py_round optimal_price 2;
           SalesRow.b2b_b2c_ratio := if (channel =? "B2B")%string then 0.8 else 0.2;
           SalesRow.mandi_price_per_kg := py_round (mandi_price r) 2;
           SalesRow.mandi_price_change_1d := py_round (mandi_change r) 2;
           SalesRow.panchang_fasting_flag := panchang_fasting d;
           SalesRow.wedding_density_30d := py_round (wedding_density d) 2;
           SalesRow.festival_flag := festival_flag d;
           SalesRow.temp_max_c := np_round lib (temp_max r) 1;
           SalesRow.temp_min_c := np_round lib (temp_min r) 1;
           SalesRow.humidity_avg := py_round (humidity r) 1;
           SalesRow.rainfall_mm := py_round (rainfall r) 1;
           SalesRow.logistics_disruption_flag := logistics_disruption d;
           SalesRow.volatility_score_14d := py_round volatility 2;
           SalesRow.packaging_pref_score := py_round pref 2;
           SalesRow.lag_1_sales := lag_1_sales;
           SalesRow.lag_7_sales_mean := py_round lag_7_scaled 2;
           SalesRow.label_daily_demand := demand_units |})].

(** The body of the SKU loop: the channel loop over [range(2)] stores. *)
Definition sku_body (d : DayVars) (r : RegionVars) (sku : string)
    : M (list (Locals.t * SalesRow.t)) :=
  pkg_size <- lift (dict_index (PACKAGING_MAP cfg) sku) ;;
  for_each (CHANNELS cfg) (fun channel =>
    for_each (seq 0 2) (fun store_idx =>
      store_body d r sku pkg_size channel store_idx)).

(** The body of the region loop. *)
Definition region_body (d : DayVars) (region : string) : M (list (Locals.t * SalesRow.t)) :=
  let mandi_id := mandi_of region in
  t <- uniform src (-3) 5 ;;
  let temp_max := base_temp d + t in
  t' <- uniform src 8 15 ;;
  let temp_min := temp_max - t' in
  humidity <- uniform src 30 90 ;;
  rainfall <-
    (if 70 <? humidity
     then (p <- random src ;;
           if p <? 0.3 then uniform src 5 100 else ret 0.0)
     else ret 0.0) ;;
  let mandi_price_base := 120 in
  v <- uniform src 0.9 1.1 ;;
  let mandi_volatility := if truthy (festival_flag d) then v + 0.1 else v in
  let mandi_price := mandi_price_base * mandi_volatility in
  mandi_change <- uniform src (-10) 10 ;;
  let r := mkRegionVars region mandi_id temp_max temp_min humidity rainfall
                        mandi_price mandi_change in
  for_each (SKUS cfg) (fun sku => sku_body d r sku).

(** [np.pi] *)
Definition pi : float := 3.141592653589793.

(** The body of the day loop; [today] is the date read at import time. *)
Definition day_body (today : Z) (day_offset : nat) : M (list (Locals.t * SalesRow.t)) :=
  let curr_date := (today - Z.of_nat (NUM_DAYS cfg) + Z.of_nat day_offset)%Z in
  let weekday := weekday_of_ordinal curr_date in
  let month := month_of_ordinal curr_date in
  p <- random src ;;
  let panchang_fasting := if p <? 0.15 then 1%Z else 0%Z in
  w <- uniform src 0.0 0.3 ;;
  wedding_density <-
    (if zdict_mem (SEASONALITY_MONTHS cfg) month
     then (w' <- uniform src 0.3 0.6 ;; ret (w + w'))
     else ret w) ;;
  p <- random src ;;
  let festival_flag := if p <? 0.05 then 1%Z else 0%Z in
  p <- random src ;;
  let logistics_disruption := if p <? 0.02 then 1%Z else 0%Z in
  angle <- lift (mul_int (2 * pi) (Z.of_nat day_offset)) ;;
  let base_temp := 25 + 10 * np_sin lib (angle / 365) in
  let d := mkDayVars curr_date weekday month panchang_fasting wedding_density
                     festival_flag logistics_disruption base_temp in
  for_each (REGIONS cfg) (fun region => region_body d region).

(** The loop nest of [generate_historical_sales]. *)
Definition historical_loop (today : Z) : M (list (Locals.t * SalesRow.t)) :=
  for_each (seq 0 (NUM_DAYS cfg)) (fun day_offset => day_body today day_offset).

End Historical.

(** A run of the generator with its local variables kept. *)
Definition generate_historical_trace (lib : MathLib) (cfg : Config) (today : Z)
    (src : RandomSource) : result (list (Locals.t * SalesRow.t)) :=
  run (historical_loop lib cfg src today).

(** [generate_historical_sales()]: the rows handed to [pd.DataFrame]. *)
Definition generate_historical_sales (lib : MathLib) (cfg : Config) (today : Z)
    (src : RandomSource) : result (list SalesRow.t) :=
  match generate_historical_trace lib cfg today src with
  | Ok t => Ok (map snd t)
  | Raise e => Raise e
  end.

(** The coordinates of a row, and those the loop nest visits. *)
Definition row_key (row : SalesRow.t) : RowKey :=
  (SalesRow.date row, SalesRow.region_id row, SalesRow.sku_id row,
   SalesRow.channel row, SalesRow.store_id row).

Definition sku_keys (cfg : Config) (date : Z) (region sku : string) : list RowKey :=
  flat_map (fun channel => store_keys date region sku channel) (CHANNELS cfg).

Definition region_keys (cfg : Config) (date : Z) (region : string) : list RowKey :=
  flat_map (fun sku => sku_keys cfg date region sku) (SKUS cfg).

Definition day_keys (cfg : Config) (today : Z) (day_offset : nat) : list RowKey :=
  flat_map (fun region =>
              region_keys cfg (today - Z.of_nat (NUM_DAYS cfg) + Z.of_nat day_offset)%Z region)
           (REGIONS cfg).

Definition cross_product (cfg : Config) (today : Z) : list RowKey :=
  flat_map (fun day_offset => day_keys cfg today day_offset) (seq 0 (NUM_DAYS cfg)).

End B64.

(** ** Well-formed inputs and provenance in binary64 *)

Module B64Spec.

Import PrimFloat SpecFloat FloatOps FloatAxioms B64.
Local Open Scope float_scope.

(** The configuration the formulas are written for: positive unit sizes
    and non-negative multipliers. *)
Definition valid_config (cfg : Config) : Prop :=
  (forall sku p, dict_get (PACKAGING_MAP cfg) sku = Some p -> (0 <? p) = true) /\
  (forall ch tbl f, dict_get (WEEKDAY_FACTORS cfg) ch = Some tbl -> In f tbl ->
     (0 <=? f) = true) /\
  (forall m f, In (m, f) (SEASONALITY_MONTHS cfg) -> (0 <=? f) = true).

(** What every C library guarantees of [pow]: the power of a base that is
    not negative is not negative. *)
Definition pow_keeps_sign (lib : MathLib) : Prop :=
  forall x e, nonneg x -> nonneg (c_pow lib x e).

(** A value of [random.uniform(a, b)]. *)
Definition drawn (src : RandomSource) (a b x : float) : Prop :=
  exists k, x = a + (b - a) * unit_at src k.

(** What the loop body establishes of the local variables of a row it
    appends, and how the row is assembled from them. *)
Record generated (lib : MathLib) (cfg : Config) (src : RandomSource)
    (l : Locals.t) (row : SalesRow.t) : Prop := mkGenerated {
  gen_pkg : exists sku, In sku (SKUS cfg) /\
              dict_get (PACKAGING_MAP cfg) sku = Some (Locals.pkg_size l);
  gen_channel : In (Locals.channel l) (CHANNELS cfg);
  gen_base : Locals.base_demand l = base_demand_of (Locals.channel l);
  gen_season : exists m,
      Locals.season_factor l = zdict_get_default (SEASONALITY_MONTHS cfg) m 1.0;
  gen_weekday : exists tbl,
      dict_get (WEEKDAY_FACTORS cfg) (Locals.channel l) = Some tbl /\
      In (Locals.weekday_factor l) tbl;
  gen_fasting : exists flag,
      Locals.fasting_impact l = fasting_impact_of flag (Locals.channel l);
  gen_wedding : exists wd, nonneg wd /\
      Locals.wedding_impact l = wedding_impact_of wd (Locals.channel l);
  gen_offered : exists u, drawn src 0.95 1.05 u /\
      Locals.price_offered l = Locals.optimal_price l * u;
  gen_elasticity : Locals.elasticity l = elasticity_of (Locals.channel l);
  gen_pfactor :
      price_factor_of lib (Locals.channel l) (Locals.price_offered l)
                      (Locals.optimal_price l) = Ok (Locals.price_factor l);
  gen_noise : drawn src 0.8 1.2 (Locals.noise l);
  gen_demand :
      demand_units_of (Locals.base_demand l) (Locals.season_factor l)
        (Locals.weekday_factor l) (Locals.fasting_impact l)
        (Locals.wedding_impact l) (Locals.price_factor l) (Locals.noise l) =
      Ok (Locals.demand_units l);
  gen_inventory : exists s, (drawn src 0.5 0.8 s \/ drawn src 1.0 1.2 s) /\
      inventory_received_of (Locals.demand_units l) (Locals.pkg_size l) s =
      Ok (Locals.inventory_received l);
  gen_sales :
      sales_units_of (Locals.demand_units l) (Locals.inventory_received l)
                     (Locals.pkg_size l) = Ok (Locals.sales_units l);
  gen_sales_kg :
      int_mul (Locals.sales_units l) (Locals.pkg_size l) = Ok (Locals.sales_kg l);
  gen_unsold :
      Locals.unsold_kg l = unsold_of (Locals.inventory_received l) (Locals.sales_kg l);
  gen_decay :
      Locals.decay_rate l = decay_rate_of (Locals.temp_max l) (Locals.humidity l);
  gen_wastage : Locals.wastage_kg l = Locals.unsold_kg l * Locals.decay_rate l;
  gen_row_demand : SalesRow.label_daily_demand row = Locals.demand_units l;
  gen_row_units : SalesRow.sales_units row = Locals.sales_units l;
  gen_row_sales_kg : SalesRow.sales_kg row = py_round (Locals.sales_kg l) 2;
  gen_row_inventory :
      SalesRow.inventory_received_kg row = py_round (Locals.inventory_received l) 2;
  gen_row_wastage : SalesRow.wastage_kg row = py_round (Locals.wastage_kg l) 2;
  gen_row_channel : SalesRow.channel row = Locals.channel l;
  gen_row_temp_max : SalesRow.temp_max_c row = np_round lib (Locals.temp_max l) 1;
  gen_row_humidity : SalesRow.humidity_avg row = py_round (Locals.humidity l) 1
}.

End B64Spec.

(** ** Sample inputs in binary64 *)

Module B64Samples.

Import PrimFloat SpecFloat FloatOps FloatAxioms B64.
Local Open Scope float_scope.

(** [np.rint]: the nearest integer, ties to even, as a float. *)
Definition rint (x : float) : float :=
  match Prim2SF x with
  | S754_finite s m e =>
      match nearest_even (Zpos m) e with
      | Zpos n => SF2Prim (binary_normalize prec emax (cond_Zopp s (Zpos n)) 0 false)
      | _ => if s then neg_zero else zero
      end
  | _ => x
  end.

(** A math library for the sample runs: the first-order expansions of the
    sine at 0 and of the power at base 1, which are exact at these points,
    and the rounding of a NumPy scalar by scaling, [rint] and unscaling. *)
Definition sample_lib : MathLib := {|
  np_sin := fun x => x;
  c_pow := fun x e => abs (1 + e * (x - 1));
  np_round := fun x nd =>
    let p := SF2Prim (binary_normalize prec emax (Z.pow 10 (Z.of_nat nd)) 0 false) in
    rint (x * p) / p
|}.

(** The source every call of which returns 0.5. *)
Definition half_source : RandomSource := mkSource (fun _ => 0.5).

(** The default configuration cut down to one day and one region. *)
Definition one_day_config : Config :=
  mkConfig 1 ["Pune"]%string (SKUS default_config) (PACKAGING_MAP default_config)
           (CHANNELS default_config) (STORES_PER_REGION default_config)
           (SEASONALITY_MONTHS default_config) (WEEKDAY_FACTORS default_config).

(** One day, one region, the 200 g pack on the Consumer channel. *)
Definition consumer_200g_config : Config :=
  mkConfig 1 ["Pune"]%string ["MUSH-200g"]%string (PACKAGING_MAP default_config)
           ["B2C"]%string (STORES_PER_REGION default_config)
           (SEASONALITY_MONTHS default_config) (WEEKDAY_FACTORS default_config).

(** A source for a fasting day with a logistics disruption: the calls 0
    and 3 pass the fasting and the disruption test, the noise draw of the
    first row (call 10) is 0 and its inventory draw (call 11) is
    [0x1.d1745d1745d12p-1], about 0.909; every other call returns 0.5. *)
Definition shortage_source : RandomSource :=
  mkSource (fun k =>
    match k with
    | 0%nat => 0.1
    | 3%nat => 0.01
    | 10%nat => 0
    | 11%nat => 0x1.d1745d1745d12p-1
    | _ => 0.5
    end).

(** 9 June 2026: the day before is a Monday outside the wedding season. *)
Definition june_today : Z := 739776.

(** A Monday of June without fasting, weddings, festival or disruption,
    and a region at a mandi price of 120. *)
Definition scenario_day : DayVars :=
  mkDayVars 739775 0 6 0 0 0 0 25.

Definition scenario_region : RegionVars :=
  mkRegionVars "Pune" (mandi_of "Pune") 27 17 60 0 120 0.

(** The trace of the sample run. *)
Definition sample_trace : list (Locals.t * SalesRow.t) :=
  Eval vm_compute in
    match generate_historical_trace sample_lib one_day_config sample_today half_source with
    | Ok t => t
    | Raise _ => []
    end.

End B64Samples.

(** * Proofs *)

(** ** Facts about the Python primitives *)

Lemma Int_part_bounds (x : R) : IZR (Int_part x) <= x < IZR (Int_part x) + 1.
Proof.
  destruct (base_Int_part x) as [H1 H2]. split; lra.
Qed.

Lemma Int_part_nonneg (x : R) : 0 <= x -> (0 <= Int_part x)%Z.
Proof.
  intros Hx. destruct (Int_part_bounds x) as [_ H].
  apply Z.lt_succ_r. apply lt_IZR. rewrite succ_IZR. lra.
Qed.

Lemma Int_part_mono (x y : R) : x <= y -> (Int_part x <= Int_part y)%Z.
Proof.
  intros Hxy.
  destruct (Int_part_bounds x) as [Hx _], (Int_part_bounds y) as [_ Hy].
  apply Z.lt_succ_r. apply lt_IZR. rewrite succ_IZR. lra.
Qed.

Lemma Int_part_between (x : R) (z : Z) : IZR z <= x < IZR z + 1 -> Int_part x = z.
Proof.
  intros [H1 H2]. symmetry. apply Int_part_spec. split; lra.
Qed.

(** On a non-negative float [int] is the floor. *)
Lemma py_int_floor (x : R) : 0 <= x -> py_int x = Int_part x.
Proof.
  intros Hx. unfold py_int. destruct (Rle_dec 0 x); [reflexivity | contradiction].
Qed.

Lemma py_int_nonneg (x : R) : 0 <= x -> (0 <= py_int x)%Z.
Proof.
  intros Hx. rewrite py_int_floor by assumption. now apply Int_part_nonneg.
Qed.

Lemma py_int_between (x : R) (z : Z) :
  0 <= x -> IZR z <= x < IZR z + 1 -> py_int x = z.
Proof.
  intros Hx H. rewrite py_int_floor by assumption. now apply Int_part_between.
Qed.

(** [int] never moves away from zero and is monotone. *)
Lemma py_int_mono (x y : R) : x <= y -> (py_int x <= py_int y)%Z.
Proof.
  intros Hxy. unfold py_int.
  destruct (Rle_dec 0 x) as [Hx | Hx], (Rle_dec 0 y) as [Hy | Hy].
  - now apply Int_part_mono.
  - lra.
  - assert (H : (0 <= Int_part (- x))%Z) by (apply Int_part_nonneg; lra).
    assert (H' : (0 <= Int_part y)%Z) by (apply Int_part_nonneg; lra).
    lia.
  - assert (H : (Int_part (- y) <= Int_part (- x))%Z) by (apply Int_part_mono; lra).
    lia.
Qed.

Lemma py_pow_pos (x e : R) : 0 < x -> py_pow x e = Ok (Rpower x e).
Proof.
  intros Hx. unfold py_pow. destruct (Rlt_dec 0 x); [reflexivity | contradiction].
Qed.

Lemma py_div_ok (x y : R) : y <> 0 -> py_div x y = Ok (x / y).
Proof.
  intros Hy. unfold py_div. destruct (Req_dec_T y 0); [contradiction | reflexivity].
Qed.

Lemma Rpower_pos (x e : R) : 0 < Rpower x e.
Proof. unfold Rpower. apply exp_pos. Qed.

Lemma Rpower_one (e : R) : Rpower 1 e = 1.
Proof. unfold Rpower. rewrite ln_1, Rmult_0_r. apply exp_0. Qed.

(** A negative exponent turns a larger base into a smaller power. *)
Lemma Rpower_neg_decreasing (x y e : R) :
  0 < x -> x < y -> e < 0 -> Rpower y e < Rpower x e.
Proof.
  intros Hx Hxy He. unfold Rpower. apply exp_increasing.
  assert (Hln : ln x < ln y) by (apply ln_increasing; assumption).
  nra.
Qed.

(** ** Facts about the generator monad *)

Lemma bind_ok {A B : Type} (m : M A) (f : A -> M B) (k k' : nat) (a : A) :
  m k = Ok (a, k') -> bind m f k = f a k'.
Proof. intros H. unfold bind. now rewrite H. Qed.

Lemma for_each_cons {A B : Type} (x : A) (xs : list A) (body : A -> M (list B))
    (k k1 k2 : nat) (ys zs : list B) :
  body x k = Ok (ys, k1) ->
  for_each xs body k1 = Ok (zs, k2) ->
  for_each (x :: xs) body k = Ok (ys ++ zs, k2).
Proof.
  intros H1 H2. cbn [for_each].
  rewrite (bind_ok _ _ _ _ _ H1), (bind_ok _ _ _ _ _ H2). reflexivity.
Qed.

(** A loop whose iterations all succeed, the rows of iteration [x] having
    the keys [g x] and satisfying [P], succeeds with the keys of all
    iterations in order, and all rows satisfy [P]. *)
Lemma for_each_spec {A B K : Type} (P : B -> Prop) (key : B -> K) (g : A -> list K)
    (xs : list A) (body : A -> M (list B)) :
  (forall x, In x xs -> forall k, exists ys k',
      body x k = Ok (ys, k') /\ map key ys = g x /\ Forall P ys) ->
  forall k, exists ys k',
    for_each xs body k = Ok (ys, k') /\
    map key ys = flat_map g xs /\ Forall P ys.
Proof.
  induction xs as [| x xs IH]; intros Hbody k.
  - exists [], k. split; [reflexivity | split; [reflexivity | constructor]].
  - destruct (Hbody x (or_introl eq_refl) k) as (ys & k1 & Hy & Hkey & HP).
    destruct (IH (fun y Hy' => Hbody y (or_intror Hy')) k1)
      as (zs & k2 & Hz & Hkey' & HP').
    exists (ys ++ zs), k2. split; [| split].
    + now apply for_each_cons with (k1 := k1).
    + rewrite map_app, Hkey, Hkey'. reflexivity.
    + apply Forall_app. now split.
Qed.

(** A loop whose iterations succeed without rows succeeds without rows. *)
Lemma for_each_empty {A B : Type} (xs : list A) (body : A -> M (list B)) :
  (forall x, In x xs -> forall k, exists k', body x k = Ok ([], k')) ->
  forall k, exists k', for_each xs body k = Ok ([], k').
Proof.
  induction xs as [| x xs IH]; intros Hbody k.
  - now exists k.
  - destruct (Hbody x (or_introl eq_refl) k) as (k1 & Hk1).
    destruct (IH (fun y Hy' => Hbody y (or_intror Hy')) k1) as (k2 & Hk2).
    exists k2. now apply (for_each_cons x xs body k k1 k2 [] []).
Qed.

Lemma flat_map_length_const {A K : Type} (g : A -> list K) (n : nat) (xs : list A) :
  (forall x, In x xs -> List.length (g x) = n) ->
  List.length (flat_map g xs) = (List.length xs * n)%nat.
Proof.
  induction xs as [| x xs IH]; intros Hg.
  - reflexivity.
  - cbn [flat_map List.length]. rewrite List.length_app.
    rewrite (Hg x (or_introl eq_refl)), IH by (intros y Hy; apply Hg; now right).
    lia.
Qed.

Lemma optimal_price_pos (mandi_price : R) (channel : string) (pkg_size : R) :
  108 <= mandi_price -> -12 < pkg_size ->
  0 < optimal_price_of mandi_price channel pkg_size.
Proof.
  intros Hm Hp. unfold optimal_price_of.
  destruct (channel =? "B2B")%string; lra.
Qed.

Lemma price_factor_ok (channel : string) (optimal_price u : R) :
  0 < optimal_price -> 0 < u ->
  price_factor_of channel (optimal_price * u) optimal_price =
  Ok (Rpower u (elasticity_of channel)).
Proof.
  intros Ho Hu. unfold price_factor_of.
  rewrite py_div_ok by lra.
  replace (optimal_price * u / optimal_price) with u by (field; lra).
  now apply py_pow_pos.
Qed.

(** The loop body completes with one row whenever the unit size is
    non-zero and above -12 and the weekday table has the day's entry. *)
Lemma store_body_ok (cfg : Config) (src : RandomSource) (d : DayVars) (r : RegionVars)
    (sku : string) (pkg : R) (ch : string) (idx k : nat) (tbl : list R) (f : R) :
  valid_source src ->
  In sku (SKUS cfg) -> dict_get (PACKAGING_MAP cfg) sku = Some pkg ->
  pkg <> 0 -> -12 < pkg ->
  In ch (CHANNELS cfg) -> dict_get (WEEKDAY_FACTORS cfg) ch = Some tbl ->
  (Z.to_nat (weekday d) < 7)%nat -> nth_error tbl (Z.to_nat (weekday d)) = Some f ->
  0 <= wedding_density d -> 108 <= mandi_price r ->
  exists l row k',
    store_body cfg src d r sku pkg ch idx k = Ok ([(l, row)], k') /\
    row_key row = (curr_date d, region r, sku, ch, store_id_of (region r) ch idx) /\
    generated cfg l row.
Proof.
  intros Hsrc Hsku Hpkg Hnz Hlow Hch Htbl Hwd Hf Hwed Hmandi.
  pose proof (optimal_price_pos (mandi_price r) ch pkg Hmandi Hlow) as Hopt.
  destruct Hsrc as [Hu Hb].
  assert (Hpf : price_factor_of ch
            (optimal_price_of (mandi_price r) ch pkg * (0.95 + (1.05 - 0.95) * unit_at src k))
            (optimal_price_of (mandi_price r) ch pkg) =
          Ok (Rpower (0.95 + (1.05 - 0.95) * unit_at src k) (elasticity_of ch))).
  { apply price_factor_ok; [assumption |]. specialize (Hu k). lra. }
  unfold store_body, bind, lift, dict_index, list_index, uniform, random, ret, bind.
  rewrite Htbl, Hf, Hpf. unfold sales_units_of. 
  destruct (truthy (logistics_disruption d)); rewrite py_div_ok by assumption;
    do 3 eexists; (split; [reflexivity | split; [reflexivity |]]).
  all: constructor; cbn [Locals.pkg_size Locals.channel Locals.base_demand
         Locals.season_factor Locals.weekday_factor Locals.fasting_impact
         Locals.wedding_impact Locals.optimal_price Locals.price_offered
         Locals.elasticity Locals.price_factor Locals.noise Locals.demand_units
         Locals.inventory_received Locals.sales_units Locals.sales_kg
         Locals.unsold_kg Locals.decay_rate Locals.wastage_kg Locals.temp_max
         Locals.humidity SalesRow.label_daily_demand SalesRow.sales_units SalesRow.sales_kg
         SalesRow.inventory_received_kg SalesRow.wastage_kg SalesRow.channel
         SalesRow.temp_max_c SalesRow.humidity_avg];
    try reflexivity; try assumption.
  all: try (unfold sales_units_of; rewrite py_div_ok by assumption; reflexivity).
  all: try (exists sku; now split).
  all: try (now exists (month d)).
  all: try (exists tbl, (Z.to_nat (weekday d)); now repeat split).
  all: try (now exists (panchang_fasting d)).
  all: try (exists (wedding_density d); now split).
  all: try (eexists; split; [| reflexivity]; specialize (Hu k); lra).
  all: try (specialize (Hu (S k)); lra).
  all: try (eexists; split; [| reflexivity]; specialize (Hu (S (S k))); lra).
Qed.

(** ** The loop nest completes on a runnable configuration *)

Lemma flat_map_singleton {A K : Type} (f : A -> K) (xs : list A) :
  flat_map (fun x => [f x]) xs = map f xs.
Proof.
  induction xs as [| x xs IH]; [reflexivity |].
  cbn [flat_map map app]. now rewrite IH.
Qed.

Lemma weekday_in_range (n : Z) : (Z.to_nat (weekday_of_ordinal n) < 7)%nat.
Proof.
  unfold weekday_of_ordinal.
  pose proof (Z.mod_pos_bound (n + 6) 7 ltac:(lia)). lia.
Qed.

Section LoopNest.

Variable cfg : Config.
Variable src : RandomSource.
Hypothesis Hsrc : valid_source src.
Hypothesis Hcfg : runnable_config cfg.

Let P (x : Locals.t * SalesRow.t) : Prop := generated cfg (fst x) (snd x).
Let key (x : Locals.t * SalesRow.t) : RowKey := row_key (snd x).

Lemma sku_body_ok (d : DayVars) (r : RegionVars) (sku : string) (k : nat) :
  In sku (SKUS cfg) ->
  (Z.to_nat (weekday d) < 7)%nat -> 0 <= wedding_density d -> 108 <= mandi_price r ->
  exists ys k',
    sku_body cfg src d r sku k = Ok (ys, k') /\
    map key ys = sku_keys cfg (curr_date d) (region r) sku /\ Forall P ys.
Proof.
  intros Hsku Hwd Hwed Hmandi.
  destruct Hcfg as [Hpk Hch].
  destruct (Hpk sku Hsku) as (p & Hget & Hnz & Hlow).
  unfold sku_body.
  rewrite bind_ok with (a := p) (k' := k)
    by (unfold lift, dict_index; now rewrite Hget).
  apply for_each_spec. intros ch Hin k1.
  destruct (Hch ch Hin) as (tbl & Htbl & Hentries).
  destruct (Hentries _ Hwd) as (f & Hf & _).
  unfold store_keys. rewrite <- flat_map_singleton.
  apply for_each_spec. intros idx _ k2.
  destruct (store_body_ok cfg src d r sku p ch idx k2 tbl f)
    as (l & row & k3 & Hrun & Hkey & Hgen); try assumption.
  exists [(l, row)], k3. split; [exact Hrun | split].
  - unfold key. cbn [map snd]. now rewrite Hkey.
  - constructor; [exact Hgen | constructor].
Qed.

Lemma region_body_ok (d : DayVars) (region : string) (k : nat) :
  (Z.to_nat (weekday d) < 7)%nat -> 0 <= wedding_density d ->
  exists ys k',
    region_body cfg src d region k = Ok (ys, k') /\
    map key ys = region_keys cfg (curr_date d) region /\ Forall P ys.
Proof.
  intros Hwd Hwed.
  assert (Hv : forall j, 108 <= 120 * (0.9 + (1.1 - 0.9) * unit_at src j)).
  { intros j. destruct Hsrc as [Hu _]. specialize (Hu j). lra. }
  unfold region_body, bind, uniform, random, ret, bind.
  destruct (Rgt_dec _ 70); [destruct (Rlt_dec _ 0.3) |];
    destruct (truthy (festival_flag d));
    apply for_each_spec; intros sku Hsku k1;
    apply sku_body_ok; try assumption; cbn [mandi_price].
  all: match goal with
       | |- context [unit_at src ?j] => specialize (Hv j); lra
       end.
Qed.

Lemma day_body_ok (today : Z) (day_offset : nat) (k : nat) :
  exists ys k',
    day_body cfg src today day_offset k = Ok (ys, k') /\
    map key ys = day_keys cfg today day_offset /\ Forall P ys.
Proof.
  destruct Hsrc as [Hu _].
  unfold day_body, bind, uniform, random, ret, bind.
  destruct (zdict_mem _ _);
    apply for_each_spec; intros region _ k1;
    apply region_body_ok; cbn [weekday wedding_density];
    try apply weekday_in_range.
  - pose proof (Hu (S k)). pose proof (Hu (S (S k))). lra.
  - pose proof (Hu (S k)). lra.
Qed.

(** The whole loop nest completes; its rows are those of the cross product
    of days, regions, SKUs, channels and the two stores, in that order, and
    each has the provenance above. *)
Lemma historical_loop_ok (today : Z) (k : nat) :
  exists ys k',
    historical_loop cfg src today k = Ok (ys, k') /\
    map key ys = cross_product cfg today /\ Forall P ys.
Proof.
  unfold historical_loop, cross_product.
  apply for_each_spec. intros off _ k0. apply day_body_ok.
Qed.

End LoopNest.

Lemma cross_product_length (cfg : Config) (today : Z) :
  List.length (cross_product cfg today) =
  (NUM_DAYS cfg * List.length (REGIONS cfg) * List.length (SKUS cfg)
   * List.length (CHANNELS cfg) * 2)%nat.
Proof.
  unfold cross_product.
  rewrite flat_map_length_const
    with (n := (List.length (REGIONS cfg) * (List.length (SKUS cfg)
                 * (List.length (CHANNELS cfg) * 2)))%nat).
  - rewrite length_seq. lia.
  - intros off _. unfold day_keys. apply flat_map_length_const.
    intros region _. unfold region_keys. apply flat_map_length_const.
    intros sku _. unfold sku_keys. apply flat_map_length_const.
    intros ch _. unfold store_keys. now rewrite length_map, length_seq.
Qed.

(** A run on a runnable configuration returns the trace of the loop nest. *)
Lemma historical_trace_ok (cfg : Config) (today : Z) (src : RandomSource) :
  valid_source src -> runnable_config cfg ->
  exists t,
    generate_historical_trace cfg today src = Ok t /\
    map row_key (map snd t) = cross_product cfg today /\
    Forall (fun x => generated cfg (fst x) (snd x)) t.
Proof.
  intros Hsrc Hcfg.
  destruct (historical_loop_ok cfg src Hsrc Hcfg today 0)
    as (ys & k' & Hrun & Hkey & HP).
  exists ys. unfold generate_historical_trace, run. rewrite Hrun.
  split; [reflexivity | split; [| exact HP]].
  rewrite map_map. exact Hkey.
Qed.

Lemma historical_sales_of_trace (cfg : Config) (today : Z) (src : RandomSource)
    (t : list (Locals.t * SalesRow.t)) :
  generate_historical_trace cfg today src = Ok t ->
  generate_historical_sales cfg today src = Ok (map snd t).
Proof.
  intros H. unfold generate_historical_sales. now rewrite H.
Qed.

Lemma valid_runnable (cfg : Config) : valid_config cfg -> runnable_config cfg.
Proof.
  intros (Hpk & Hch & _). split.
  - intros sku Hsku. destruct (Hpk sku Hsku) as (p & Hget & Hp).
    exists p. split; [exact Hget | split; lra].
  - intros ch Hin. destruct (Hch ch Hin) as (tbl & Htbl & Hent).
    exists tbl. split; [exact Htbl |].
    intros i Hi. destruct (Hent i Hi) as (f & Hf & _). now exists f.
Qed.

(** ** The sample inputs are well formed *)

Lemma half_source_valid : valid_source half_source.
Proof.
  split.
  - intros k. cbn [half_source unit_at]. lra.
  - intros k n Hn. cbn [half_source below_at]. lia.
Qed.

Lemma default_config_valid : valid_config default_config.
Proof.
  split; [| split].
  - intros sku Hin. cbn [default_config SKUS In] in Hin.
    repeat (destruct Hin as [<- | Hin]; [eexists; split; [reflexivity | lra] |]).
    contradiction.
  - intros ch Hin. cbn [default_config CHANNELS In] in Hin.
    repeat (destruct Hin as [<- | Hin];
      [eexists; split; [reflexivity |];
       intros i Hi;
       do 7 (destruct i as [| i]; [eexists; split; [reflexivity | lra] |]);
       exfalso; lia |]).
    contradiction.
  - intros m f Hin. cbn [default_config SEASONALITY_MONTHS In] in Hin.
    repeat (destruct Hin as [Heq | Hin]; [inversion Heq; subst; lra |]).
    contradiction.
Qed.

(** ** Consequences of the provenance on a valid configuration *)

Lemma zdict_get_In {V : Type} (d : list (Z * V)) (k : Z) (v : V) :
  zdict_get d k = Some v -> In (k, v) d.
Proof.
  induction d as [| [k' v'] d IH]; cbn [zdict_get]; [discriminate |].
  destruct (Z.eqb_spec k k') as [-> | Hne]; intros H.
  - inversion H; subst. now left.
  - right. now apply IH.
Qed.

Lemma season_factor_nonneg (cfg : Config) (m : Z) :
  seasons_nonneg cfg -> 0 <= zdict_get_default (SEASONALITY_MONTHS cfg) m 1.0.
Proof.
  intros Hs. unfold zdict_get_default.
  destruct (zdict_get (SEASONALITY_MONTHS cfg) m) as [v |] eqn:Hget; [| lra].
  apply (Hs m v). now apply zdict_get_In.
Qed.

Lemma price_factor_inv (channel : string) (price_offered optimal_price pf : R) :
  price_factor_of channel price_offered optimal_price = Ok pf ->
  optimal_price <> 0 /\ 0 < price_offered / optimal_price /\
  pf = Rpower (price_offered / optimal_price) (elasticity_of channel).
Proof.
  unfold price_factor_of, py_div, py_pow.
  destruct (Req_dec_T optimal_price 0); [discriminate |].
  destruct (Rlt_dec 0 (price_offered / optimal_price)).
  - intros H. inversion H. now repeat split.
  - destruct (Req_dec_T _ 0); discriminate.
Qed.

Lemma sales_units_inv (demand_units su : Z) (inventory_received pkg_size : R) :
  sales_units_of demand_units inventory_received pkg_size = Ok su ->
  pkg_size <> 0 /\ su = Z.min demand_units (py_int (inventory_received / pkg_size)).
Proof.
  unfold sales_units_of, py_div.
  destruct (Req_dec_T pkg_size 0); [discriminate |].
  intros H. inversion H. now split.
Qed.

Lemma base_demand_pos (channel : string) : 0 < base_demand_of channel.
Proof. unfold base_demand_of. destruct (channel =? "B2C")%string; lra. Qed.

Lemma fasting_impact_pos (flag : Z) (channel : string) :
  0 < fasting_impact_of flag channel.
Proof. unfold fasting_impact_of. destruct (_ && _); lra. Qed.

Lemma wedding_impact_pos (wd : R) (channel : string) :
  0 <= wd -> 0 < wedding_impact_of wd channel.
Proof.
  intros Hwd. unfold wedding_impact_of. destruct (channel =? "B2B")%string; lra.
Qed.

Lemma dict_get_unique {V : Type} (d : list (string * V)) (k : string) (v v' : V) :
  dict_get d k = Some v -> dict_get d k = Some v' -> v = v'.
Proof. intros H H'. rewrite H in H'. now inversion H'. Qed.

(** On a valid configuration every factor of the demand product is
    non-negative and the unit size is positive. *)
Lemma generated_signs (cfg : Config) (l : Locals.t) (row : SalesRow.t) :
  valid_config cfg -> generated cfg l row ->
  0 < Locals.pkg_size l /\
  0 < Locals.base_demand l /\ 0 <= Locals.season_factor l /\
  0 <= Locals.weekday_factor l /\ 0 < Locals.fasting_impact l /\
  0 < Locals.wedding_impact l /\ 0 < Locals.price_factor l /\
  0 < Locals.noise l.
Proof.
  intros (Hpk & Hch & Hs) G.
  destruct (gen_pkg _ _ _ G) as (sku & Hsku & Hget).
  destruct (Hpk sku Hsku) as (p & Hget' & Hp).
  rewrite (dict_get_unique _ _ _ _ Hget Hget').
  destruct (gen_season _ _ _ G) as (m & Hm).
  destruct (gen_weekday _ _ _ G) as (tbl & i & Htbl & Hi & Hnth).
  destruct (Hch _ (gen_channel _ _ _ G)) as (tbl' & Htbl' & Hent).
  rewrite (dict_get_unique _ _ _ _ Htbl Htbl') in Hnth.
  destruct (Hent i Hi) as (f & Hf & Hf0).
  rewrite Hnth in Hf. inversion Hf; subst f.
  destruct (gen_fasting _ _ _ G) as (flag & Hflag).
  destruct (gen_wedding _ _ _ G) as (wd & Hwd & Hwi).
  destruct (price_factor_inv _ _ _ _ (gen_pfactor _ _ _ G)) as (_ & _ & Hpf).
  pose proof (gen_noise _ _ _ G) as Hn.
  repeat split.
  - exact Hp.
  - rewrite (gen_base _ _ _ G). apply base_demand_pos.
  - rewrite Hm. now apply season_factor_nonneg.
  - exact Hf0.
  - rewrite Hflag. apply fasting_impact_pos.
  - rewrite Hwi. now apply wedding_impact_pos.
  - rewrite Hpf. apply Rpower_pos.
  - lra.
Qed.

Lemma demand_product_nonneg (b s w f wd p n : R) :
  0 < b -> 0 <= s -> 0 <= w -> 0 < f -> 0 < wd -> 0 < p -> 0 < n ->
  0 <= demand_product b s w f wd p n.
Proof.
  intros Hb Hs Hw Hf Hwd Hp Hn. unfold demand_product.
  repeat apply Rmult_le_pos; lra.
Qed.

Lemma generated_product_nonneg (cfg : Config) (l : Locals.t) (row : SalesRow.t) :
  valid_config cfg -> generated cfg l row ->
  0 <= demand_product (Locals.base_demand l) (Locals.season_factor l)
         (Locals.weekday_factor l) (Locals.fasting_impact l)
         (Locals.wedding_impact l) (Locals.price_factor l) (Locals.noise l).
Proof.
  intros Hcfg G.
  destruct (generated_signs cfg l row Hcfg G) as (_ & ? & ? & ? & ? & ? & ? & ?).
  now apply demand_product_nonneg.
Qed.

Lemma generated_demand_nonneg (cfg : Config) (l : Locals.t) (row : SalesRow.t) :
  valid_config cfg -> generated cfg l row -> (0 <= Locals.demand_units l)%Z.
Proof.
  intros Hcfg G. rewrite (gen_demand _ _ _ G). unfold demand_units_of.
  apply py_int_nonneg. now apply (generated_product_nonneg cfg l row).
Qed.

Lemma round_half_even_mono (x y : R) :
  x <= y -> (round_half_even x <= round_half_even y)%Z.
Proof.
  intros Hxy. unfold round_half_even.
  pose proof (Int_part_mono x y Hxy) as Hf.
  destruct (Int_part_bounds x) as [Hx1 Hx2], (Int_part_bounds y) as [Hy1 Hy2].
  destruct (Z.eq_dec (Int_part x) (Int_part y)) as [Heq | Hne].
  - rewrite <- Heq in *.
    destruct (Rlt_dec (x - IZR (Int_part x)) (1 / 2)),
             (Rlt_dec (y - IZR (Int_part x)) (1 / 2)),
             (Rlt_dec (1 / 2) (x - IZR (Int_part x))),
             (Rlt_dec (1 / 2) (y - IZR (Int_part x))),
             (Z.even (Int_part x)); try lia; lra.
  - assert (Hlt : (Int_part x + 1 <= Int_part y)%Z) by lia.
    destruct (Rlt_dec (x - IZR (Int_part x)) (1 / 2)),
             (Rlt_dec (y - IZR (Int_part y)) (1 / 2)),
             (Rlt_dec (1 / 2) (x - IZR (Int_part x))),
             (Rlt_dec (1 / 2) (y - IZR (Int_part y))),
             (Z.even (Int_part x)), (Z.even (Int_part y)); lia.
Qed.

(** [round] keeps the order of its arguments. *)
Lemma py_round_mono (x y : R) (nd : nat) : x <= y -> py_round x nd <= py_round y nd.
Proof.
  intros Hxy. unfold py_round.
  assert (Hp : 0 < 10 ^ nd) by (apply pow_lt; lra).
  apply Rmult_le_compat_r; [left; now apply Rinv_0_lt_compat |].
  apply IZR_le, round_half_even_mono. nra.
Qed.

(** The fulfilment step on a valid configuration. *)
Lemma generated_fulfilment (cfg : Config) (l : Locals.t) (row : SalesRow.t) :
  valid_config cfg -> generated cfg l row ->
  Locals.sales_units l =
    Z.min (Locals.demand_units l)
          (Int_part (Locals.inventory_received l / Locals.pkg_size l)) /\
  (Locals.sales_units l <= Locals.demand_units l)%Z /\
  Locals.sales_kg l <= Locals.inventory_received l.
Proof.
  intros Hcfg G.
  destruct (generated_signs cfg l row Hcfg G) as (Hp & _).
  pose proof (generated_demand_nonneg cfg l row Hcfg G) as Hd.
  destruct (sales_units_inv _ _ _ _ (gen_sales _ _ _ G)) as (_ & Hsu).
  destruct (gen_inventory _ _ _ G) as (s & Hs & Hinv).
  assert (Hq : Locals.inventory_received l / Locals.pkg_size l =
               IZR (Locals.demand_units l) * s).
  { rewrite Hinv. field. lra. }
  assert (Hq0 : 0 <= Locals.inventory_received l / Locals.pkg_size l).
  { rewrite Hq. apply Rmult_le_pos; [apply IZR_le; exact Hd | lra]. }
  rewrite py_int_floor in Hsu by exact Hq0.
  split; [exact Hsu | split; [lia |]].
  rewrite (gen_sales_kg _ _ _ G).
  assert (Hle : IZR (Locals.sales_units l) <=
                Locals.inventory_received l / Locals.pkg_size l).
  { destruct (Int_part_bounds (Locals.inventory_received l / Locals.pkg_size l))
      as [Hb _].
    apply Rle_trans with (2 := Hb). apply IZR_le. lia. }
  replace (Locals.inventory_received l)
    with (Locals.inventory_received l / Locals.pkg_size l * Locals.pkg_size l)
    by (field; lra).
  apply Rmult_le_compat_r; lra.
Qed.


Lemma decay_rate_temp_mono (hot mild humidity : R) :
  hot > 30 -> mild <= 30 ->
  decay_rate_of mild humidity <= decay_rate_of hot humidity.
Proof.
  intros Hh Hm. unfold decay_rate_of.
  destruct (Rgt_dec hot 30), (Rgt_dec mild 30), (Rgt_dec humidity 80); lra.
Qed.


(** ** Checks of the embedding on concrete inputs *)

Example month_of_ordinal_samples :
  month_of_ordinal 739923 = 11%Z /\ month_of_ordinal 739563 = 11%Z /\
  month_of_ordinal 730179 = 2%Z /\ month_of_ordinal 739251 = 12%Z /\
  month_of_ordinal 738946 = 3%Z /\ month_of_ordinal 1 = 1%Z.
Proof. repeat split. Qed.

Example weekday_of_ordinal_samples :
  weekday_of_ordinal 739923 = 1%Z /\ weekday_of_ordinal 739563 = 5%Z /\
  weekday_of_ordinal 730179 = 1%Z /\ weekday_of_ordinal 1 = 0%Z.
Proof. repeat split. Qed.

Example scenario_day_calendar :
  weekday_of_ordinal (curr_date scenario_day) = weekday scenario_day /\
  month_of_ordinal (curr_date scenario_day) = month scenario_day.
Proof. split; reflexivity. Qed.

Example hourly_profile_length : List.length hourly_profile = 24%nat.
Proof. reflexivity. Qed.

Example store_id_sample : store_id_of "Pune" "B2B" 1 = "Pune_B2B_1"%string.
Proof. reflexivity. Qed.

Example mandi_of_sample : mandi_of "Pune" = "MANDI_PUNE"%string.
Proof. reflexivity. Qed.

(** The loop body on the scenario: the 1 kg pack on the Business channel,
    with the price and noise draws in the middle of their ranges. *)
Lemma scenario_row (idx k : nat) :
  exists l row k',
    store_body default_config half_source scenario_day scenario_region
               "MUSH-1kg" 1.0 "B2B" idx k = Ok ([(l, row)], k') /\
    Locals.weekday_factor l = 1.1 /\ Locals.season_factor l = 1.0 /\
    Locals.price_factor l = 1 /\ Locals.noise l = 0.8 + (1.2 - 0.8) * (1 / 2) /\
    SalesRow.label_daily_demand row = 220%Z.
Proof.
  assert (Hone : 0.95 + (1.05 - 0.95) * (1 / 2) = 1) by lra.
  assert (Hpf : price_factor_of "B2B"
            (optimal_price_of 120 "B2B" 1.0 * (0.95 + (1.05 - 0.95) * (1 / 2)))
            (optimal_price_of 120 "B2B" 1.0) = Ok 1).
  { rewrite price_factor_ok; [| apply optimal_price_pos; lra | lra].
    now rewrite Hone, Rpower_one. }
  unfold store_body, bind, lift, dict_index, list_index, uniform, random, ret, bind.
  cbn [default_config WEEKDAY_FACTORS SEASONALITY_MONTHS dict_get String.eqb
       Ascii.eqb Bool.eqb scenario_day scenario_region weekday month mandi_price
       logistics_disruption truthy Z.eqb negb Z.to_nat nth_error
       half_source unit_at zdict_get_default zdict_get Pos.eqb].
  rewrite Hpf. unfold sales_units_of. rewrite py_div_ok by (intros H; lra).
  do 3 eexists. split; [reflexivity |].
  cbn [Locals.weekday_factor Locals.season_factor Locals.price_factor Locals.noise
       SalesRow.label_daily_demand].
  split; [reflexivity | split; [reflexivity | split; [reflexivity | split;
    [reflexivity |]]]].
  unfold demand_units_of, demand_product, base_demand_of, fasting_impact_of,
    wedding_impact_of.
  cbn [String.eqb Ascii.eqb Bool.eqb andb truthy Z.eqb negb panchang_fasting
       wedding_density scenario_day].
  apply py_int_between; lra.
Qed.

(** ** Signs in binary64 arithmetic *)

Module B64Facts.

Import PrimFloat SpecFloat FloatOps FloatAxioms B64.
Local Open Scope float_scope.

Lemma nonneg_spec (x : float) : nonneg x <-> sf_nonneg (Prim2SF x) = true.
Proof.
  unfold nonneg. rewrite ltb_spec.
  change (Prim2SF 0) with (S754_zero false).
  destruct (Prim2SF x) as [[] | [] | | [] m e]; cbn; split; congruence.
Qed.

(** Rounding keeps the sign it is given. *)
Lemma binary_round_aux_nonneg (m e : Z) (l : location) :
  sf_nonneg (binary_round_aux prec emax false m e l) = true.
Proof.
  unfold binary_round_aux.
  destruct (shr_fexp prec emax m e l) as [mrs e'].
  destruct (shr_fexp prec emax _ e' loc_Exact) as [mrs' e''].
  destruct (shr_m mrs'); [reflexivity | | reflexivity].
  destruct (Z.leb e'' (emax - prec)); reflexivity.
Qed.

Lemma binary_round_nonneg (m : positive) (e : Z) :
  sf_nonneg (binary_round prec emax false m e) = true.
Proof.
  unfold binary_round. destruct (shl_align _ _ _) as [mz ez].
  apply binary_round_aux_nonneg.
Qed.

Lemma binary_normalize_nonneg (z e : Z) :
  (0 <= z)%Z -> sf_nonneg (binary_normalize prec emax z e false) = true.
Proof.
  intros Hz. destruct z as [| p | p]; cbn [binary_normalize].
  - reflexivity.
  - apply binary_round_nonneg.
  - lia.
Qed.

Lemma mul_nonneg (x y : float) : nonneg x -> nonneg y -> nonneg (x * y).
Proof.
  rewrite !nonneg_spec, mul_spec. unfold SF64mul.
  destruct (Prim2SF x) as [[] | [] | | [] mx ex],
           (Prim2SF y) as [[] | [] | | [] my ey];
    cbn; try congruence; intros _ _; apply binary_round_aux_nonneg.
Qed.

Lemma add_nonneg (x y : float) : nonneg x -> nonneg y -> nonneg (x + y).
Proof.
  rewrite !nonneg_spec, add_spec. unfold SF64add.
  destruct (Prim2SF x) as [[] | [] | | [] mx ex],
           (Prim2SF y) as [[] | [] | | [] my ey];
    cbn [SFadd sf_nonneg cond_Zopp]; try congruence; intros _ _.
  apply binary_normalize_nonneg. lia.
Qed.

Lemma eqb_zero_spec (y : float) :
  (y =? 0) = match Prim2SF y with S754_zero _ => true | _ => false end.
Proof.
  rewrite eqb_spec. change (Prim2SF 0) with (S754_zero false).
  destruct (Prim2SF y) as [[] | [] | | [] m e]; reflexivity.
Qed.

Lemma div_nonneg (x y : float) :
  nonneg x -> nonneg y -> (y =? 0) = false -> nonneg (x / y).
Proof.
  rewrite !nonneg_spec, eqb_zero_spec, div_spec. unfold SF64div.
  destruct (Prim2SF x) as [[] | [] | | [] mx ex],
           (Prim2SF y) as [[] | [] | | [] my ey];
    cbn [SFdiv sf_nonneg xorb]; try congruence; intros _ _ _.
  destruct (SFdiv_core_binary _ _ _ _ _ _) as [[mz ez] lz].
  apply binary_round_aux_nonneg.
Qed.

Lemma py_div_inv (x y q : float) :
  py_div x y = Ok q -> (y =? 0) = false /\ q = x / y.
Proof.
  unfold py_div. destruct (y =? 0); [discriminate |].
  intros H. injection H as <-. now split.
Qed.

(** On a float that is not negative [int] is the floor, and not negative. *)
Lemma float_int_floor (x : float) (z : Z) :
  nonneg x -> py_int x = Ok z -> floor x = Some z /\ (0 <= z)%Z.
Proof.
  rewrite nonneg_spec. unfold py_int, floor.
  destruct (Prim2SF x) as [s | s | | [] m e]; cbn; try discriminate.
  - intros _ H. injection H as <-. split; [reflexivity | lia].
  - intros _ H. injection H as <-. split; [reflexivity |].
    apply Z.shiftl_nonneg. lia.
Qed.

Lemma SFldexp_nonneg (f : spec_float) (e : Z) :
  sf_nonneg f = true -> sf_nonneg (SFldexp prec emax f e) = true.
Proof.
  destruct f as [[] | [] | | [] m e']; cbn [SFldexp sf_nonneg]; try congruence.
  intros _. apply binary_round_nonneg.
Qed.

Lemma SF2Prim_nonneg (s : spec_float) : sf_nonneg s = true -> nonneg (SF2Prim s).
Proof.
  intros H. apply nonneg_spec.
  destruct s as [[] | [] | | [] m e]; try discriminate; try reflexivity.
  cbn [SF2Prim]. rewrite FloatLemmas.Z_ldexp_spec. apply SFldexp_nonneg.
  rewrite of_uint63_spec. apply binary_normalize_nonneg.
  apply Uint63.to_Z_bounded.
Qed.

Lemma float_of_int_nonneg (z : Z) (f : float) :
  (0 <= z)%Z -> float_of_int z = Ok f -> nonneg f.
Proof.
  intros Hz. unfold float_of_int.
  destruct (is_infinity _); [discriminate |].
  intros H. injection H as <-.
  apply SF2Prim_nonneg. now apply binary_normalize_nonneg.
Qed.

Lemma int_mul_inv (z : Z) (x y : float) :
  int_mul z x = Ok y -> exists f, float_of_int z = Ok f /\ y = f * x.
Proof.
  unfold int_mul. destruct (float_of_int z) as [f | e]; [| discriminate].
  intros H. injection H as <-. now exists f.
Qed.

Lemma int_mul_nonneg (z : Z) (x y : float) :
  (0 <= z)%Z -> nonneg x -> int_mul z x = Ok y -> nonneg y.
Proof.
  intros Hz Hx H. destruct (int_mul_inv z x y H) as (f & Hf & ->).
  apply mul_nonneg; [now apply (float_of_int_nonneg z) | exact Hx].
Qed.

(** A draw of [random.uniform(a, b)] with [0 <= a <= b] is not negative. *)
Lemma uniform_nonneg (a b u : float) :
  nonneg a -> nonneg (b - a) -> (0 <=? u) = true -> nonneg (a + (b - a) * u).
Proof.
  intros Ha Hab Hu. apply add_nonneg; [exact Ha |].
  apply mul_nonneg; [exact Hab |].
  unfold nonneg. rewrite ltb_spec. rewrite leb_spec in Hu.
  change (Prim2SF 0) with (S754_zero false) in *.
  destruct (Prim2SF u) as [[] | [] | | [] m e]; cbn in *; congruence.
Qed.

End B64Facts.

(** ** The binary64 loop nest, row by row *)

Lemma bind_inv {A B : Type} (m : M A) (f : A -> M B) (k k'' : nat) (b : B) :
  bind m f k = Ok (b, k'') -> exists a k', m k = Ok (a, k') /\ f a k' = Ok (b, k'').
Proof.
  unfold bind. destruct (m k) as [[a k'] | e]; [| discriminate].
  intros H. now exists a, k'.
Qed.

Lemma lift_inv {A : Type} (r : result A) (k k' : nat) (a : A) :
  lift r k = Ok (a, k') -> r = Ok a /\ k' = k.
Proof.
  unfold lift. destruct r as [a' | e]; [| discriminate].
  intros H. injection H as <- <-. now split.
Qed.

Lemma ret_inv {A : Type} (a a' : A) (k k' : nat) :
  ret a k = Ok (a', k') -> a' = a /\ k' = k.
Proof. unfold ret. intros H. injection H as <- <-. now split. Qed.

(** The rows of a loop that completes: the keys of its iterations in
    order, each row with what its iteration establishes. *)
Lemma for_each_inv {A B K : Type} (P : B -> Prop) (key : B -> K) (g : A -> list K)
    (xs : list A) (body : A -> M (list B)) :
  (forall x, In x xs -> forall k ys k',
      body x k = Ok (ys, k') -> map key ys = g x /\ Forall P ys) ->
  forall k ys k', for_each xs body k = Ok (ys, k') ->
    map key ys = flat_map g xs /\ Forall P ys.
Proof.
  induction xs as [| x xs IH]; intros Hbody k ys k' Hrun.
  - apply ret_inv in Hrun as [-> _]. split; [reflexivity | constructor].
  - cbn [for_each] in Hrun.
    apply bind_inv in Hrun as (ys1 & k1 & H1 & Hrun).
    apply bind_inv in Hrun as (zs & k2 & H2 & Hrun).
    apply ret_inv in Hrun as [-> _].
    destruct (Hbody x (or_introl eq_refl) k ys1 k1 H1) as [Hk1 HP1].
    destruct (IH (fun y Hy => Hbody y (or_intror Hy)) k1 zs k2 H2) as [Hk2 HP2].
    split.
    + cbn [flat_map]. now rewrite map_app, Hk1, Hk2.
    + apply Forall_app. now split.
Qed.

Module B64Loop.

Import PrimFloat SpecFloat FloatOps FloatAxioms B64 B64Spec B64Facts.
Local Open Scope float_scope.

Lemma uniform_inv (src : RandomSource) (a b x : float) (k k' : nat) :
  uniform src a b k = Ok (x, k') -> drawn src a b x /\ k' = S k.
Proof.
  unfold uniform, random, bind, ret. intros H. injection H as <- <-.
  split; [now exists k | reflexivity].
Qed.

Lemma list_index_In {A : Type} (l : list A) (i : nat) (a : A) :
  list_index l i = Ok a -> In a l.
Proof.
  unfold list_index. destruct (nth_error l i) as [a' |] eqn:H; [| discriminate].
  intros Heq. injection Heq as <-. now apply nth_error_In with i.
Qed.

Lemma dict_index_inv {V : Type} (d : list (string * V)) (k : string) (v : V) :
  dict_index d k = Ok v -> dict_get d k = Some v.
Proof.
  unfold dict_index. destruct (dict_get d k) as [v' |]; [| discriminate].
  intros H. now injection H as <-.
Qed.

Ltac unbind H :=
  repeat (let a := fresh "a" in let k := fresh "k" in let Ha := fresh "Ha" in
          apply bind_inv in H; destruct H as (a & k & Ha & H)).

Lemma store_body_inv (lib : MathLib) (cfg : Config) (src : RandomSource)
    (d : DayVars) (r : RegionVars) (sku : string) (pkg : float) (ch : string)
    (idx k k' : nat) (ys : list (Locals.t * SalesRow.t)) :
  In sku (SKUS cfg) -> dict_get (PACKAGING_MAP cfg) sku = Some pkg ->
  In ch (CHANNELS cfg) -> nonneg (wedding_density d) ->
  store_body lib cfg src d r sku pkg ch idx k = Ok (ys, k') ->
  exists l row,
    ys = [(l, row)] /\
    row_key row = (curr_date d, region r, sku, ch, store_id_of (region r) ch idx) /\
    generated lib cfg src l row.
Proof.
  intros Hsku Hpkg Hch Hwed H. unfold store_body in H.
  unbind H. apply ret_inv in H as [-> _].
  repeat match goal with
         | Hl : lift _ _ = Ok _ |- _ =>
             apply lift_inv in Hl; destruct Hl as [Hl ?]; subst
         end.
  apply uniform_inv in Ha1 as [Hu1 _], Ha3 as [Hu3 _].
  assert (Hs : drawn src 0.5 0.8 a5 \/ drawn src 1.0 1.2 a5).
  { destruct (truthy (logistics_disruption d));
      apply uniform_inv in Ha5 as [Hu5 _]; [now left | now right]. }
  do 2 eexists. split; [reflexivity | split; [reflexivity |]].
  constructor; cbn [Locals.pkg_size Locals.channel Locals.base_demand
    Locals.season_factor Locals.weekday_factor Locals.fasting_impact
    Locals.wedding_impact Locals.optimal_price Locals.price_offered
    Locals.elasticity Locals.price_factor Locals.noise Locals.demand_units
    Locals.inventory_received Locals.sales_units Locals.sales_kg
    Locals.unsold_kg Locals.decay_rate Locals.wastage_kg Locals.temp_max
    Locals.humidity SalesRow.label_daily_demand SalesRow.sales_units
    SalesRow.sales_kg SalesRow.inventory_received_kg SalesRow.wastage_kg
    SalesRow.channel SalesRow.temp_max_c SalesRow.humidity_avg];
    try reflexivity; try assumption.
  - exists sku. now split.
  - now exists (month d).
  - exists a. split; [now apply dict_index_inv | now apply list_index_In in Ha0].
  - now exists (panchang_fasting d).
  - exists (wedding_density d). now split.
  - exists a1. now split.
  - exists a5. now split.
Qed.

Section LoopNest.

Variable lib : MathLib.
Variable cfg : Config.
Variable src : RandomSource.
Hypothesis Hsrc : valid_source src.

Let P (x : Locals.t * SalesRow.t) : Prop := generated lib cfg src (fst x) (snd x).
Let key (x : Locals.t * SalesRow.t) : RowKey := row_key (snd x).

Lemma sku_body_inv (d : DayVars) (r : RegionVars) (sku : string) (k k' : nat)
    (ys : list (Locals.t * SalesRow.t)) :
  In sku (SKUS cfg) -> nonneg (wedding_density d) ->
  sku_body lib cfg src d r sku k = Ok (ys, k') ->
  map key ys = sku_keys cfg (curr_date d) (region r) sku /\ Forall P ys.
Proof.
  intros Hsku Hwed H. unfold sku_body in H.
  apply bind_inv in H as (pkg & k1 & Hpkg & H).
  apply lift_inv in Hpkg as [Hpkg ->]. apply dict_index_inv in Hpkg.
  revert k ys k' H. apply for_each_inv. intros ch Hch k ys k' H.
  unfold store_keys.
  rewrite <- (flat_map_singleton
                (fun store_idx =>
                   (curr_date d, region r, sku, ch, store_id_of (region r) ch store_idx))).
  revert k ys k' H. apply for_each_inv. intros idx _ k ys k' H.
  destruct (store_body_inv lib cfg src d r sku pkg ch idx k k' ys)
    as (l & row & -> & Hkey & Hgen); try assumption.
  split.
  - unfold key. cbn [map snd]. now rewrite Hkey.
  - constructor; [exact Hgen | constructor].
Qed.

Lemma region_body_inv (d : DayVars) (region : string) (k k' : nat)
    (ys : list (Locals.t * SalesRow.t)) :
  nonneg (wedding_density d) ->
  region_body lib cfg src d region k = Ok (ys, k') ->
  map key ys = region_keys cfg (curr_date d) region /\ Forall P ys.
Proof.
  intros Hwed H. unfold region_body in H.
  unbind H. revert H. apply for_each_inv. intros sku Hsku kk yy kk' H.
  apply sku_body_inv in H; assumption.
Qed.

Lemma unit_nonneg (k : nat) : nonneg (unit_at src k).
Proof.
  destruct (Hsrc k) as [H0 _]. unfold nonneg.
  rewrite ltb_spec. rewrite leb_spec in H0.
  change (Prim2SF 0) with (S754_zero false) in *.
  destruct (Prim2SF (unit_at src k)) as [[] | [] | | [] m e]; cbn in *; congruence.
Qed.

Lemma drawn_nonneg (a b x : float) :
  nonneg a -> nonneg (b - a) -> drawn src a b x -> nonneg x.
Proof.
  intros Ha Hab [k ->]. apply add_nonneg; [exact Ha |].
  apply mul_nonneg; [exact Hab | apply unit_nonneg].
Qed.

Lemma day_body_inv (today : Z) (day_offset : nat) (k k' : nat)
    (ys : list (Locals.t * SalesRow.t)) :
  day_body lib cfg src today day_offset k = Ok (ys, k') ->
  map key ys = day_keys cfg today day_offset /\ Forall P ys.
Proof.
  intros H. unfold day_body in H.
  unbind H. revert H. apply for_each_inv. intros region _ kk yy kk' H.
  apply region_body_inv in H; [exact H |].
  cbn [wedding_density].
  apply uniform_inv in Ha0 as [Hw _].
  assert (Hw0 : nonneg a0) by (apply (drawn_nonneg 0.0 0.3); [reflexivity | reflexivity | exact Hw]).
  destruct (zdict_mem _ _).
  - apply bind_inv in Ha1 as (w' & k1' & Hw' & Hret).
    apply ret_inv in Hret as [-> _].
    apply uniform_inv in Hw' as [Hw' _].
    apply add_nonneg; [exact Hw0 |].
    apply (drawn_nonneg 0.3 0.6); [reflexivity | reflexivity | exact Hw'].
  - apply ret_inv in Ha1 as [-> _]. exact Hw0.
Qed.

Lemma historical_loop_inv (today : Z) (k k' : nat)
    (ys : list (Locals.t * SalesRow.t)) :
  historical_loop lib cfg src today k = Ok (ys, k') ->
  map key ys = cross_product cfg today /\ Forall P ys.
Proof.
  unfold historical_loop, cross_product. revert k ys k'.
  apply for_each_inv. intros off _ k ys k'. apply day_body_inv.
Qed.

End LoopNest.

(** A run that completes returns the rows of the cross product, each with
    the provenance above. *)
Lemma historical_trace_inv (lib : MathLib) (cfg : Config) (today : Z)
    (src : RandomSource) (t : list (Locals.t * SalesRow.t)) :
  valid_source src ->
  generate_historical_trace lib cfg today src = Ok t ->
  generate_historical_sales lib cfg today src = Ok (map snd t) /\
  map row_key (map snd t) = cross_product cfg today /\
  Forall (fun x => generated lib cfg src (fst x) (snd x)) t.
Proof.
  intros Hsrc Hrun. split.
  - unfold generate_historical_sales. now rewrite Hrun.
  - unfold generate_historical_trace, run in Hrun.
    destruct (historical_loop lib cfg src today 0%nat) as [[ys k'] | e] eqn:Hloop;
      [| discriminate].
    injection Hrun as <-.
    destruct (historical_loop_inv lib cfg src Hsrc today 0 k' ys Hloop) as [Hkey HP].
    split; [now rewrite map_map | exact HP].
Qed.

End B64Loop.

(** ** Consequences of the provenance in binary64 *)

Module B64Rows.

Import PrimFloat SpecFloat FloatOps FloatAxioms B64 B64Spec B64Facts B64Loop.
Local Open Scope float_scope.

Lemma leb_zero_nonneg (x : float) : (0 <=? x) = true -> nonneg x.
Proof.
  intros H. unfold nonneg. rewrite ltb_spec. rewrite leb_spec in H.
  change (Prim2SF 0) with (S754_zero false) in *.
  destruct (Prim2SF x) as [[] | [] | | [] m e]; cbn in *; congruence.
Qed.

Lemma ltb_zero_nonneg (x : float) : (0 <? x) = true -> nonneg x.
Proof.
  intros H. unfold nonneg. rewrite ltb_spec. rewrite ltb_spec in H.
  change (Prim2SF 0) with (S754_zero false) in *.
  destruct (Prim2SF x) as [[] | [] | | [] m e]; cbn in *; congruence.
Qed.

Lemma is_nan_nonneg (x : float) : is_nan x = true -> nonneg x.
Proof.
  unfold is_nan, nonneg. rewrite eqb_spec, ltb_spec.
  change (Prim2SF 0) with (S754_zero false).
  destruct (Prim2SF x) as [[] | [] | | [] m e]; cbn; try congruence.
  rewrite Z.compare_refl, Pos.compare_cont_refl. discriminate.
Qed.

Lemma py_pow_nonneg (lib : MathLib) (x e pf : float) :
  pow_keeps_sign lib -> py_pow lib x e = Ok pf -> nonneg pf.
Proof.
  intros Hlib. unfold py_pow.
  destruct (is_nan x) eqn:Hnan.
  { intros H. injection H as <-. now apply is_nan_nonneg. }
  destruct (is_infinity x).
  { intros H. injection H as <-. reflexivity. }
  destruct (x =? 0); [discriminate |].
  destruct (x <? 0) eqn:Hneg; [discriminate |].
  destruct (x =? 1).
  { intros H. injection H as <-. reflexivity. }
  destruct (is_infinity _); [discriminate |].
  intros H. injection H as <-. now apply Hlib.
Qed.

Lemma price_factor_nonneg (lib : MathLib) (ch : string) (po opt pf : float) :
  pow_keeps_sign lib -> price_factor_of lib ch po opt = Ok pf -> nonneg pf.
Proof.
  intros Hlib. unfold price_factor_of.
  destruct (py_div po opt) as [ratio | e]; [| discriminate].
  now apply py_pow_nonneg.
Qed.

Lemma season_factor_sign (cfg : Config) (m : Z) :
  valid_config cfg ->
  nonneg (zdict_get_default (SEASONALITY_MONTHS cfg) m 1.0).
Proof.
  intros (_ & _ & Hs). unfold zdict_get_default.
  destruct (zdict_get (SEASONALITY_MONTHS cfg) m) as [v |] eqn:Hget; [| reflexivity].
  apply leb_zero_nonneg, (Hs m v). now apply zdict_get_In.
Qed.

Lemma base_demand_nonneg (ch : string) : nonneg (base_demand_of ch).
Proof. unfold base_demand_of. destruct (ch =? "B2C")%string; reflexivity. Qed.

Lemma fasting_impact_nonneg (flag : Z) (ch : string) :
  nonneg (fasting_impact_of flag ch).
Proof. unfold fasting_impact_of. destruct (_ && _); reflexivity. Qed.

Lemma wedding_impact_nonneg (wd : float) (ch : string) :
  nonneg wd -> nonneg (wedding_impact_of wd ch).
Proof.
  intros Hwd. unfold wedding_impact_of. destruct (ch =? "B2B")%string.
  - apply add_nonneg; [reflexivity | exact Hwd].
  - reflexivity.
Qed.

Section Rows.

Variable lib : MathLib.
Variable cfg : Config.
Variable src : RandomSource.
Hypothesis Hlib : pow_keeps_sign lib.
Hypothesis Hcfg : valid_config cfg.
Hypothesis Hsrc : valid_source src.

Variable l : Locals.t.
Variable row : SalesRow.t.
Hypothesis G : generated lib cfg src l row.

(** The product under [int(...)] is not negative. *)
Lemma product_sign :
  nonneg (demand_product (Locals.base_demand l) (Locals.season_factor l)
            (Locals.weekday_factor l) (Locals.fasting_impact l)
            (Locals.wedding_impact l) (Locals.price_factor l) (Locals.noise l)).
Proof.
  destruct (gen_season _ _ _ _ _ G) as (m & Hm).
  destruct (gen_weekday _ _ _ _ _ G) as (tbl & Htbl & Hin).
  destruct (gen_fasting _ _ _ _ _ G) as (flag & Hflag).
  destruct (gen_wedding _ _ _ _ _ G) as (wd & Hwd & Hwi).
  destruct Hcfg as (_ & Hwk & _).
  unfold demand_product. repeat apply mul_nonneg.
  - rewrite (gen_base _ _ _ _ _ G). apply base_demand_nonneg.
  - rewrite Hm. now apply season_factor_sign.
  - apply leb_zero_nonneg. exact (Hwk _ _ _ Htbl Hin).
  - rewrite Hflag. apply fasting_impact_nonneg.
  - rewrite Hwi. now apply wedding_impact_nonneg.
  - exact (price_factor_nonneg _ _ _ _ _ Hlib (gen_pfactor _ _ _ _ _ G)).
  - apply (drawn_nonneg src Hsrc 0.8 1.2);
      [reflexivity | reflexivity | exact (gen_noise _ _ _ _ _ G)].
Qed.

(** [demand_units] is the floor of that product, and not negative. *)
Lemma generated_demand_floor :
  floor (Locals.base_demand l * Locals.season_factor l * Locals.weekday_factor l
         * Locals.fasting_impact l * Locals.wedding_impact l
         * Locals.price_factor l * Locals.noise l) = Some (Locals.demand_units l) /\
  (0 <= Locals.demand_units l)%Z.
Proof.
  apply float_int_floor; [exact product_sign |].
  exact (gen_demand _ _ _ _ _ G).
Qed.

Lemma generated_pkg_nonneg : nonneg (Locals.pkg_size l).
Proof.
  destruct (gen_pkg _ _ _ _ _ G) as (sku & _ & Hget).
  destruct Hcfg as (Hpk & _ & _).
  apply ltb_zero_nonneg. exact (Hpk _ _ Hget).
Qed.

Lemma generated_inventory_nonneg : nonneg (Locals.inventory_received l).
Proof.
  destruct (gen_inventory _ _ _ _ _ G) as (s & Hs & Hinv).
  unfold inventory_received_of in Hinv.
  destruct (int_mul _ _) as [w | e] eqn:Hw; [| discriminate].
  injection Hinv as <-.
  apply mul_nonneg.
  - apply (int_mul_nonneg _ _ _ (proj2 generated_demand_floor)
             generated_pkg_nonneg Hw).
  - destruct Hs as [Hs | Hs].
    + apply (drawn_nonneg src Hsrc 0.5 0.8); [reflexivity | reflexivity | exact Hs].
    + apply (drawn_nonneg src Hsrc 1.0 1.2); [reflexivity | reflexivity | exact Hs].
Qed.

(** The fulfilment step. *)
Lemma fulfilment_by_floor :
  exists q,
    floor (Locals.inventory_received l / Locals.pkg_size l) = Some q /\
    Locals.sales_units l = Z.min (Locals.demand_units l) q /\
    (0 <= Locals.sales_units l <= Locals.demand_units l)%Z.
Proof.
  pose proof (gen_sales _ _ _ _ _ G) as Hs. unfold sales_units_of in Hs.
  destruct (py_div _ _) as [q | e] eqn:Hq; [| discriminate].
  destruct (py_int q) as [n | e] eqn:Hn; [| discriminate].
  injection Hs as Hs.
  apply py_div_inv in Hq as [Hnz ->].
  assert (Hq0 : nonneg (Locals.inventory_received l / Locals.pkg_size l)).
  { apply div_nonneg;
      [exact generated_inventory_nonneg | exact generated_pkg_nonneg | exact Hnz]. }
  destruct (float_int_floor _ _ Hq0 Hn) as [Hfl Hn0].
  pose proof (proj2 generated_demand_floor) as Hd.
  exists n. split; [exact Hfl | split; [now symmetry | lia]].
Qed.

End Rows.

End B64Rows.

(** ** Multiplying by a factor below one *)

Module B64Order.

Import PrimFloat SpecFloat FloatOps FloatAxioms B64 B64Facts.
Local Open Scope Z_scope.

Lemma digits2_bounds (p : positive) :
  2 ^ (Zpos (digits2_pos p) - 1) <= Zpos p < 2 ^ Zpos (digits2_pos p).
Proof.
  induction p as [p IH | p IH |]; cbn [digits2_pos].
  - rewrite Pos2Z.inj_succ.
    replace (Z.succ (Zpos (digits2_pos p)) - 1) with (Z.succ (Zpos (digits2_pos p) - 1))
      by lia.
    rewrite !Z.pow_succ_r by lia. lia.
  - rewrite Pos2Z.inj_succ.
    replace (Z.succ (Zpos (digits2_pos p)) - 1) with (Z.succ (Zpos (digits2_pos p) - 1))
      by lia.
    rewrite !Z.pow_succ_r by lia. lia.
  - cbn. lia.
Qed.

(** A number below [2 ^ k] has at most [k] digits. *)
Lemma digits2_le (p : positive) (k : Z) :
  Zpos p < 2 ^ k -> Zpos (digits2_pos p) <= k.
Proof.
  intros H. destruct (digits2_bounds p) as [Hlo _].
  destruct (Z.le_gt_cases (Zpos (digits2_pos p)) k) as [Hle | Hgt]; [exact Hle |].
  assert (2 ^ k <= 2 ^ (Zpos (digits2_pos p) - 1)).
  { apply Z.pow_le_mono_r; lia. }
  lia.
Qed.

Lemma Zdigits2_le (m k : Z) : 0 <= m < 2 ^ k -> 0 <= k -> Zdigits2 m <= k.
Proof.
  intros [H0 H] Hk. destruct m as [| p | p]; cbn [Zdigits2].
  - exact Hk.
  - now apply digits2_le.
  - lia.
Qed.

Lemma fexp_mono (a b : Z) : a <= b -> fexp prec emax a <= fexp prec emax b.
Proof. unfold fexp, emin, prec, emax. lia. Qed.

Lemma shr_1_div2 (mrs : shr_record) :
  0 <= shr_m mrs -> shr_m (shr_1 mrs) = shr_m mrs / 2.
Proof.
  destruct mrs as [m r s]. cbn [shr_m]. intros Hm.
  destruct m as [| [p | p |] | p]; cbn [shr_1 shr_m]; try lia;
    try reflexivity.
  - apply Z.div_unique with (r := 1); lia.
  - apply Z.div_unique with (r := 0); lia.
Qed.

Lemma shr_iter_div (p : positive) (mrs : shr_record) :
  0 <= shr_m mrs ->
  shr_m (iter_pos shr_1 p mrs) = shr_m mrs / 2 ^ Zpos p.
Proof.
  revert mrs. induction p as [p IH | p IH |]; intros mrs Hm; cbn [iter_pos].
  - assert (H1 : 0 <= shr_m (shr_1 mrs))
      by (rewrite shr_1_div2 by exact Hm; apply Z.div_pos; lia).
    assert (H2 : 0 <= shr_m (iter_pos shr_1 p (shr_1 mrs)))
      by (rewrite IH by exact H1; apply Z.div_pos; lia).
    rewrite IH by exact H2. rewrite IH by exact H1. rewrite shr_1_div2 by exact Hm.
    rewrite !Z.div_div by lia. f_equal.
    replace (Zpos p~1) with (1 + (Zpos p + Zpos p)) by lia.
    rewrite !Z.pow_add_r, Z.pow_1_r by lia. ring.
  - assert (H1 : 0 <= shr_m (iter_pos shr_1 p mrs))
      by (rewrite IH by exact Hm; apply Z.div_pos; lia).
    rewrite IH by exact H1. rewrite IH by exact Hm.
    rewrite Z.div_div by lia. f_equal.
    replace (Zpos p~0) with (Zpos p + Zpos p) by lia.
    now rewrite Z.pow_add_r by lia.
  - rewrite shr_1_div2 by exact Hm. now rewrite Z.pow_1_r.
Qed.

(** What [shr_fexp] returns on a mantissa that is not negative: the
    exponent is the larger of [e] and the canonical one, and the mantissa
    is the quotient by the power of two between the two exponents. *)
Lemma shr_fexp_spec (m e : Z) (l : location) :
  0 <= m ->
  let '(mrs, e') := shr_fexp prec emax m e l in
  e' = Z.max e (fexp prec emax (Zdigits2 m + e)) /\
  shr_m mrs = m / 2 ^ (e' - e).
Proof.
  intros Hm. unfold shr_fexp, shr.
  assert (Hrec : shr_m (shr_record_of_loc m l) = m)
    by (destruct l as [| []]; reflexivity).
  destruct (fexp prec emax (Zdigits2 m + e) - e) as [| p | p] eqn:Hn.
  - split; [lia |]. replace (e - e) with 0 by lia. now rewrite Z.div_1_r.
  - split; [lia |]. rewrite shr_iter_div by (rewrite Hrec; exact Hm).
    rewrite Hrec. f_equal. f_equal. lia.
  - split; [lia |]. replace (e - e) with 0 by lia. now rewrite Z.div_1_r.
Qed.

Lemma round_nearest_even_bounds (m : Z) (l : location) :
  m <= round_nearest_even m l <= m + 1.
Proof.
  destruct l as [| []]; cbn [round_nearest_even]; try lia.
  destruct (Z.even m); lia.
Qed.

(** The rounded product of a float [mx * 2 ^ ex] and a factor
    [md * 2 ^ ed] below one is at most the float. *)
Lemma SFmul_below_one (mx md : positive) (ex ed : Z) :
  bounded prec emax mx ex = true ->
  ed <= 0 -> Zpos md < 2 ^ (- ed) ->
  SFleb (SF64mul (S754_finite false mx ex) (S754_finite false md ed))
        (S754_finite false mx ex) = true.
Proof.
  intros Hb Hed Hmd.
  apply andb_prop in Hb as [Hcan Hex].
  apply Z.eqb_eq in Hcan. apply Z.leb_le in Hex.
  destruct (digits2_bounds mx) as [_ Hdx].
  set (dx := Zpos (digits2_pos mx)) in *.
  assert (Hdx0 : 0 < dx) by (unfold dx; lia).
  unfold SF64mul. cbn [SFmul xorb]. unfold binary_round_aux.
  rewrite Pos2Z.inj_mul.
  set (M := Zpos mx * Zpos md).
  assert (HM0 : 0 <= M) by (unfold M; lia).
  assert (HMlt : M < Zpos mx * 2 ^ (- ed)) by (unfold M; nia).
  assert (Hpa : 0 < 2 ^ (- ed)) by (apply Z.pow_pos_nonneg; lia).
  (* the first shift *)
  pose proof (shr_fexp_spec M (ex + ed) loc_Exact HM0) as H1.
  destruct (shr_fexp prec emax M (ex + ed) loc_Exact) as [mrs' e'].
  destruct H1 as [He' Hm1].
  assert (HdM : Zdigits2 M + (ex + ed) <= dx + ex).
  { assert (Zdigits2 M <= dx + - ed); [| lia].
    apply Zdigits2_le; [| lia]. split; [exact HM0 |].
    rewrite Z.pow_add_r by lia. nia. }
  pose proof (fexp_mono _ _ HdM) as Hf1. fold dx in Hcan. rewrite Hcan in Hf1.
  assert (He'x : ex + ed <= e' <= ex) by lia.
  set (N := Zpos mx * 2 ^ (ex - e')).
  assert (Hp1 : 0 < 2 ^ (e' - (ex + ed))) by (apply Z.pow_pos_nonneg; lia).
  assert (Hp2 : 0 < 2 ^ (ex - e')) by (apply Z.pow_pos_nonneg; lia).
  assert (Hsplit : 2 ^ (- ed) = 2 ^ (e' - (ex + ed)) * 2 ^ (ex - e')).
  { rewrite <- Z.pow_add_r by lia. f_equal. lia. }
  assert (Hm1N : 0 <= shr_m mrs' < N).
  { rewrite Hm1. split; [apply Z.div_pos; lia |].
    apply Z.div_lt_upper_bound; [exact Hp1 |].
    unfold N. rewrite Hsplit in HMlt. nia. }
  (* the rounding *)
  pose proof (round_nearest_even_bounds (shr_m mrs') (loc_of_shr_record mrs')) as Hr.
  set (m2 := round_nearest_even (shr_m mrs') (loc_of_shr_record mrs')) in *.
  assert (Hm2 : 0 <= m2 <= N) by lia.
  (* the second shift *)
  pose proof (shr_fexp_spec m2 e' loc_Exact (proj1 Hm2)) as H2.
  destruct (shr_fexp prec emax m2 e' loc_Exact) as [mrs'' e''].
  destruct H2 as [He'' Hm3].
  assert (Hd2 : Zdigits2 m2 + e' <= dx + ex).
  { assert (Zdigits2 m2 <= dx + (ex - e')); [| lia].
    apply Zdigits2_le; [| lia]. split; [lia |].
    rewrite Z.pow_add_r by lia. unfold N in Hm2. nia. }
  pose proof (fexp_mono _ _ Hd2) as Hf2. rewrite Hcan in Hf2.
  assert (He''x : e' <= e'' <= ex) by lia.
  assert (Hp3 : 0 < 2 ^ (e'' - e')) by (apply Z.pow_pos_nonneg; lia).
  assert (Hm3' : 0 <= shr_m mrs'') by (rewrite Hm3; apply Z.div_pos; lia).
  destruct (shr_m mrs'') as [| p3 | p3] eqn:Hp; [reflexivity | | lia].
  replace (e'' <=? emax - prec) with true by (symmetry; apply Z.leb_le; lia).
  unfold SFleb, SFcompare.
  destruct (Z.compare_spec e'' ex) as [Heq | Hlt | Hgt]; [| reflexivity | lia].
  change (Pos.compare_cont Eq p3 mx) with (Pos.compare p3 mx).
  assert (Hle : Zpos p3 <= Zpos mx).
  { rewrite Hm3, Heq.
    apply Z.le_trans with (N / 2 ^ (ex - e')).
    - apply Z.div_le_mono; lia.
    - unfold N. rewrite Z.div_mul by lia. lia. }
  destruct (Pos.compare_spec p3 mx); [reflexivity | reflexivity | lia].
Qed.

(** The rounded value of a mantissa that is not negative is a zero, a
    positive float or the infinity above. *)
Lemma binary_round_aux_ge0 (m e : Z) :
  0 <= m ->
  SFleb (S754_zero false) (binary_round_aux prec emax false m e loc_Exact) = true.
Proof.
  intros Hm. unfold binary_round_aux.
  pose proof (shr_fexp_spec m e loc_Exact Hm) as H1.
  destruct (shr_fexp prec emax m e loc_Exact) as [mrs' e'].
  destruct H1 as [He' Hm1].
  assert (Hm1' : 0 <= shr_m mrs').
  { rewrite Hm1. apply Z.div_pos; [exact Hm |]. apply Z.pow_pos_nonneg; lia. }
  pose proof (round_nearest_even_bounds (shr_m mrs') (loc_of_shr_record mrs')) as Hr.
  set (m2 := round_nearest_even (shr_m mrs') (loc_of_shr_record mrs')) in *.
  assert (Hm2 : 0 <= m2) by lia.
  pose proof (shr_fexp_spec m2 e' loc_Exact Hm2) as H2.
  destruct (shr_fexp prec emax m2 e' loc_Exact) as [mrs'' e''].
  destruct H2 as [He'' Hm3].
  assert (Hm3' : 0 <= shr_m mrs'').
  { rewrite Hm3. apply Z.div_pos; [exact Hm2 |]. apply Z.pow_pos_nonneg; lia. }
  destruct (shr_m mrs'') as [| p | p]; [reflexivity | | lia].
  destruct (e'' <=? emax - prec); reflexivity.
Qed.

Local Open Scope float_scope.

(** In floats: the product of two positive numbers is not below zero. *)
Lemma mul_pos_ge0 (x d : float) :
  (0 <? x) = true -> (0 <? d) = true -> (0 <=? x * d) = true.
Proof.
  intros Hx Hd. rewrite leb_spec, mul_spec.
  rewrite ltb_spec in Hx, Hd.
  change (Prim2SF 0) with (S754_zero false) in *.
  destruct (Prim2SF x) as [[] | [] | | [] mx ex]; cbn in Hx; try discriminate;
    destruct (Prim2SF d) as [[] | [] | | [] md ed]; cbn in Hd; try discriminate;
    try reflexivity.
  unfold SF64mul. cbn [SFmul xorb]. apply binary_round_aux_ge0. lia.
Qed.

(** In floats: a positive [x] times a factor below one is at most [x]. *)
Lemma mul_below_one (x d : float) (md : positive) (ed : Z) :
  (0 <? x) = true ->
  Prim2SF d = S754_finite false md ed -> (ed <= 0)%Z -> (Zpos md < 2 ^ (- ed))%Z ->
  (x * d <=? x) = true.
Proof.
  intros Hx Hd Hed Hmd.
  rewrite leb_spec, mul_spec, Hd.
  rewrite ltb_spec in Hx. change (Prim2SF 0) with (S754_zero false) in Hx.
  pose proof (Prim2SF_valid x) as Hv.
  destruct (Prim2SF x) as [[] | [] | | [] mx ex]; cbn in Hx; try discriminate.
  - reflexivity.
  - now apply SFmul_below_one.
Qed.

End B64Order.

(** ** The wastage step in binary64 *)

Module B64Wastage.

Import PrimFloat SpecFloat FloatOps FloatAxioms B64 B64Spec B64Facts B64Order.
Local Open Scope float_scope.

(** The three values of the decay rate: the sums as binary64 computes
    them. *)
Lemma decay_rate_values (temp_max humidity : float) :
  decay_rate_of temp_max humidity = 0.1 \/
  decay_rate_of temp_max humidity = 0.15000000000000002 \/
  decay_rate_of temp_max humidity = 0.2.
Proof.
  unfold decay_rate_of.
  destruct (30 <? temp_max), (80 <? humidity);
    [right; right | right; left | right; left | left]; reflexivity.
Qed.

Lemma decay_rate_hotter (hot mild humidity : float) :
  (30 <? hot) = true -> (30 <? mild) = false ->
  (decay_rate_of mild humidity <=? decay_rate_of hot humidity) = true.
Proof.
  intros Hh Hm. unfold decay_rate_of. rewrite Hh, Hm.
  destruct (80 <? humidity); reflexivity.
Qed.

(** The wastage is between zero and the unsold weight. *)
Lemma wastage_range (inventory_received sales_kg temp_max humidity : float) :
  let unsold := unsold_of inventory_received sales_kg in
  let wastage := unsold * decay_rate_of temp_max humidity in
  (0 <=? wastage) = true /\ (wastage <=? unsold) = true /\
  ((0 <? inventory_received - sales_kg) = false -> wastage = 0).
Proof.
  cbn zeta. unfold unsold_of.
  destruct (0 <? inventory_received - sales_kg) eqn:Hx.
  - split; [| split; [| discriminate]].
    + apply mul_pos_ge0; [exact Hx |].
      destruct (decay_rate_values temp_max humidity) as [-> | [-> | ->]]; reflexivity.
    + destruct (decay_rate_values temp_max humidity) as [-> | [-> | ->]].
      * apply (mul_below_one _ _ 7205759403792794 (-56)); [exact Hx | reflexivity | lia | reflexivity].
      * apply (mul_below_one _ _ 5404319552844596 (-55)); [exact Hx | reflexivity | lia | reflexivity].
      * apply (mul_below_one _ _ 7205759403792794 (-55)); [exact Hx | reflexivity | lia | reflexivity].
  - destruct (decay_rate_values temp_max humidity) as [-> | [-> | ->]];
      repeat split; reflexivity.
Qed.

End B64Wastage.

(** ** The sample inputs in binary64 are well formed *)

Module B64Checks.

Import PrimFloat SpecFloat FloatOps FloatAxioms B64 B64Spec B64Facts B64Samples.
Local Open Scope float_scope.

Lemma float_config_valid : valid_config default_config.
Proof.
  split; [| split].
  - intros sku p H. cbn [default_config PACKAGING_MAP dict_get] in H.
    repeat match type of H with
           | (if ?b then _ else _) = Some _ => destruct b
           end;
      try discriminate; injection H as <-; reflexivity.
  - intros ch tbl f H Hin. cbn [default_config WEEKDAY_FACTORS dict_get] in H.
    repeat match type of H with
           | (if ?b then _ else _) = Some _ => destruct b
           end;
      try discriminate; injection H as <-;
      cbn [In] in Hin; repeat (destruct Hin as [<- | Hin]; [reflexivity |]);
      contradiction.
  - intros m f Hin. cbn [default_config SEASONALITY_MONTHS In] in Hin.
    repeat (destruct Hin as [Heq | Hin]; [injection Heq as <- <-; reflexivity |]).
    contradiction.
Qed.

Lemma one_day_config_valid : valid_config one_day_config.
Proof. exact float_config_valid. Qed.

Lemma float_source_valid : valid_source half_source.
Proof. intros k. split; reflexivity. Qed.

Lemma shortage_source_valid : valid_source shortage_source.
Proof.
  intros k. cbn [shortage_source unit_at].
  do 12 (destruct k as [| k]; [split; reflexivity |]). split; reflexivity.
Qed.

Lemma sample_lib_keeps_sign : pow_keeps_sign sample_lib.
Proof.
  intros x e _. cbn [sample_lib c_pow]. apply nonneg_spec.
  rewrite abs_spec. now destruct (Prim2SF _) as [[] | [] | | [] m e'].
Qed.

Lemma sample_trace_run :
  generate_historical_trace sample_lib one_day_config sample_today half_source =
  Ok sample_trace.
Proof. vm_compute. reflexivity. Qed.

End B64Checks.

(** * The claims *)

Section Binary64Claims.

Import PrimFloat.



(** C3, as stated, fails: on a fasting Monday with a logistics disruption
    the first row of the run has a demand of 22 units of 0.2 kg and an
    inventory of 3.3999999999999999 kg; the quotient [3.4 / 0.2] rounds to
    17.0, so 17 units are sold, and [17 * 0.2] rounds to
    3.4000000000000004 kg, above the inventory. *)
Lemma sales_exceed_stock_counterexample :
  B64Spec.valid_config B64Samples.consumer_200g_config /\
  B64.valid_source B64Samples.shortage_source /\
  exists l row rest,
    B64.generate_historical_trace B64Samples.sample_lib B64Samples.consumer_200g_config
      B64Samples.june_today B64Samples.shortage_source = Ok ((l, row) :: rest) /\
    B64.Locals.demand_units l = 22%Z /\
    B64.Locals.pkg_size l = 0.2%float /\
    B64.Locals.inventory_received l = 3.3999999999999999%float /\
    (B64.Locals.inventory_received l / B64.Locals.pkg_size l = 17)%float /\
    B64.Locals.sales_units l = 17%Z /\
    B64.Locals.sales_kg l = 3.4000000000000004%float /\
    (B64.Locals.inventory_received l <? B64.Locals.sales_kg l)%float = true.
Proof.
  split; [exact B64Checks.float_config_valid |].
  split; [exact B64Checks.shortage_source_valid |].
  do 3 eexists. split; [vm_compute; reflexivity |].
  repeat split.
Qed.

(** C3, amended. On a valid configuration, every row of a run that
    completes has [sales_units = min(demand_units, floor(inventory_received
    / unit_size))], the quotient being the one binary64 computes, and
    [sales_kg] is the binary64 product of [sales_units] and the unit size;
    hence [0 <= sales_units <= demand_units].  The row carries both weights
    rounded to two decimals. *)
Theorem sales_capped_by_demand_and_stock (lib : B64.MathLib) (cfg : B64.Config)
    (today : Z) (src : B64.RandomSource) (t : list (B64.Locals.t * B64.SalesRow.t)) :
  B64Spec.valid_config cfg -> B64.valid_source src -> B64Spec.pow_keeps_sign lib ->
  B64.generate_historical_trace lib cfg today src = Ok t ->
  B64.generate_historical_sales lib cfg today src = Ok (map snd t) /\
  map B64.row_key (map snd t) = B64.cross_product cfg today /\
  Forall (fun x =>
    let l := fst x in
    let row := snd x in
    (exists q,
       B64.floor (B64.Locals.inventory_received l / B64.Locals.pkg_size l)%float =
         Some q /\
       B64.SalesRow.sales_units row = Z.min (B64.SalesRow.label_daily_demand row) q) /\
    (exists units,
       B64.float_of_int (B64.SalesRow.sales_units row) = Ok units /\
       B64.Locals.sales_kg l = (units * B64.Locals.pkg_size l)%float) /\
    (0 <= B64.SalesRow.sales_units row <= B64.SalesRow.label_daily_demand row)%Z /\
    B64.SalesRow.sales_kg row = B64.py_round (B64.Locals.sales_kg l) 2 /\
    B64.SalesRow.inventory_received_kg row =
      B64.py_round (B64.Locals.inventory_received l) 2) t.
Proof.
  intros Hcfg Hsrc Hlib Hrun.
  destruct (B64Loop.historical_trace_inv lib cfg today src t Hsrc Hrun)
    as (Hsales & Hkeys & HP).
  split; [exact Hsales | split; [exact Hkeys |]].
  apply Forall_impl with (2 := HP). intros [l row] G. cbn [fst snd] in *.
  destruct (B64Rows.fulfilment_by_floor lib cfg src Hlib Hcfg Hsrc l row G)
    as (q & Hq & Hmin & Hrange).
  rewrite (B64Spec.gen_row_units _ _ _ _ _ G), (B64Spec.gen_row_demand _ _ _ _ _ G).
  split; [now exists q |].
  split; [exact (B64Facts.int_mul_inv _ _ _ (B64Spec.gen_sales_kg _ _ _ _ _ G)) |].
  split; [exact Hrange |].
  split; [exact (B64Spec.gen_row_sales_kg _ _ _ _ _ G) |
          exact (B64Spec.gen_row_inventory _ _ _ _ _ G)].
Qed.

Lemma sales_capped_by_demand_and_stock_witness :
  B64.generate_historical_sales B64Samples.sample_lib B64Samples.one_day_config
    sample_today B64Samples.half_source = Ok (map snd B64Samples.sample_trace) /\
  map B64.row_key (map snd B64Samples.sample_trace) =
    B64.cross_product B64Samples.one_day_config sample_today /\
  Forall (fun x =>
    let l := fst x in
    let row := snd x in
    (exists q,
       B64.floor (B64.Locals.inventory_received l / B64.Locals.pkg_size l)%float =
         Some q /\
       B64.SalesRow.sales_units row = Z.min (B64.SalesRow.label_daily_demand row) q) /\
    (exists units,
       B64.float_of_int (B64.SalesRow.sales_units row) = Ok units /\
       B64.Locals.sales_kg l = (units * B64.Locals.pkg_size l)%float) /\
    (0 <= B64.SalesRow.sales_units row <= B64.SalesRow.label_daily_demand row)%Z /\
    B64.SalesRow.sales_kg row = B64.py_round (B64.Locals.sales_kg l) 2 /\
    B64.SalesRow.inventory_received_kg row =
      B64.py_round (B64.Locals.inventory_received l) 2) B64Samples.sample_trace.
Proof.
  exact (sales_capped_by_demand_and_stock B64Samples.sample_lib
           B64Samples.one_day_config sample_today B64Samples.half_source
           B64Samples.sample_trace
           B64Checks.one_day_config_valid B64Checks.float_source_valid
           B64Checks.sample_lib_keeps_sign B64Checks.sample_trace_run).
Defined.

(** C4, as stated, fails: in the same row the inventory is below
    [sales_kg] by a rounding error, so nothing is unsold and the wastage
    is 0, above [inventory_received - sales_kg], which is negative; and
    the decay rate at a humidity above 80 is the binary64 sum
    [0.1 + 0.05], which is 0.15000000000000002 and not 0.15. *)
Lemma wastage_above_surplus_counterexample :
  B64.valid_source B64Samples.shortage_source /\
  (exists l row rest,
     B64.generate_historical_trace B64Samples.sample_lib B64Samples.consumer_200g_config
       B64Samples.june_today B64Samples.shortage_source = Ok ((l, row) :: rest) /\
     (B64.Locals.inventory_received l - B64.Locals.sales_kg l =
      -4.4408920985006262e-16)%float /\
     B64.Locals.wastage_kg l = 0%float /\
     (B64.Locals.wastage_kg l <=?
      B64.Locals.inventory_received l - B64.Locals.sales_kg l)%float = false) /\
  B64.decay_rate_of 25 84 = 0.15000000000000002%float /\
  (B64.decay_rate_of 25 84 =? 0.15)%float = false.
Proof.
  split; [exact B64Checks.shortage_source_valid |].
  split; [| split; reflexivity].
  do 3 eexists. split; [vm_compute; reflexivity |].
  repeat split.
Qed.

(** C4, amended. Every row of a run that completes has
    [wastage_kg = max(0, inventory_received - sales_kg) * decay_rate], where
    [decay_rate] is the binary64 sum of 0.1, of 0.05 when [temp_max > 30]
    and of 0.05 when [humidity > 80], so one of 0.1, 0.15000000000000002
    and 0.2; hence [0 <= wastage_kg <= max(0, inventory_received -
    sales_kg)].  With the humidity fixed, a [temp_max] above 30 gives a decay
    rate at least that of a [temp_max] of at most 30. *)
Theorem wastage_from_surplus_and_decay (lib : B64.MathLib) (cfg : B64.Config)
    (today : Z) (src : B64.RandomSource) (t : list (B64.Locals.t * B64.SalesRow.t)) :
  B64.valid_source src ->
  B64.generate_historical_trace lib cfg today src = Ok t ->
  (B64.generate_historical_sales lib cfg today src = Ok (map snd t) /\
   map B64.row_key (map snd t) = B64.cross_product cfg today /\
   Forall (fun x =>
     let l := fst x in
     let surplus := (B64.Locals.inventory_received l - B64.Locals.sales_kg l)%float in
     B64.Locals.unsold_kg l = (if (0 <? surplus)%float then surplus else 0%float) /\
     B64.Locals.wastage_kg l = (B64.Locals.unsold_kg l * B64.Locals.decay_rate l)%float /\
     B64.Locals.decay_rate l =
       (0.1 + (if 30 <? B64.Locals.temp_max l then 0.05 else 0)
            + (if 80 <? B64.Locals.humidity l then 0.05 else 0))%float /\
     (B64.Locals.decay_rate l = 0.1%float \/
      B64.Locals.decay_rate l = 0.15000000000000002%float \/
      B64.Locals.decay_rate l = 0.2%float) /\
     (0 <=? B64.Locals.wastage_kg l)%float = true /\
     (B64.Locals.wastage_kg l <=? B64.Locals.unsold_kg l)%float = true /\
     B64.SalesRow.wastage_kg (snd x) = B64.py_round (B64.Locals.wastage_kg l) 2 /\
     B64.SalesRow.temp_max_c (snd x) = B64.np_round lib (B64.Locals.temp_max l) 1 /\
     B64.SalesRow.humidity_avg (snd x) = B64.py_round (B64.Locals.humidity l) 1) t) /\
  (forall hot mild humidity,
     (30 <? hot)%float = true -> (30 <? mild)%float = false ->
     (B64.decay_rate_of mild humidity <=? B64.decay_rate_of hot humidity)%float = true).
Proof.
  intros Hsrc Hrun. split; [| exact B64Wastage.decay_rate_hotter].
  destruct (B64Loop.historical_trace_inv lib cfg today src t Hsrc Hrun)
    as (Hsales & Hkeys & HP).
  split; [exact Hsales | split; [exact Hkeys |]].
  apply Forall_impl with (2 := HP). intros [l row] G. cbn [fst snd] in *. cbn zeta.
  destruct (B64Wastage.wastage_range (B64.Locals.inventory_received l)
              (B64.Locals.sales_kg l) (B64.Locals.temp_max l) (B64.Locals.humidity l))
    as (H0 & Hle & _).
  rewrite <- (B64Spec.gen_unsold _ _ _ _ _ G), <- (B64Spec.gen_decay _ _ _ _ _ G),
    <- (B64Spec.gen_wastage _ _ _ _ _ G) in H0, Hle.
  split; [exact (B64Spec.gen_unsold _ _ _ _ _ G) |].
  split; [exact (B64Spec.gen_wastage _ _ _ _ _ G) |].
  split; [exact (B64Spec.gen_decay _ _ _ _ _ G) |].
  split; [rewrite (B64Spec.gen_decay _ _ _ _ _ G); apply B64Wastage.decay_rate_values |].
  split; [exact H0 | split; [exact Hle |]].
  split; [exact (B64Spec.gen_row_wastage _ _ _ _ _ G) |].
  split; [exact (B64Spec.gen_row_temp_max _ _ _ _ _ G) |
          exact (B64Spec.gen_row_humidity _ _ _ _ _ G)].
Qed.

Lemma wastage_from_surplus_and_decay_witness :
  (B64.generate_historical_sales B64Samples.sample_lib B64Samples.one_day_config
     sample_today B64Samples.half_source = Ok (map snd B64Samples.sample_trace) /\
   map B64.row_key (map snd B64Samples.sample_trace) =
     B64.cross_product B64Samples.one_day_config sample_today /\
   Forall (fun x =>
     let l := fst x in
     let surplus := (B64.Locals.inventory_received l - B64.Locals.sales_kg l)%float in
     B64.Locals.unsold_kg l = (if (0 <? surplus)%float then surplus else 0%float) /\
     B64.Locals.wastage_kg l = (B64.Locals.unsold_kg l * B64.Locals.decay_rate l)%float /\
     B64.Locals.decay_rate l =
       (0.1 + (if 30 <? B64.Locals.temp_max l then 0.05 else 0)
            + (if 80 <? B64.Locals.humidity l then 0.05 else 0))%float /\
     (B64.Locals.decay_rate l = 0.1%float \/
      B64.Locals.decay_rate l = 0.15000000000000002%float \/
      B64.Locals.decay_rate l = 0.2%float) /\
     (0 <=? B64.Locals.wastage_kg l)%float = true /\
     (B64.Locals.wastage_kg l <=? B64.Locals.unsold_kg l)%float = true /\
     B64.SalesRow.wastage_kg (snd x) = B64.py_round (B64.Locals.wastage_kg l) 2 /\
     B64.SalesRow.temp_max_c (snd x) =
       B64.np_round B64Samples.sample_lib (B64.Locals.temp_max l) 1 /\
     B64.SalesRow.humidity_avg (snd x) = B64.py_round (B64.Locals.humidity l) 1)
     B64Samples.sample_trace) /\
  (forall hot mild humidity,
     (30 <? hot)%float = true -> (30 <? mild)%float = false ->
     (B64.decay_rate_of mild humidity <=? B64.decay_rate_of hot humidity)%float = true).
Proof.
  exact (wastage_from_surplus_and_decay B64Samples.sample_lib
           B64Samples.one_day_config sample_today B64Samples.half_source
           B64Samples.sample_trace
           B64Checks.float_source_valid B64Checks.sample_trace_run).
Defined.

End Binary64Claims.

(** C5. On a valid configuration and for every random source, every
    historical row has [demand_units >= 0]. *)
Theorem demand_units_nonneg (cfg : Config) (today : Z) (src : RandomSource) :
  valid_config cfg -> valid_source src ->
  exists rows,
    generate_historical_sales cfg today src = Ok rows /\
    Forall (fun row => (0 <= SalesRow.label_daily_demand row)%Z) rows.
Proof.
  intros Hcfg Hsrc.
  destruct (historical_trace_ok cfg today src Hsrc (valid_runnable cfg Hcfg))
    as (t & Hrun & _ & HP).
  exists (map snd t). split; [now apply historical_sales_of_trace |].
  apply Forall_map. apply Forall_impl with (2 := HP). intros [l row] G.
  cbn [fst snd] in *. rewrite (gen_row_demand _ _ _ G).
  now apply (generated_demand_nonneg cfg l row).
Qed.

Lemma demand_units_nonneg_witness :
  exists rows,
    generate_historical_sales default_config sample_today half_source = Ok rows /\
    Forall (fun row => (0 <= SalesRow.label_daily_demand row)%Z) rows.
Proof.
  exact (demand_units_nonneg default_config sample_today half_source
           default_config_valid half_source_valid).
Defined.

(** ** The intraday loop nest *)

Lemma hourly_profile_entry (h : nat) :
  (h < 24)%nat -> exists f, nth_error hourly_profile h = Some f.
Proof.
  intros Hh. unfold hourly_profile. cbn [repeat app].
  do 24 (destruct h as [| h]; [eexists; reflexivity |]).
  exfalso; lia.
Qed.

(** The intraday loop body never raises and appends one row. *)
Lemma telemetry_body_ok (src : RandomSource) (curr_dt : DateTime) (is_daytime : bool)
    (region : string) (k : nat) :
  (0 <= dt_hour curr_dt < 24)%Z ->
  exists row k',
    telemetry_body src curr_dt is_daytime region k = Ok ([row], k') /\
    telemetry_post src curr_dt is_daytime region k row.
Proof.
  intros Hh.
  destruct (hourly_profile_entry (Z.to_nat (dt_hour curr_dt))) as (f & Hf); [lia |].
  unfold telemetry_post, telemetry_delay, minor_delay_call, telemetry_pos_tx,
    telemetry_event.
  unfold telemetry_body, bind, lift, list_index, uniform, random, normalvariate,
    randint, ret, bind.
  cbn [Nat.add].
  replace (dt_hour curr_dt <? 24)%Z with true by (symmetry; apply Z.ltb_lt; lia).
  rewrite Hf.
  destruct (Rlt_dec (unit_at src (S (S (S (S k))))) 0.005);
    destruct (Rlt_dec (unit_at src (S (S (S k)))) 0.01);
    destruct is_daytime;
    cbn [String.eqb Ascii.eqb Bool.eqb];
    match goal with
    | |- context [Rlt_dec (unit_at src ?j) 0.05] =>
        destruct (Rlt_dec (unit_at src j) 0.05)
    end;
    do 2 eexists; (split; [reflexivity |]);
    cbn [Telemetry.datetime Telemetry.region_id Telemetry.intraday_event
         Telemetry.pos_transactions_last_hour Telemetry.vehicle_delay_minutes];
    repeat split.
Qed.

Lemma add_hours_range (dt : DateTime) (h : Z) : (0 <= dt_hour (add_hours dt h) < 24)%Z.
Proof.
  unfold add_hours. cbn [dt_hour]. apply Z.mod_pos_bound. lia.
Qed.

Lemma hour_body_ok (cfg : Config) (src : RandomSource) (start_dt : DateTime)
    (hour_offset k : nat) :
  exists rows k',
    hour_body cfg src start_dt hour_offset k = Ok (rows, k') /\
    map telemetry_key rows =
      map (fun region => (add_hours start_dt (Z.of_nat hour_offset), region))
          (REGIONS cfg) /\
    Forall (telemetry_generated src) rows.
Proof.
  unfold hour_body. rewrite <- flat_map_singleton.
  apply for_each_spec. intros region _ k1.
  destruct (telemetry_body_ok src (add_hours start_dt (Z.of_nat hour_offset))
              (is_daytime_at (add_hours start_dt (Z.of_nat hour_offset))) region k1
              (add_hours_range _ _)) as (row & k2 & Hrun & Hpost).
  exists [row], k2. split; [exact Hrun |].
  destruct Hpost as (Hdt & Hreg & Hrest).
  split.
  - unfold telemetry_key. cbn [map]. now rewrite Hdt, Hreg.
  - constructor; [| constructor]. exists k1. rewrite Hdt, Hreg.
    now repeat split.
Qed.

(** The intraday generator completes on every configuration, clock and
    source, with one row per hour of the last seven days and region. *)
Lemma intraday_ok (cfg : Config) (now : DateTime) (src : RandomSource) :
  exists rows,
    generate_intraday_telemetry cfg now src = Ok rows /\
    map telemetry_key rows = intraday_keys cfg now /\
    Forall (telemetry_generated src) rows.
Proof.
  destruct (for_each_spec (telemetry_generated src) telemetry_key
              (fun hour_offset =>
                 map (fun region =>
                        (add_hours (sub_days now 7) (Z.of_nat hour_offset), region))
                     (REGIONS cfg))
              (seq 0 (7 * 24))
              (fun hour_offset => hour_body cfg src (sub_days now 7) hour_offset))
    with (k := 0%nat) as (rows & k' & Hrun & Hkey & HP).
  - intros off _ k. apply hour_body_ok.
  - exists rows. unfold generate_intraday_telemetry, run, intraday_loop.
    rewrite Hrun. now repeat split.
Qed.

Lemma intraday_keys_length (cfg : Config) (now : DateTime) :
  List.length (intraday_keys cfg now) = (7 * 24 * List.length (REGIONS cfg))%nat.
Proof.
  unfold intraday_keys.
  rewrite flat_map_length_const with (n := List.length (REGIONS cfg)).
  - now rewrite length_seq.
  - intros off _. now rewrite length_map.
Qed.

(** The first row of an intraday run is that of the first region at the
    first hour. *)
Lemma intraday_first_row (cfg : Config) (now : DateTime) (src : RandomSource)
    (region : string) (others : list string) :
  REGIONS cfg = region :: others ->
  exists row rest,
    generate_intraday_telemetry cfg now src = Ok (row :: rest) /\
    Telemetry.datetime row = add_hours (sub_days now 7) 0 /\
    telemetry_generated src row.
Proof.
  intros HR.
  destruct (intraday_ok cfg now src) as (rows & Hrun & Hkey & HP).
  unfold intraday_keys in Hkey.
  change (seq 0 (7 * 24)) with (0%nat :: seq 1 167) in Hkey.
  cbn [flat_map] in Hkey. rewrite HR in Hkey. cbn [map app] in Hkey.
  destruct rows as [| row rest]; [discriminate Hkey |].
  exists row, rest. split; [exact Hrun | split].
  - cbn [map] in Hkey. unfold telemetry_key at 1 in Hkey.
    injection Hkey as Hdt _ _. exact Hdt.
  - now inversion HP.
Qed.

(** ** The generators read the source only through its draws *)

Lemma bind_ext {A B : Type} (m1 m2 : M A) (f1 f2 : A -> M B) (k : nat) :
  (forall j, m1 j = m2 j) -> (forall a j, f1 a j = f2 a j) ->
  bind m1 f1 k = bind m2 f2 k.
Proof.
  intros Hm Hf. unfold bind. rewrite Hm.
  destruct (m2 k) as [[a k'] | e]; [apply Hf | reflexivity].
Qed.

Lemma for_each_ext {A B : Type} (xs : list A) (b1 b2 : A -> M (list B)) (k : nat) :
  (forall x j, b1 x j = b2 x j) -> for_each xs b1 k = for_each xs b2 k.
Proof.
  intros Hb. revert k. induction xs as [| x xs IH]; intros k; [reflexivity |].
  cbn [for_each]. apply bind_ext; [apply Hb |].
  intros ys j. apply bind_ext; [apply IH | reflexivity].
Qed.

Section SameDraws.

Variables s1 s2 : RandomSource.
Hypothesis Hsame : same_draws s1 s2.

Lemma random_ext (k : nat) : random s1 k = random s2 k.
Proof. unfold random. destruct Hsame as (Hu & _). now rewrite Hu. Qed.

Lemma uniform_ext (a b : R) (k : nat) : uniform s1 a b k = uniform s2 a b k.
Proof. unfold uniform. apply bind_ext; [apply random_ext | reflexivity]. Qed.

Lemma normalvariate_ext (mu sigma : R) (k : nat) :
  normalvariate s1 mu sigma k = normalvariate s2 mu sigma k.
Proof. unfold normalvariate. destruct Hsame as (_ & Hg & _). now rewrite Hg. Qed.

Lemma randint_ext (a b : Z) (k : nat) : randint s1 a b k = randint s2 a b k.
Proof. unfold randint. destruct Hsame as (_ & _ & Hb). now rewrite Hb. Qed.

Ltac ext_step :=
  match goal with
  | |- bind _ _ _ = bind _ _ _ => apply bind_ext; intros
  | |- for_each _ _ _ = for_each _ _ _ => apply for_each_ext; intros
  | |- uniform _ _ _ _ = uniform _ _ _ _ => apply uniform_ext
  | |- random _ _ = random _ _ => apply random_ext
  | |- normalvariate _ _ _ _ = normalvariate _ _ _ _ => apply normalvariate_ext
  | |- randint _ _ _ _ = randint _ _ _ _ => apply randint_ext
  | |- (if ?c then _ else _) _ = (if ?c then _ else _) _ => destruct c
  | |- _ => reflexivity
  end.

Lemma store_body_ext (cfg : Config) (d : DayVars) (r : RegionVars) (sku : string)
    (pkg : R) (ch : string) (idx k : nat) :
  store_body cfg s1 d r sku pkg ch idx k = store_body cfg s2 d r sku pkg ch idx k.
Proof. unfold store_body. repeat ext_step. Qed.

Lemma sku_body_ext (cfg : Config) (d : DayVars) (r : RegionVars) (sku : string) (k : nat) :
  sku_body cfg s1 d r sku k = sku_body cfg s2 d r sku k.
Proof. unfold sku_body. repeat ext_step. apply store_body_ext. Qed.

Lemma region_body_ext (cfg : Config) (d : DayVars) (region : string) (k : nat) :
  region_body cfg s1 d region k = region_body cfg s2 d region k.
Proof. unfold region_body. repeat ext_step. apply sku_body_ext. Qed.

Lemma day_body_ext (cfg : Config) (today : Z) (off k : nat) :
  day_body cfg s1 today off k = day_body cfg s2 today off k.
Proof. unfold day_body. repeat ext_step. apply region_body_ext. Qed.

Lemma historical_loop_ext (cfg : Config) (today : Z) (k : nat) :
  historical_loop cfg s1 today k = historical_loop cfg s2 today k.
Proof. unfold historical_loop. apply for_each_ext. intros. apply day_body_ext. Qed.

Lemma telemetry_body_ext (dt : DateTime) (day : bool) (region : string) (k : nat) :
  telemetry_body s1 dt day region k = telemetry_body s2 dt day region k.
Proof. unfold telemetry_body. repeat ext_step. Qed.

Lemma intraday_loop_ext (cfg : Config) (now : DateTime) (k : nat) :
  intraday_loop cfg s1 now k = intraday_loop cfg s2 now k.
Proof.
  unfold intraday_loop, hour_body.
  apply for_each_ext. intros. apply for_each_ext. intros.
  apply telemetry_body_ext.
Qed.

End SameDraws.

(** ** Sample draws *)

Lemma zero_source_valid : valid_source zero_source.
Proof.
  split.
  - intros k. cbn [zero_source unit_at]. lra.
  - intros k n Hn. cbn [zero_source below_at]. lia.
Qed.

Lemma cold_source_valid : valid_source cold_source.
Proof.
  split.
  - intros k. cbn [cold_source unit_at]. lra.
  - intros k n Hn. cbn [cold_source below_at]. lia.
Qed.

Lemma zero_source_event (k : nat) : telemetry_event zero_source k = "strike"%string.
Proof.
  unfold telemetry_event. cbn [zero_source unit_at].
  destruct (Rlt_dec 0 0.005); [reflexivity | lra].
Qed.

Lemma zero_source_delay (k : nat) : telemetry_delay zero_source k = 10%Z.
Proof.
  unfold telemetry_delay. cbn [zero_source unit_at below_at].
  destruct (Rlt_dec 0 0.05); [reflexivity | lra].
Qed.

Lemma cold_source_event (k : nat) : telemetry_event cold_source k = "none"%string.
Proof.
  unfold telemetry_event. cbn [cold_source unit_at].
  destruct (Rlt_dec (1 / 2) 0.005); [lra |].
  destruct (Rlt_dec (1 / 2) 0.01); [lra | reflexivity].
Qed.

Lemma cold_source_night_tx (k : nat) : telemetry_pos_tx cold_source false k = (-3)%Z.
Proof.
  unfold telemetry_pos_tx. rewrite cold_source_event.
  cbn [String.eqb Ascii.eqb Bool.eqb cold_source gauss_at].
  unfold py_int. destruct (Rle_dec 0 (5 + -4 * 2)); [lra |].
  rewrite (Int_part_between (- (5 + -4 * 2)) 3); [reflexivity | lra].
Qed.

(** C6, as stated, fails: two runs of the intraday generator with the same
    configuration and the same random source, one second apart, return
    different rows. *)
Lemma rerun_same_seed_counterexample :
  generate_intraday_telemetry default_config sample_now half_source <>
  generate_intraday_telemetry default_config sample_now_later half_source.
Proof.
  destruct (intraday_first_row default_config sample_now half_source _ _ eq_refl)
    as (row & rest & Hrun & Hdt & _).
  destruct (intraday_first_row default_config sample_now_later half_source _ _ eq_refl)
    as (row' & rest' & Hrun' & Hdt' & _).
  rewrite Hrun, Hrun'. intros Heq. injection Heq as Hrow _.
  rewrite Hrow in Hdt. rewrite Hdt' in Hdt. discriminate Hdt.
Qed.

(** C6, amended. Both generators are functions of the configuration, the
    clock reading and the draws of the random source: two runs with the
    same configuration, the same clock reading and sources that answer
    every call alike return the same rows (or raise the same error). *)
Theorem rerun_same_clock_same_rows (cfg : Config) (today : Z) (now : DateTime)
    (s1 s2 : RandomSource) :
  same_draws s1 s2 ->
  generate_historical_sales cfg today s1 = generate_historical_sales cfg today s2 /\
  generate_intraday_telemetry cfg now s1 = generate_intraday_telemetry cfg now s2.
Proof.
  intros Hsame. split.
  - unfold generate_historical_sales, generate_historical_trace, run.
    now rewrite (historical_loop_ext s1 s2 Hsame).
  - unfold generate_intraday_telemetry, run.
    now rewrite (intraday_loop_ext s1 s2 Hsame).
Qed.

Lemma rerun_same_clock_same_rows_witness :
  generate_historical_sales default_config sample_today half_source =
    generate_historical_sales default_config sample_today
      (mkSource (fun k => 1 / 2 + 0 * INR k) (fun _ => 0) (fun _ n => (n - n)%Z)) /\
  generate_intraday_telemetry default_config sample_now half_source =
    generate_intraday_telemetry default_config sample_now
      (mkSource (fun k => 1 / 2 + 0 * INR k) (fun _ => 0) (fun _ n => (n - n)%Z)).
Proof.
  apply (rerun_same_clock_same_rows default_config sample_today sample_now).
  split; [| split].
  - intros k. cbn [half_source unit_at]. lra.
  - intros k. reflexivity.
  - intros k n. cbn [half_source below_at]. lia.
Defined.

(** C9, as stated, fails: on a strike row the minor delay can replace the
    strike delay. *)
Lemma strike_delay_counterexample :
  valid_source zero_source /\
  exists row rest,
    generate_intraday_telemetry default_config sample_now zero_source = Ok (row :: rest) /\
    Telemetry.intraday_event row = "strike"%string /\
    Telemetry.vehicle_delay_minutes row = 10%Z /\
    ~ (60 <= Telemetry.vehicle_delay_minutes row <= 300)%Z.
Proof.
  split; [exact zero_source_valid |].
  destruct (intraday_first_row default_config sample_now zero_source _ _ eq_refl)
    as (row & rest & Hrun & _ & k & _ & _ & Hev & _ & Hdelay).
  exists row, rest. rewrite zero_source_event in Hev.
  rewrite zero_source_delay in Hdelay.
  split; [exact Hrun | split; [exact Hev | split; [exact Hdelay |]]].
  rewrite Hdelay. lia.
Qed.

(** C9, amended. The minor-delay test is made on every row, after the
    strike delay has been drawn.  When it succeeds the delay is the minor
    delay, in [10, 45], whatever the event; when it fails the delay of a
    strike row is the strike delay, in [60, 300], and that of any other row
    is 0. *)
Theorem delay_by_event_and_minor_test (cfg : Config) (now : DateTime) (src : RandomSource) :
  valid_source src ->
  exists rows,
    generate_intraday_telemetry cfg now src = Ok rows /\
    Forall (fun row =>
      let d := Telemetry.vehicle_delay_minutes row in
      exists k,
        let p := unit_at src (minor_delay_call src k) in
        Telemetry.intraday_event row = telemetry_event src k /\
        (p < 0.05 -> (10 <= d <= 45)%Z) /\
        (~ p < 0.05 -> Telemetry.intraday_event row = "strike"%string ->
         (60 <= d <= 300)%Z) /\
        (~ p < 0.05 -> Telemetry.intraday_event row <> "strike"%string -> d = 0%Z)) rows.
Proof.
  intros [_ Hb].
  destruct (intraday_ok cfg now src) as (rows & Hrun & _ & HP).
  exists rows. split; [exact Hrun |].
  apply Forall_impl with (2 := HP).
  intros row (k & _ & _ & Hev & _ & Hdelay). exists k. cbn zeta.
  rewrite Hdelay, Hev. unfold telemetry_delay.
  pose proof (Hb (S (minor_delay_call src k)) (45 - 10 + 1)%Z ltac:(lia)) as H1.
  pose proof (Hb (6 + k)%nat (300 - 60 + 1)%Z ltac:(lia)) as H2.
  split; [reflexivity |].
  destruct (Rlt_dec (unit_at src (minor_delay_call src k)) 0.05) as [Hp | Hp].
  - split; [intros _; lia | split; intros Hn; contradiction].
  - split; [intros Hy; contradiction |].
    destruct (String.eqb_spec (telemetry_event src k) "strike") as [He | He].
    + split; [intros _ _; lia | intros _ Hne; contradiction].
    + split; [intros _ Hy; contradiction | reflexivity].
Qed.

Lemma delay_by_event_and_minor_test_witness :
  exists rows,
    generate_intraday_telemetry default_config sample_now zero_source = Ok rows /\
    Forall (fun row =>
      let d := Telemetry.vehicle_delay_minutes row in
      exists k,
        let p := unit_at zero_source (minor_delay_call zero_source k) in
        Telemetry.intraday_event row = telemetry_event zero_source k /\
        (p < 0.05 -> (10 <= d <= 45)%Z) /\
        (~ p < 0.05 -> Telemetry.intraday_event row = "strike"%string ->
         (60 <= d <= 300)%Z) /\
        (~ p < 0.05 -> Telemetry.intraday_event row <> "strike"%string -> d = 0%Z)) rows.
Proof.
  exact (delay_by_event_and_minor_test default_config sample_now zero_source
           zero_source_valid).
Defined.

(** C10. For some random source the intraday generator emits a row with
    [pos_transactions_last_hour < 0]: at night the count is
    [int(normalvariate(5, 2))], which is not clamped at zero. *)
Theorem negative_pos_transactions_reachable :
  exists (src : RandomSource) (now : DateTime),
    valid_source src /\
    exists rows,
      generate_intraday_telemetry default_config now src = Ok rows /\
      Exists (fun row =>
        is_daytime_at (Telemetry.datetime row) = false /\
        (exists k, Telemetry.pos_transactions_last_hour row =
                   py_int (5 + gauss_at src k * 2)) /\
        (Telemetry.pos_transactions_last_hour row < 0)%Z) rows.
Proof.
  exists cold_source, sample_now. split; [exact cold_source_valid |].
  destruct (intraday_first_row default_config sample_now cold_source _ _ eq_refl)
    as (row & rest & Hrun & Hdt & k & _ & _ & _ & Htx & _).
  exists (row :: rest). split; [exact Hrun |].
  apply Exists_cons_hd.
  assert (Hnight : is_daytime_at (Telemetry.datetime row) = false)
    by (rewrite Hdt; reflexivity).
  rewrite Hnight in Htx.
  split; [exact Hnight | split].
  - exists (5 + k)%nat. rewrite Htx. unfold telemetry_pos_tx.
    rewrite cold_source_event. reflexivity.
  - rewrite Htx, cold_source_night_tx. lia.
Qed.

(** ** Price elasticity *)

Lemma elasticity_range (channel : string) : -2 <= elasticity_of channel < 0.
Proof. unfold elasticity_of. destruct (channel =? "B2C")%string; lra. Qed.

(** Just above 1 the elasticity power stays close below 1. *)
Lemma Rpower_window (x e : R) :
  1 < x -> -2 <= e < 0 -> / (x * x) <= Rpower x e < 1.
Proof.
  intros Hx He. split.
  - apply Rle_trans with (Rpower x (-2)).
    + replace (-2) with (- INR 2) by (cbn [INR]; lra).
      rewrite Rpower_Ropp, Rpower_pow by lra. cbn [pow]. rewrite Rmult_1_r. lra.
    + apply Rle_Rpower; lra.
  - rewrite <- (Rpower_one e). apply Rpower_neg_decreasing; lra.
Qed.

Lemma demand_at_price_ok (channel : string) (season wkday : R) (fasting : Z)
    (wd noise optimal_price price_offered : R) :
  0 < optimal_price -> 0 < price_offered ->
  demand_at_price channel season wkday fasting wd noise optimal_price price_offered =
  Ok (demand_units_of (base_demand_of channel) season wkday
        (fasting_impact_of fasting channel) (wedding_impact_of wd channel)
        (Rpower (price_offered / optimal_price) (elasticity_of channel)) noise) /\
  price_factor_of channel price_offered optimal_price =
  Ok (Rpower (price_offered / optimal_price) (elasticity_of channel)).
Proof.
  intros Ho Hp.
  assert (Hr : 0 < price_offered / optimal_price) by (apply Rdiv_lt_0_compat; lra).
  unfold demand_at_price, price_factor_of.
  rewrite py_div_ok by lra. rewrite py_pow_pos by exact Hr. now split.
Qed.

(** C7, as stated, fails: a higher offered price with the same truncated
    demand. *)
Lemma price_increase_counterexample :
  200 < 200.2 /\
  demand_at_price "B2C" 1.0 0.8 0 0 1.0125 200 200 = Ok 40%Z /\
  demand_at_price "B2C" 1.0 0.8 0 0 1.0125 200 200.2 = Ok 40%Z.
Proof.
  split; [lra |].
  destruct (demand_at_price_ok "B2C" 1.0 0.8 0 0 1.0125 200 200) as [-> _]; try lra.
  destruct (demand_at_price_ok "B2C" 1.0 0.8 0 0 1.0125 200 200.2) as [-> _]; try lra.
  unfold demand_units_of, demand_product, base_demand_of, fasting_impact_of,
    wedding_impact_of.
  cbn [String.eqb Ascii.eqb Bool.eqb andb truthy Z.eqb negb].
  replace (200 / 200) with 1 by lra.
  replace (200.2 / 200) with 1.001 by lra.
  rewrite Rpower_one.
  pose proof (Rpower_window 1.001 (elasticity_of "B2C") ltac:(lra)
                (elasticity_range "B2C")) as [Hlo Hhi].
  assert (Hinv : 0.998 <= / (1.001 * 1.001)).
  { apply Rmult_le_reg_r with (1.001 * 1.001); [lra |].
    rewrite Rinv_l by lra. lra. }
  split; f_equal; apply py_int_between; lra.
Qed.

(** C7, amended. With every other factor fixed and non-negative, a higher
    offered price never gives a larger [demand_units], on either channel;
    being truncated to an integer, [demand_units] may stay the same. *)
Theorem price_increase_never_raises_demand (channel : string) (season wkday : R)
    (fasting : Z) (wd noise optimal_price p1 p2 : R) :
  0 < optimal_price -> 0 < p1 < p2 ->
  0 <= season -> 0 <= wkday -> 0 <= wd -> 0 <= noise ->
  exists d1 d2,
    demand_at_price channel season wkday fasting wd noise optimal_price p1 = Ok d1 /\
    demand_at_price channel season wkday fasting wd noise optimal_price p2 = Ok d2 /\
    (d2 <= d1)%Z.
Proof.
  intros Ho [Hp1 Hp12] Hs Hw Hwd Hn.
  destruct (demand_at_price_ok channel season wkday fasting wd noise optimal_price p1)
    as [Hd1 _]; try lra.
  destruct (demand_at_price_ok channel season wkday fasting wd noise optimal_price p2)
    as [Hd2 _]; try lra.
  assert (Hlt : Rpower (p2 / optimal_price) (elasticity_of channel) <
                Rpower (p1 / optimal_price) (elasticity_of channel)).
  { apply Rpower_neg_decreasing.
    - apply Rdiv_lt_0_compat; lra.
    - apply Rmult_lt_compat_r; [apply Rinv_0_lt_compat |]; lra.
    - apply elasticity_range. }
  pose proof (base_demand_pos channel) as Hb.
  pose proof (fasting_impact_pos fasting channel) as Hf.
  pose proof (wedding_impact_pos wd channel Hwd) as Hwi.
  set (c := base_demand_of channel * season * wkday
            * fasting_impact_of fasting channel * wedding_impact_of wd channel) in *.
  assert (Hc : 0 <= c) by (unfold c; repeat apply Rmult_le_pos; lra).
  do 2 eexists. split; [exact Hd1 | split; [exact Hd2 |]].
  unfold demand_units_of, demand_product. apply py_int_mono. fold c.
  apply Rmult_le_compat_r; [exact Hn |].
  apply Rmult_le_compat_l; [exact Hc | lra].
Qed.

Lemma price_increase_never_raises_demand_witness :
  exists d1 d2,
    demand_at_price "B2C" 1.0 0.8 0 0 1.0125 200 200 = Ok d1 /\
    demand_at_price "B2C" 1.0 0.8 0 0 1.0125 200 200.2 = Ok d2 /\
    (d2 <= d1)%Z.
Proof.
  apply (price_increase_never_raises_demand "B2C" 1.0 0.8 0 0 1.0125 200 200 200.2);
    lra.
Defined.

(** ** Runs of the historical generator *)

(** On a runnable configuration the generator returns the rows of the
    cross product, two per (day, region, SKU, channel). *)
Lemma historical_sales_ok (cfg : Config) (today : Z) (src : RandomSource) :
  runnable_config cfg -> valid_source src ->
  exists rows,
    generate_historical_sales cfg today src = Ok rows /\
    map row_key rows = cross_product cfg today /\
    List.length rows =
      (NUM_DAYS cfg * List.length (REGIONS cfg) * List.length (SKUS cfg)
       * List.length (CHANNELS cfg) * 2)%nat.
Proof.
  intros Hcfg Hsrc.
  destruct (historical_trace_ok cfg today src Hsrc Hcfg) as (t & Hrun & Hkey & _).
  exists (map snd t). split; [now apply historical_sales_of_trace |].
  split; [exact Hkey |].
  rewrite <- (length_map row_key), Hkey. apply cross_product_length.
Qed.

Lemma default_config_runnable : runnable_config default_config.
Proof. apply valid_runnable, default_config_valid. Qed.

Lemma negative_unit_config_runnable : runnable_config negative_unit_config.
Proof.
  split.
  - intros sku Hin. cbn [negative_unit_config default_config SKUS In] in Hin.
    repeat (destruct Hin as [<- | Hin];
            [eexists; split; [reflexivity | split; lra] |]).
    contradiction.
  - exact (proj2 default_config_runnable).
Qed.

(** The loops emit nothing when an inner loop has nothing to iterate. *)

Lemma sku_body_no_channel (cfg : Config) (src : RandomSource) (d : DayVars)
    (r : RegionVars) (sku : string) (k : nat) :
  CHANNELS cfg = [] -> skus_packaged (fun _ => True) cfg -> In sku (SKUS cfg) ->
  exists k', sku_body cfg src d r sku k = Ok ([], k').
Proof.
  intros HC Hpk Hin. destruct (Hpk sku Hin) as (p & Hget & _).
  exists k. unfold sku_body, bind, lift, dict_index. rewrite Hget, HC. reflexivity.
Qed.

Lemma region_body_empty (cfg : Config) (src : RandomSource) (d : DayVars)
    (region : string) (k : nat) :
  (forall r sku j, In sku (SKUS cfg) -> exists j', sku_body cfg src d r sku j = Ok ([], j')) ->
  exists k', region_body cfg src d region k = Ok ([], k').
Proof.
  intros Hsku.
  unfold region_body, bind, uniform, random, ret, bind.
  destruct (Rgt_dec _ 70); [destruct (Rlt_dec _ 0.3) |];
    destruct (truthy (festival_flag d));
    apply for_each_empty; intros sku Hin j; now apply Hsku.
Qed.

Lemma day_body_empty (cfg : Config) (src : RandomSource) (today : Z) (off k : nat) :
  (forall d region j, In region (REGIONS cfg) ->
     exists j', region_body cfg src d region j = Ok ([], j')) ->
  exists k', day_body cfg src today off k = Ok ([], k').
Proof.
  intros Hregion.
  unfold day_body, bind, uniform, random, ret, bind.
  destruct (zdict_mem _ _); apply for_each_empty; intros region Hin j;
    now apply Hregion.
Qed.

Lemma historical_sales_empty (cfg : Config) (today : Z) (src : RandomSource) :
  (forall d region j, In region (REGIONS cfg) ->
     exists j', region_body cfg src d region j = Ok ([], j')) ->
  generate_historical_sales cfg today src = Ok [].
Proof.
  intros Hregion.
  destruct (for_each_empty (seq 0 (NUM_DAYS cfg))
              (fun off => day_body cfg src today off)) with (k := 0%nat)
    as (k' & Hrun).
  - intros off _ k. now apply day_body_empty.
  - unfold generate_historical_sales, generate_historical_trace, run, historical_loop.
    now rewrite Hrun.
Qed.

(** Without regions, without SKUs, or without channels for packaged SKUs,
    the generator returns no row and raises nothing. *)
Lemma historical_sales_degenerate (cfg : Config) (today : Z) (src : RandomSource) :
  REGIONS cfg = [] \/ SKUS cfg = [] \/
  (CHANNELS cfg = [] /\ skus_packaged (fun _ => True) cfg) ->
  generate_historical_sales cfg today src = Ok [].
Proof.
  intros [HR | [HS | [HC Hpk]]]; apply historical_sales_empty;
    intros d region j Hin.
  - rewrite HR in Hin. contradiction.
  - apply region_body_empty. intros r sku j0 Hsku. rewrite HS in Hsku. contradiction.
  - apply region_body_empty. intros r sku j0 Hsku. now apply sku_body_no_channel.
Qed.

(** C1, as stated, fails: under a negative unit size both generators
    complete and emit rows. *)
Lemma config_check_counterexample :
  (exists sku p, In sku (SKUS negative_unit_config) /\
     dict_get (PACKAGING_MAP negative_unit_config) sku = Some p /\ p < 0) /\
  (exists rows,
     generate_historical_sales negative_unit_config sample_today half_source = Ok rows /\
     rows <> []) /\
  (exists rows,
     generate_intraday_telemetry negative_unit_config sample_now half_source = Ok rows /\
     rows <> []).
Proof.
  split; [| split].
  - exists "MUSH-200g"%string, (-0.2). split; [now left | split; [reflexivity | lra]].
  - destruct (historical_sales_ok negative_unit_config sample_today half_source
                negative_unit_config_runnable half_source_valid)
      as (rows & Hrun & _ & Hlen).
    exists rows. split; [exact Hrun |]. intros ->. discriminate Hlen.
  - destruct (intraday_first_row negative_unit_config sample_now half_source _ _ eq_refl)
      as (row & rest & Hrun & _).
    exists (row :: rest). split; [exact Hrun | discriminate].
Qed.

(** C1, amended. The generators check nothing at startup and have no
    configuration error.  The intraday generator completes on every
    configuration, with one row per hour and region.  The historical
    generator completes without rows when the region set or the SKU set is
    empty, or the channel set is empty and every SKU has a packaging entry;
    it completes with the rows of the whole cross product whenever every
    SKU has a unit size that is not zero and above -12 (a negative one
    included) and every channel has a weekday table with entries for the
    seven weekdays (a longer one included). *)
Theorem no_configuration_check (cfg : Config) (today : Z) (now : DateTime)
    (src : RandomSource) :
  (exists rows,
     generate_intraday_telemetry cfg now src = Ok rows /\
     List.length rows = (7 * 24 * List.length (REGIONS cfg))%nat) /\
  (REGIONS cfg = [] \/ SKUS cfg = [] \/
   (CHANNELS cfg = [] /\ skus_packaged (fun _ => True) cfg) ->
   generate_historical_sales cfg today src = Ok []) /\
  (runnable_config cfg -> valid_source src ->
   exists rows,
     generate_historical_sales cfg today src = Ok rows /\
     map row_key rows = cross_product cfg today).
Proof.
  split; [| split].
  - destruct (intraday_ok cfg now src) as (rows & Hrun & Hkey & _).
    exists rows. split; [exact Hrun |].
    rewrite <- (length_map telemetry_key), Hkey. apply intraday_keys_length.
  - apply historical_sales_degenerate.
  - intros Hcfg Hsrc.
    destruct (historical_sales_ok cfg today src Hcfg Hsrc) as (rows & Hrun & Hkey & _).
    now exists rows.
Qed.

Lemma no_configuration_check_witness :
  generate_historical_sales no_region_config sample_today half_source = Ok [] /\
  exists rows,
    generate_historical_sales negative_unit_config sample_today half_source = Ok rows /\
    map row_key rows = cross_product negative_unit_config sample_today.
Proof.
  split.
  - exact (proj1 (proj2 (no_configuration_check no_region_config sample_today
                           sample_now half_source))
                 (or_introl eq_refl)).
  - exact (proj2 (proj2 (no_configuration_check negative_unit_config sample_today
                           sample_now half_source))
                 negative_unit_config_runnable half_source_valid).
Defined.

(** C8, as stated, fails: the default configuration, whose
    [STORES_PER_REGION] is 5, yields 72000 rows, not 180000. *)
Lemma row_count_counterexample :
  exists rows,
    generate_historical_sales default_config sample_today half_source = Ok rows /\
    Z.of_nat (List.length rows) = 72000%Z /\
    List.length rows <>
      (NUM_DAYS default_config * List.length (REGIONS default_config)
       * List.length (SKUS default_config) * List.length (CHANNELS default_config)
       * STORES_PER_REGION default_config)%nat.
Proof.
  destruct (historical_sales_ok default_config sample_today half_source
              default_config_runnable half_source_valid)
    as (rows & Hrun & _ & Hlen).
  exists rows. split; [exact Hrun |].
  cbn [default_config NUM_DAYS REGIONS SKUS CHANNELS STORES_PER_REGION List.length]
    in Hlen |- *.
  rewrite Hlen. split; [reflexivity | lia].
Qed.

(** C8, amended. The generator iterates the cross product of days, regions,
    SKUs, channels and two stores per (region, channel): the store count is
    the literal 2 of the store loop and [STORES_PER_REGION] is not read.
    On a runnable configuration a run emits exactly
    [NUM_DAYS * |REGIONS| * |SKUS| * |CHANNELS| * 2] rows, in the order of
    the loop nest, whatever the value of [STORES_PER_REGION]. *)
Theorem rows_are_cross_product_with_two_stores (cfg : Config) (today : Z)
    (src : RandomSource) :
  runnable_config cfg -> valid_source src ->
  exists rows,
    generate_historical_sales cfg today src = Ok rows /\
    map row_key rows = cross_product cfg today /\
    List.length rows =
      (NUM_DAYS cfg * List.length (REGIONS cfg) * List.length (SKUS cfg)
       * List.length (CHANNELS cfg) * 2)%nat /\
    forall n, generate_historical_sales (with_stores cfg n) today src = Ok rows.
Proof.
  intros Hcfg Hsrc.
  destruct (historical_sales_ok cfg today src Hcfg Hsrc) as (rows & Hrun & Hkey & Hlen).
  exists rows. repeat split; try assumption.
  intros n. rewrite <- Hrun. reflexivity.
Qed.

Lemma rows_are_cross_product_with_two_stores_witness :
  exists rows,
    generate_historical_sales default_config sample_today half_source = Ok rows /\
    map row_key rows = cross_product default_config sample_today /\
    List.length rows =
      (NUM_DAYS default_config * List.length (REGIONS default_config)
       * List.length (SKUS default_config) * List.length (CHANNELS default_config)
       * 2)%nat /\
    forall n,
      generate_historical_sales (with_stores default_config n) sample_today half_source
      = Ok rows.
Proof.
  exact (rows_are_cross_product_with_two_stores default_config sample_today half_source
           default_config_runnable half_source_valid).
Defined.

(** * Further properties of the generators *)

(** ** Rounding *)

Lemma round_half_even_IZR (z : Z) : round_half_even (IZR z) = z.
Proof.
  unfold round_half_even.
  rewrite (Int_part_between (IZR z) z) by lra.
  destruct (Rlt_dec (IZR z - IZR z) (1 / 2)); [reflexivity | lra].
Qed.

(** [round] leaves a number with at most [nd] decimals unchanged. *)
Lemma py_round_exact (z : Z) (nd : nat) :
  py_round (IZR z / 10 ^ nd) nd = IZR z / 10 ^ nd.
Proof.
  assert (Hp : 0 < 10 ^ nd) by (apply pow_lt; lra).
  unfold py_round.
  replace (IZR z / 10 ^ nd * 10 ^ nd) with (IZR z) by (field; lra).
  now rewrite round_half_even_IZR.
Qed.

Lemma py_round_between (x : R) (lo hi : Z) (nd : nat) :
  IZR lo / 10 ^ nd <= x <= IZR hi / 10 ^ nd ->
  IZR lo / 10 ^ nd <= py_round x nd <= IZR hi / 10 ^ nd.
Proof.
  intros [Hlo Hhi]. split.
  - rewrite <- (py_round_exact lo nd). now apply py_round_mono.
  - rewrite <- (py_round_exact hi nd). now apply py_round_mono.
Qed.

(** ** Loops as blocks of rows *)

Lemma for_each_blocks {A B : Type} (R : A -> list B -> Prop) (xs : list A)
    (body : A -> M (list B)) :
  (forall x, In x xs -> forall k, exists ys k', body x k = Ok (ys, k') /\ R x ys) ->
  forall k, exists yss k',
    for_each xs body k = Ok (List.concat yss, k') /\ Forall2 R xs yss.
Proof.
  induction xs as [| x xs IH]; intros Hbody k.
  - exists [], k. split; [reflexivity | constructor].
  - destruct (Hbody x (or_introl eq_refl) k) as (ys & k1 & Hy & HR).
    destruct (IH (fun y Hy' => Hbody y (or_intror Hy')) k1) as (yss & k2 & Hz & HF).
    exists (ys :: yss), k2. split; [| now constructor].
    cbn [List.concat]. now apply for_each_cons with (k1 := k1).
Qed.

Lemma for_each_forall {A B : Type} (P : B -> Prop) (xs : list A)
    (body : A -> M (list B)) :
  (forall x, In x xs -> forall k, exists ys k', body x k = Ok (ys, k') /\ Forall P ys) ->
  forall k, exists ys k', for_each xs body k = Ok (ys, k') /\ Forall P ys.
Proof.
  intros Hbody k.
  destruct (for_each_blocks (fun _ ys => Forall P ys) xs body Hbody k)
    as (yss & k' & Hrun & HF).
  exists (List.concat yss), k'. split; [exact Hrun |].
  clear Hrun Hbody. induction HF as [| x ys xs' yss' Hys _ IH]; [constructor |].
  cbn [List.concat]. apply Forall_app. now split.
Qed.

(** A member of a block list lies in the block of some position. *)
Lemma Forall2_concat_In {A B : Type} (R : A -> list B -> Prop) (xs : list A)
    (yss : list (list B)) (y : B) :
  Forall2 R xs yss -> In y (List.concat yss) ->
  exists i x ys,
    nth_error xs i = Some x /\ nth_error yss i = Some ys /\ R x ys /\ In y ys.
Proof.
  intros HF. induction HF as [| x ys xs' yss' HR _ IH]; cbn [List.concat].
  - contradiction.
  - intros Hin. apply in_app_or in Hin. destruct Hin as [Hin | Hin].
    + exists 0%nat, x, ys. now repeat split.
    + destruct (IH Hin) as (i & x' & ys' & Hx & Hy & HR' & Hin').
      exists (S i), x', ys'. now repeat split.
Qed.

(** ** The full provenance of the historical rows *)

(** The store loop body fills the row from the day, the region and the SKU. *)
Lemma store_body_full (cfg : Config) (src : RandomSource) (d : DayVars) (r : RegionVars)
    (sku : string) (pkg : R) (ch : string) (idx k : nat) (tbl : list R) (f : R) :
  valid_source src ->
  dict_get (PACKAGING_MAP cfg) sku = Some pkg ->
  pkg <> 0 -> -12 < pkg ->
  dict_get (WEEKDAY_FACTORS cfg) ch = Some tbl ->
  nth_error tbl (Z.to_nat (weekday d)) = Some f ->
  108 <= mandi_price r ->
  exists l row k',
    store_body cfg src d r sku pkg ch idx k = Ok ([(l, row)], k') /\
    row_assembled cfg d r sku l row.
Proof.
  intros Hsrc Hpkg Hnz Hlow Htbl Hf Hmandi.
  pose proof (optimal_price_pos (mandi_price r) ch pkg Hmandi Hlow) as Hopt.
  destruct Hsrc as [Hu Hb].
  assert (Hpf : price_factor_of ch
            (optimal_price_of (mandi_price r) ch pkg * (0.95 + (1.05 - 0.95) * unit_at src k))
            (optimal_price_of (mandi_price r) ch pkg) =
          Ok (Rpower (0.95 + (1.05 - 0.95) * unit_at src k) (elasticity_of ch))).
  { apply price_factor_ok; [assumption |]. specialize (Hu k). lra. }
  unfold store_body, bind, lift, dict_index, list_index, uniform, random, ret, bind.
  rewrite Htbl, Hf, Hpf. unfold sales_units_of.
  destruct (truthy (logistics_disruption d)) eqn:Hdis;
    rewrite py_div_ok by assumption;
    do 3 eexists; (split; [reflexivity |]).
  all: constructor; try rewrite Hdis;
    cbn [Locals.pkg_size Locals.channel Locals.season_factor Locals.weekday_factor
         Locals.fasting_impact Locals.wedding_impact Locals.optimal_price
         Locals.price_offered Locals.demand_units Locals.inventory_received
         Locals.sales_units
         SalesRow.date SalesRow.region_id SalesRow.mandi_id SalesRow.sku_id
         SalesRow.channel SalesRow.packaging SalesRow.b2b_b2c_ratio
         SalesRow.panchang_fasting_flag SalesRow.festival_flag
         SalesRow.logistics_disruption_flag SalesRow.wedding_density_30d
         SalesRow.temp_max_c SalesRow.temp_min_c SalesRow.humidity_avg
         SalesRow.rainfall_mm SalesRow.mandi_price_per_kg
         SalesRow.mandi_price_change_1d SalesRow.price_offered_per_kg
         SalesRow.optimal_price_per_kg SalesRow.volatility_score_14d
         SalesRow.packaging_pref_score SalesRow.lag_1_sales
         SalesRow.lag_7_sales_mean];
    try reflexivity; try assumption.
  all: try (exists tbl; now split).
  all: eexists; (split; [| reflexivity]).
  all: match goal with
       | |- context [unit_at _ ?j] => specialize (Hu j); lra
       end.
Qed.

Section FullProvenance.

Variable cfg : Config.
Variable src : RandomSource.
Hypothesis Hsrc : valid_source src.
Hypothesis Hcfg : runnable_config cfg.

Lemma sku_body_full (d : DayVars) (r : RegionVars) (sku : string) (k : nat) :
  In sku (SKUS cfg) ->
  (Z.to_nat (weekday d) < 7)%nat -> 0 <= wedding_density d -> 108 <= mandi_price r ->
  exists ys k',
    sku_body cfg src d r sku k = Ok (ys, k') /\ Forall (row_full cfg d r) ys.
Proof.
  intros Hsku Hwd Hwed Hmandi.
  destruct Hcfg as [Hpk Hch].
  destruct (Hpk sku Hsku) as (p & Hget & Hnz & Hlow).
  unfold sku_body.
  rewrite bind_ok with (a := p) (k' := k)
    by (unfold lift, dict_index; now rewrite Hget).
  apply for_each_forall. intros ch Hin k1.
  destruct (Hch ch Hin) as (tbl & Htbl & Hentries).
  destruct (Hentries _ Hwd) as (f & Hf & _).
  apply for_each_forall. intros idx _ k2.
  destruct (store_body_ok cfg src d r sku p ch idx k2 tbl f)
    as (l & row & k3 & Hrun & _ & Hgen); try assumption.
  destruct (store_body_full cfg src d r sku p ch idx k2 tbl f)
    as (l' & row' & k3' & Hrun' & Hasm); try assumption.
  rewrite Hrun in Hrun'. injection Hrun' as <- <- <-.
  exists [(l, row)], k3. split; [exact Hrun |].
  constructor; [| constructor]. exists sku. cbn [fst snd].
  split; [exact Hsku | split; [exact Hgen | exact Hasm]].
Qed.

Lemma region_tail_full (d : DayVars) (r : RegionVars) (k : nat) :
  (Z.to_nat (weekday d) < 7)%nat -> 0 <= wedding_density d -> 108 <= mandi_price r ->
  exists ys k',
    for_each (SKUS cfg) (fun sku => sku_body cfg src d r sku) k = Ok (ys, k') /\
    Forall (row_full cfg d r) ys.
Proof.
  intros Hwd Hwed Hmandi. apply for_each_forall. intros sku Hsku k1.
  now apply sku_body_full.
Qed.

Lemma region_body_full (d : DayVars) (region0 : string) (k : nat) :
  (Z.to_nat (weekday d) < 7)%nat -> 0 <= wedding_density d ->
  exists ys k',
    region_body cfg src d region0 k = Ok (ys, k') /\ region_block cfg d region0 ys.
Proof.
  intros Hwd Hwed. destruct Hsrc as [Hu _].
  pose proof (Hu k) as U0. pose proof (Hu (S k)) as U1.
  pose proof (Hu (S (S k))) as U2. pose proof (Hu (S (S (S k)))) as U3.
  pose proof (Hu (S (S (S (S k))))) as U4.
  pose proof (Hu (S (S (S (S (S k)))))) as U5.
  pose proof (Hu (S (S (S (S (S (S k))))))) as U6.
  unfold region_body, bind, uniform, random, ret, bind, region_block.
  destruct (Rgt_dec _ 70) as [Hh | Hh]; [destruct (Rlt_dec _ 0.3) |];
    destruct (truthy (festival_flag d)) eqn:Hfest;
    match goal with
    | |- context [for_each _ (fun sku => sku_body _ _ _ ?r0 sku) ?k0] =>
        destruct (region_tail_full d r0 k0 Hwd Hwed) as (ys & k' & Hrun & HP);
          [cbn [mandi_price]; lra |];
        exists ys, k'; split; [exact Hrun |]; exists r0; split; [| exact HP]
    end;
    constructor; cbn [region mandi_id temp_max temp_min humidity rainfall
                      mandi_price mandi_change];
    try reflexivity; try rewrite Hfest; try lra.
  all: try (right; lra).
  all: try (left; reflexivity).
Qed.

Lemma day_body_full (today : Z) (day_offset : nat) (k : nat) :
  exists ys k',
    day_body cfg src today day_offset k = Ok (ys, k') /\
    day_block cfg today day_offset ys.
Proof.
  destruct Hsrc as [Hu _].
  pose proof (Hu (S k)) as U1. pose proof (Hu (S (S k))) as U2.
  unfold day_body, bind, uniform, random, ret, bind, day_block.
  destruct (zdict_mem _ _) eqn:Hmem;
    match goal with
    | |- context [for_each _ (fun region => region_body _ _ ?d0 region) ?k0] =>
        destruct (for_each_blocks (region_block cfg d0) (REGIONS cfg)
                    (fun region => region_body cfg src d0 region)) with (k := k0)
          as (yss & k' & Hrun & HF);
          [intros region _ k1; apply region_body_full; cbn [weekday wedding_density];
             [apply weekday_in_range | lra] |];
        exists (List.concat yss), k'; split; [exact Hrun |];
        exists d0, yss; split; [reflexivity | split; [| exact HF]]
    end;
    constructor; cbn [curr_date weekday month panchang_fasting festival_flag
                      logistics_disruption wedding_density base_temp];
    try reflexivity; try rewrite Hmem; try lra.
  all: match goal with
       | |- context [Rlt_dec ?a ?b] => destruct (Rlt_dec a b); [now right | now left]
       end.
Qed.

(** The trace of a run is a list of day blocks, one per day offset. *)
Lemma historical_trace_blocks (today : Z) :
  exists blocks,
    generate_historical_trace cfg today src = Ok (List.concat blocks) /\
    Forall2 (day_block cfg today) (seq 0 (NUM_DAYS cfg)) blocks.
Proof.
  destruct (for_each_blocks (day_block cfg today) (seq 0 (NUM_DAYS cfg))
              (fun off => day_body cfg src today off)) with (k := 0%nat)
    as (blocks & k' & Hrun & HF).
  - intros off _ k. apply day_body_full.
  - exists blocks. unfold generate_historical_trace, run, historical_loop.
    rewrite Hrun. now split.
Qed.

End FullProvenance.

(** Every row of the trace was made on some day of the horizon, in some
    region of the configuration. *)
Lemma historical_rows_full (cfg : Config) (today : Z) (src : RandomSource) :
  valid_source src -> runnable_config cfg ->
  exists t,
    generate_historical_trace cfg today src = Ok t /\
    Forall (fun x =>
      exists off d region0 r,
        (off < NUM_DAYS cfg)%nat /\ day_sampled cfg today off d /\
        In region0 (REGIONS cfg) /\ region_sampled d region0 r /\
        row_full cfg d r x) t.
Proof.
  intros Hsrc Hcfg.
  destruct (historical_trace_blocks cfg src Hsrc Hcfg today) as (blocks & Hrun & HF).
  exists (List.concat blocks). split; [exact Hrun |].
  apply Forall_forall. intros x Hx.
  destruct (Forall2_concat_In _ _ _ _ HF Hx) as (i & off & ys & Hoff & _ & Hblock & Hin).
  destruct Hblock as (d & yss & -> & Hd & HFr).
  destruct (Forall2_concat_In _ _ _ _ HFr Hin)
    as (j & region0 & zs & Hreg & _ & (r & Hr & Hrows) & Hin').
  exists off, d, region0, r.
  split; [| split; [exact Hd | split; [| split; [exact Hr |]]]].
  - apply nth_error_In in Hoff. apply in_seq in Hoff. lia.
  - now apply nth_error_In in Hreg.
  - rewrite Forall_forall in Hrows. now apply Hrows.
Qed.

(** The rows of a run, with what each was made from. *)
Lemma historical_sales_full (cfg : Config) (today : Z) (src : RandomSource)
    (P : SalesRow.t -> Prop) :
  valid_source src -> runnable_config cfg ->
  (forall off d region0 r l row,
     (off < NUM_DAYS cfg)%nat -> day_sampled cfg today off d ->
     In region0 (REGIONS cfg) -> region_sampled d region0 r ->
     row_full cfg d r (l, row) -> P row) ->
  exists rows,
    generate_historical_sales cfg today src = Ok rows /\ Forall P rows.
Proof.
  intros Hsrc Hcfg HP.
  destruct (historical_rows_full cfg today src Hsrc Hcfg) as (t & Hrun & Hall).
  exists (map snd t). split; [now apply historical_sales_of_trace |].
  apply Forall_map. apply Forall_impl with (2 := Hall).
  intros [l row] (off & d & region0 & r & Hoff & Hd & Hin & Hr & Hrow).
  cbn [snd]. now apply (HP off d region0 r l row).
Qed.

Lemma hundredths (z : Z) : IZR z / 10 ^ 2 = IZR z / 100.
Proof. cbn [pow]. f_equal. lra. Qed.

Lemma tenths (z : Z) : IZR z / 10 ^ 1 = IZR z / 10.
Proof. cbn [pow]. f_equal. lra. Qed.

(** Bounds on a value survive [round(_, 2)] and [round(_, 1)] when they
    have that many decimals. *)
Lemma py_round2_between (x : R) (lo hi : Z) :
  IZR lo / 100 <= x <= IZR hi / 100 ->
  IZR lo / 100 <= py_round x 2 <= IZR hi / 100.
Proof.
  intros H. rewrite <- !hundredths in *. now apply py_round_between.
Qed.

Lemma py_round1_between (x : R) (lo hi : Z) :
  IZR lo / 10 <= x <= IZR hi / 10 ->
  IZR lo / 10 <= py_round x 1 <= IZR hi / 10.
Proof.
  intros H. rewrite <- !tenths in *. now apply py_round_between.
Qed.

(** X1. The day-level columns of every historical row: the three flags
    are 0 or 1, and the wedding density lies in [0, 0.3] when the month of
    the row's date has no seasonality entry and in [0.3, 0.9] when it has
    one. *)
Theorem day_columns_in_range (cfg : Config) (today : Z) (src : RandomSource) :
  runnable_config cfg -> valid_source src ->
  exists rows,
    generate_historical_sales cfg today src = Ok rows /\
    Forall (fun row =>
      (SalesRow.panchang_fasting_flag row = 0 \/ SalesRow.panchang_fasting_flag row = 1)%Z /\
      (SalesRow.festival_flag row = 0 \/ SalesRow.festival_flag row = 1)%Z /\
      (SalesRow.logistics_disruption_flag row = 0 \/
       SalesRow.logistics_disruption_flag row = 1)%Z /\
      (if zdict_mem (SEASONALITY_MONTHS cfg) (month_of_ordinal (SalesRow.date row))
       then 0.3 <= SalesRow.wedding_density_30d row <= 0.9
       else 0 <= SalesRow.wedding_density_30d row <= 0.3)) rows.
Proof.
  intros Hcfg Hsrc. apply historical_sales_full; try assumption.
  intros off d region0 r l row _ Hd _ _ (sku & _ & _ & Ha). cbn [fst snd] in Ha.
  rewrite (ra_fasting _ _ _ _ _ _ Ha), (ra_festival _ _ _ _ _ _ Ha),
    (ra_disruption _ _ _ _ _ _ Ha), (ra_wedding _ _ _ _ _ _ Ha),
    (ra_date _ _ _ _ _ _ Ha), <- (ds_month _ _ _ _ Hd).
  split; [exact (ds_fasting _ _ _ _ Hd) |].
  split; [exact (ds_festival _ _ _ _ Hd) |].
  split; [exact (ds_disruption _ _ _ _ Hd) |].
  pose proof (ds_wedding _ _ _ _ Hd) as Hw.
  destruct (zdict_mem (SEASONALITY_MONTHS cfg) (month d)).
  - replace 0.3 with (IZR 30 / 100) by lra. replace 0.9 with (IZR 90 / 100) by lra.
    apply py_round2_between. lra.
  - replace 0.3 with (IZR 30 / 100) by lra. replace 0 with (IZR 0 / 100) at 1 by lra.
    apply py_round2_between. lra.
Qed.

Lemma day_columns_in_range_witness :
  exists rows,
    generate_historical_sales default_config sample_today half_source = Ok rows /\
    Forall (fun row =>
      (SalesRow.panchang_fasting_flag row = 0 \/ SalesRow.panchang_fasting_flag row = 1)%Z /\
      (SalesRow.festival_flag row = 0 \/ SalesRow.festival_flag row = 1)%Z /\
      (SalesRow.logistics_disruption_flag row = 0 \/
       SalesRow.logistics_disruption_flag row = 1)%Z /\
      (if zdict_mem (SEASONALITY_MONTHS default_config)
            (month_of_ordinal (SalesRow.date row))
       then 0.3 <= SalesRow.wedding_density_30d row <= 0.9
       else 0 <= SalesRow.wedding_density_30d row <= 0.3)) rows.
Proof.
  exact (day_columns_in_range default_config sample_today half_source
           default_config_runnable half_source_valid).
Defined.

Lemma base_temp_range (d : DayVars) (cfg : Config) (today : Z) (off : nat) :
  day_sampled cfg today off d -> 15 <= base_temp d <= 35.
Proof.
  intros Hd. rewrite (ds_base_temp _ _ _ _ Hd).
  pose proof (SIN_bound (2 * PI * INR off / 365)) as [H1 H2]. lra.
Qed.

(** X2. The weather columns of every historical row: the maximum
    temperature is between 12 and 40, the minimum is at least -3 and not
    above the maximum, the humidity is between 30 and 90, and the rainfall
    is 0 unless the humidity is at least 70, in which case it is between 5
    and 100. *)
Theorem weather_columns_in_range (cfg : Config) (today : Z) (src : RandomSource) :
  runnable_config cfg -> valid_source src ->
  exists rows,
    generate_historical_sales cfg today src = Ok rows /\
    Forall (fun row =>
      12 <= SalesRow.temp_max_c row <= 40 /\
      -3 <= SalesRow.temp_min_c row <= SalesRow.temp_max_c row /\
      30 <= SalesRow.humidity_avg row <= 90 /\
      (SalesRow.rainfall_mm row = 0 \/
       (5 <= SalesRow.rainfall_mm row <= 100 /\ 70 <= SalesRow.humidity_avg row))) rows.
Proof.
  intros Hcfg Hsrc. apply historical_sales_full; try assumption.
  intros off d region0 r l row _ Hd _ Hr (sku & _ & _ & Ha). cbn [fst snd] in Ha.
  rewrite (ra_temp_max _ _ _ _ _ _ Ha), (ra_temp_min _ _ _ _ _ _ Ha),
    (ra_humidity _ _ _ _ _ _ Ha), (ra_rainfall _ _ _ _ _ _ Ha).
  pose proof (base_temp_range d cfg today off Hd) as Hb.
  pose proof (rs_temp_max _ _ _ Hr) as Hmax.
  pose proof (rs_temp_min _ _ _ Hr) as Hmin.
  pose proof (rs_humidity _ _ _ Hr) as Hh.
  split; [| split; [| split]].
  - replace 12 with (IZR 120 / 10) by lra. replace 40 with (IZR 400 / 10) by lra.
    apply py_round1_between. lra.
  - split.
    + replace (-3) with (IZR (-30) / 10) by lra.
      apply (py_round1_between (temp_min r) (-30) 400). lra.
    + apply py_round_mono. lra.
  - replace 30 with (IZR 300 / 10) by lra. replace 90 with (IZR 900 / 10) by lra.
    apply py_round1_between. lra.
  - destruct (rs_rainfall _ _ _ Hr) as [-> | [Hhum Hrain]].
    + left. replace 0 with (IZR 0 / 10 ^ 1) by (cbn [pow]; lra).
      apply py_round_exact.
    + right. split.
      * replace 5 with (IZR 50 / 10) by lra. replace 100 with (IZR 1000 / 10) by lra.
        apply py_round1_between. lra.
      * replace 70 with (IZR 700 / 10) by lra.
        apply (py_round1_between (humidity r) 700 900). lra.
Qed.

Lemma weather_columns_in_range_witness :
  exists rows,
    generate_historical_sales default_config sample_today half_source = Ok rows /\
    Forall (fun row =>
      12 <= SalesRow.temp_max_c row <= 40 /\
      -3 <= SalesRow.temp_min_c row <= SalesRow.temp_max_c row /\
      30 <= SalesRow.humidity_avg row <= 90 /\
      (SalesRow.rainfall_mm row = 0 \/
       (5 <= SalesRow.rainfall_mm row <= 100 /\ 70 <= SalesRow.humidity_avg row))) rows.
Proof.
  exact (weather_columns_in_range default_config sample_today half_source
           default_config_runnable half_source_valid).
Defined.

(** X3. The mandi price of every historical row is between 108 and 132
    on a day without festival and between 120 and 144 on a festival day;
    its one-day change is between -10 and 10. *)
Theorem mandi_price_in_range (cfg : Config) (today : Z) (src : RandomSource) :
  runnable_config cfg -> valid_source src ->
  exists rows,
    generate_historical_sales cfg today src = Ok rows /\
    Forall (fun row =>
      (SalesRow.festival_flag row = 0%Z ->
       108 <= SalesRow.mandi_price_per_kg row <= 132) /\
      (SalesRow.festival_flag row = 1%Z ->
       120 <= SalesRow.mandi_price_per_kg row <= 144) /\
      -10 <= SalesRow.mandi_price_change_1d row <= 10) rows.
Proof.
  intros Hcfg Hsrc. apply historical_sales_full; try assumption.
  intros off d region0 r l row _ Hd _ Hr (sku & _ & _ & Ha). cbn [fst snd] in Ha.
  rewrite (ra_festival _ _ _ _ _ _ Ha), (ra_mandi_price _ _ _ _ _ _ Ha),
    (ra_mandi_change _ _ _ _ _ _ Ha).
  pose proof (rs_mandi_price _ _ _ Hr) as Hp.
  pose proof (rs_mandi_change _ _ _ Hr) as Hc.
  split; [| split].
  - intros Hf. rewrite Hf in Hp. cbn [truthy Z.eqb negb] in Hp.
    replace 108 with (IZR 10800 / 100) by lra.
    replace 132 with (IZR 13200 / 100) by lra.
    apply py_round2_between. lra.
  - intros Hf. rewrite Hf in Hp. cbn [truthy Z.eqb negb] in Hp.
    replace 120 with (IZR 12000 / 100) by lra.
    replace 144 with (IZR 14400 / 100) by lra.
    apply py_round2_between. lra.
  - replace (-10) with (IZR (-1000) / 100) by lra.
    replace 10 with (IZR 1000 / 100) by lra.
    apply py_round2_between. lra.
Qed.

Lemma mandi_price_in_range_witness :
  exists rows,
    generate_historical_sales default_config sample_today half_source = Ok rows /\
    Forall (fun row =>
      (SalesRow.festival_flag row = 0%Z ->
       108 <= SalesRow.mandi_price_per_kg row <= 132) /\
      (SalesRow.festival_flag row = 1%Z ->
       120 <= SalesRow.mandi_price_per_kg row <= 144) /\
      -10 <= SalesRow.mandi_price_change_1d row <= 10) rows.
Proof.
  exact (mandi_price_in_range default_config sample_today half_source
           default_config_runnable half_source_valid).
Defined.

(** The trace of a run on a valid configuration, with what each row and
    its local variables were made from. *)
Lemma historical_trace_full (cfg : Config) (today : Z) (src : RandomSource)
    (P : Locals.t -> SalesRow.t -> Prop) :
  valid_source src -> runnable_config cfg ->
  (forall off d region0 r l row,
     (off < NUM_DAYS cfg)%nat -> day_sampled cfg today off d ->
     In region0 (REGIONS cfg) -> region_sampled d region0 r ->
     row_full cfg d r (l, row) -> P l row) ->
  exists t,
    generate_historical_trace cfg today src = Ok t /\
    generate_historical_sales cfg today src = Ok (map snd t) /\
    Forall (fun x => P (fst x) (snd x)) t.
Proof.
  intros Hsrc Hcfg HP.
  destruct (historical_rows_full cfg today src Hsrc Hcfg) as (t & Hrun & Hall).
  exists t. split; [exact Hrun | split; [now apply historical_sales_of_trace |]].
  apply Forall_impl with (2 := Hall).
  intros [l row] (off & d & region0 & r & Hoff & Hd & Hin & Hr & Hrow).
  cbn [fst snd]. now apply (HP off d region0 r l row).
Qed.

(** The quotient [inventory_received / pkg_size] of a row. *)
Lemma generated_quotient (cfg : Config) (d : DayVars) (r : RegionVars) (sku : string)
    (l : Locals.t) (row : SalesRow.t) :
  valid_config cfg -> generated cfg l row -> row_assembled cfg d r sku l row ->
  exists s,
    (if truthy (logistics_disruption d) then 0.5 <= s < 0.8 else 1 <= s < 1.2) /\
    Locals.inventory_received l = IZR (Locals.demand_units l) * Locals.pkg_size l * s /\
    Locals.sales_units l =
      Z.min (Locals.demand_units l) (Int_part (IZR (Locals.demand_units l) * s)) /\
    (0 <= Locals.demand_units l)%Z /\ 0 < Locals.pkg_size l.
Proof.
  intros Hcfg G Ha.
  destruct (generated_signs cfg l row Hcfg G) as (Hp & _).
  pose proof (generated_demand_nonneg cfg l row Hcfg G) as Hd.
  destruct (generated_fulfilment cfg l row Hcfg G) as (Hsu & _ & _).
  destruct (ra_inventory _ _ _ _ _ _ Ha) as (s & Hs & Hinv).
  exists s. split; [exact Hs | split; [exact Hinv | split; [| split; assumption]]].
  rewrite Hsu. do 2 f_equal. rewrite Hinv. field. lra.
Qed.

(** X4. On a valid configuration, a historical row sells between 0 and
    its demand: on a day without logistics disruption its whole demand but
    for at most one unit, and on a disrupted day at most four fifths of
    it. *)
Theorem sales_by_disruption (cfg : Config) (today : Z) (src : RandomSource) :
  valid_config cfg -> valid_source src ->
  exists rows,
    generate_historical_sales cfg today src = Ok rows /\
    Forall (fun row =>
      (0 <= SalesRow.sales_units row <= SalesRow.label_daily_demand row)%Z /\
      (SalesRow.logistics_disruption_flag row = 0%Z ->
       (SalesRow.label_daily_demand row - 1 <= SalesRow.sales_units row)%Z) /\
      (SalesRow.logistics_disruption_flag row = 1%Z ->
       (5 * SalesRow.sales_units row <= 4 * SalesRow.label_daily_demand row)%Z)) rows.
Proof.
  intros Hcfg Hsrc.
  apply historical_sales_full; try assumption; [now apply valid_runnable |].
  intros off d region0 r l row _ Hd _ _ (sku & _ & G & Ha). cbn [fst snd] in G, Ha.
  destruct (generated_quotient cfg d r sku l row Hcfg G Ha)
    as (s & Hs & _ & Hsu & Hd0 & _).
  rewrite (ra_disruption _ _ _ _ _ _ Ha), (gen_row_units _ _ _ G),
    (gen_row_demand _ _ _ G).
  assert (Hd0' : 0 <= IZR (Locals.demand_units l)) by now apply IZR_le.
  destruct (Int_part_bounds (IZR (Locals.demand_units l) * s)) as [Hlo Hhi].
  assert (Hs0 : 0 < s) by (destruct (truthy (logistics_disruption d)); lra).
  assert (Hq0 : (0 <= Int_part (IZR (Locals.demand_units l) * s))%Z)
    by (apply Int_part_nonneg; nra).
  split; [lia |].
  split; intros Hflag; rewrite Hflag in Hs; cbn [truthy Z.eqb negb] in Hs.
  - assert (Hge : (Locals.demand_units l <= Int_part (IZR (Locals.demand_units l) * s))%Z).
    { rewrite <- (Int_part_between (IZR (Locals.demand_units l)) (Locals.demand_units l))
        at 1 by lra.
      apply Int_part_mono. nra. }
    lia.
  - assert (Hle : (Locals.sales_units l <= Int_part (IZR (Locals.demand_units l) * s))%Z)
      by lia.
    apply IZR_le in Hle.
    apply le_IZR. rewrite !mult_IZR. nra.
Qed.

Lemma sales_by_disruption_witness :
  exists rows,
    generate_historical_sales default_config sample_today half_source = Ok rows /\
    Forall (fun row =>
      (0 <= SalesRow.sales_units row <= SalesRow.label_daily_demand row)%Z /\
      (SalesRow.logistics_disruption_flag row = 0%Z ->
       (SalesRow.label_daily_demand row - 1 <= SalesRow.sales_units row)%Z) /\
      (SalesRow.logistics_disruption_flag row = 1%Z ->
       (5 * SalesRow.sales_units row <= 4 * SalesRow.label_daily_demand row)%Z)) rows.
Proof.
  exact (sales_by_disruption default_config sample_today half_source
           default_config_valid half_source_valid).
Defined.



(** ** Prices *)




(** X7. The multipliers of every historical row are those of its own
    columns: the season factor is that of the month of the row's date, the
    weekday factor is the entry of the channel's table for the weekday of
    the row's date, the fasting impact is 0.7 only on a B2C row with the
    fasting flag set and 1 otherwise, and the wedding impact is 1 on every
    row that is not B2B and at least 1 on a B2B row. *)
Theorem multipliers_from_row_columns (cfg : Config) (today : Z) (src : RandomSource) :
  runnable_config cfg -> valid_source src ->
  exists t,
    generate_historical_trace cfg today src = Ok t /\
    generate_historical_sales cfg today src = Ok (map snd t) /\
    Forall (fun x =>
      let l := fst x in
      let row := snd x in
      Locals.season_factor l =
        zdict_get_default (SEASONALITY_MONTHS cfg)
                          (month_of_ordinal (SalesRow.date row)) 1.0 /\
      (exists tbl,
         dict_get (WEEKDAY_FACTORS cfg) (SalesRow.channel row) = Some tbl /\
         nth_error tbl (Z.to_nat (weekday_of_ordinal (SalesRow.date row))) =
           Some (Locals.weekday_factor l)) /\
      Locals.fasting_impact l =
        (if (SalesRow.panchang_fasting_flag row =? 1)%Z
            && (SalesRow.channel row =? "B2C")%string
         then 0.7 else 1) /\
      (SalesRow.channel row <> "B2B"%string -> Locals.wedding_impact l = 1) /\
      1 <= Locals.wedding_impact l) t.
Proof.
  intros Hcfg Hsrc.
  apply (historical_trace_full cfg today src
           (fun l row =>
              Locals.season_factor l =
                zdict_get_default (SEASONALITY_MONTHS cfg)
                                  (month_of_ordinal (SalesRow.date row)) 1.0 /\
              (exists tbl,
                 dict_get (WEEKDAY_FACTORS cfg) (SalesRow.channel row) = Some tbl /\
                 nth_error tbl (Z.to_nat (weekday_of_ordinal (SalesRow.date row))) =
                   Some (Locals.weekday_factor l)) /\
              Locals.fasting_impact l =
                (if (SalesRow.panchang_fasting_flag row =? 1)%Z
                    && (SalesRow.channel row =? "B2C")%string
                 then 0.7 else 1) /\
              (SalesRow.channel row <> "B2B"%string -> Locals.wedding_impact l = 1) /\
              1 <= Locals.wedding_impact l));
    try assumption.
  intros off d region0 r l row _ Hd _ Hr (sku & _ & G & Ha). cbn [fst snd] in G, Ha.
  rewrite (ra_date _ _ _ _ _ _ Ha), (gen_row_channel _ _ _ G),
    (ra_fasting _ _ _ _ _ _ Ha), <- (ds_month _ _ _ _ Hd), <- (ds_weekday _ _ _ _ Hd).
  split; [exact (ra_season _ _ _ _ _ _ Ha) |].
  split; [exact (ra_weekday _ _ _ _ _ _ Ha) |].
  split; [| split].
  - rewrite (ra_fasting_impact _ _ _ _ _ _ Ha). unfold fasting_impact_of, truthy.
    destruct (ds_fasting _ _ _ _ Hd) as [-> | ->]; cbn [Z.eqb Pos.eqb negb andb];
      destruct (Locals.channel l =? "B2C")%string; lra.
  - intros Hne. rewrite (ra_wedding_impact _ _ _ _ _ _ Ha). unfold wedding_impact_of.
    destruct (String.eqb_spec (Locals.channel l) "B2B"); [contradiction | lra].
  - rewrite (ra_wedding_impact _ _ _ _ _ _ Ha). unfold wedding_impact_of.
    pose proof (ds_wedding _ _ _ _ Hd) as Hw.
    destruct (zdict_mem _ _), (Locals.channel l =? "B2B")%string; lra.
Qed.

Lemma multipliers_from_row_columns_witness :
  exists t,
    generate_historical_trace default_config sample_today half_source = Ok t /\
    generate_historical_sales default_config sample_today half_source = Ok (map snd t) /\
    Forall (fun x =>
      let l := fst x in
      let row := snd x in
      Locals.season_factor l =
        zdict_get_default (SEASONALITY_MONTHS default_config)
                          (month_of_ordinal (SalesRow.date row)) 1.0 /\
      (exists tbl,
         dict_get (WEEKDAY_FACTORS default_config) (SalesRow.channel row) = Some tbl /\
         nth_error tbl (Z.to_nat (weekday_of_ordinal (SalesRow.date row))) =
           Some (Locals.weekday_factor l)) /\
      Locals.fasting_impact l =
        (if (SalesRow.panchang_fasting_flag row =? 1)%Z
            && (SalesRow.channel row =? "B2C")%string
         then 0.7 else 1) /\
      (SalesRow.channel row <> "B2B"%string -> Locals.wedding_impact l = 1) /\
      1 <= Locals.wedding_impact l) t.
Proof.
  exact (multipliers_from_row_columns default_config sample_today half_source
           default_config_runnable half_source_valid).
Defined.

(** ** Coordinates of the rows *)

(** What lies in the cross product. *)
Lemma cross_product_In (cfg : Config) (today : Z) (key : RowKey) :
  In key (cross_product cfg today) ->
  exists off region0 sku ch idx,
    (off < NUM_DAYS cfg)%nat /\ In region0 (REGIONS cfg) /\ In sku (SKUS cfg) /\
    In ch (CHANNELS cfg) /\ (idx < 2)%nat /\
    key = ((today - Z.of_nat (NUM_DAYS cfg) + Z.of_nat off)%Z, region0, sku, ch,
           store_id_of region0 ch idx).
Proof.
  unfold cross_product, day_keys, region_keys, sku_keys, store_keys.
  intros H.
  apply in_flat_map in H. destruct H as (off & Hoff & H).
  apply in_flat_map in H. destruct H as (region0 & Hreg & H).
  apply in_flat_map in H. destruct H as (sku & Hsku & H).
  apply in_flat_map in H. destruct H as (ch & Hch & H).
  apply in_map_iff in H. destruct H as (idx & Hkey & Hidx).
  apply in_seq in Hoff. apply in_seq in Hidx.
  exists off, region0, sku, ch, idx. repeat split; try assumption; try lia.
  now symmetry.
Qed.

(** X8. Every historical row has a date in the [NUM_DAYS] days before
    today (today excluded), a region, a SKU and a channel of the
    configuration, the store id [region_channel_0] or [region_channel_1],
    and the mandi id [MANDI_] followed by the region in upper case. *)
Theorem row_coordinates (cfg : Config) (today : Z) (src : RandomSource) :
  runnable_config cfg -> valid_source src ->
  exists rows,
    generate_historical_sales cfg today src = Ok rows /\
    Forall (fun row =>
      (today - Z.of_nat (NUM_DAYS cfg) <= SalesRow.date row < today)%Z /\
      In (SalesRow.region_id row) (REGIONS cfg) /\
      In (SalesRow.sku_id row) (SKUS cfg) /\
      In (SalesRow.channel row) (CHANNELS cfg) /\
      (SalesRow.store_id row =
         store_id_of (SalesRow.region_id row) (SalesRow.channel row) 0 \/
       SalesRow.store_id row =
         store_id_of (SalesRow.region_id row) (SalesRow.channel row) 1) /\
      SalesRow.mandi_id row = mandi_of (SalesRow.region_id row)) rows.
Proof.
  intros Hcfg Hsrc.
  destruct (historical_sales_ok cfg today src Hcfg Hsrc) as (rows & Hrun & Hkey & _).
  destruct (historical_sales_full cfg today src
              (fun row => SalesRow.mandi_id row = mandi_of (SalesRow.region_id row))
              Hsrc Hcfg) as (rows' & Hrun' & Hm).
  { intros off d region0 r l row _ _ _ Hr (sku & _ & _ & Ha). cbn [fst snd] in Ha.
    rewrite (ra_mandi _ _ _ _ _ _ Ha), (ra_region _ _ _ _ _ _ Ha),
      (rs_mandi _ _ _ Hr), (rs_region _ _ _ Hr). reflexivity. }
  rewrite Hrun in Hrun'. injection Hrun' as <-.
  exists rows. split; [exact Hrun |].
  rewrite Forall_forall in *. intros row Hin.
  assert (Hk : In (row_key row) (cross_product cfg today)).
  { rewrite <- Hkey. now apply in_map. }
  destruct (cross_product_In cfg today _ Hk)
    as (off & region0 & sku & ch & idx & Hoff & Hreg & Hsku & Hch & Hidx & Heq).
  unfold row_key in Heq. injection Heq as Hd Hr Hs Hc Hst.
  rewrite Hd, Hr, Hs, Hc, Hst.
  split; [lia |]. repeat (split; [assumption |]).
  split; [| rewrite <- Hr; now apply Hm].
  destruct idx as [| [| idx]]; [now left | now right | lia].
Qed.

Lemma row_coordinates_witness :
  exists rows,
    generate_historical_sales default_config sample_today half_source = Ok rows /\
    Forall (fun row =>
      (sample_today - Z.of_nat (NUM_DAYS default_config) <= SalesRow.date row
       < sample_today)%Z /\
      In (SalesRow.region_id row) (REGIONS default_config) /\
      In (SalesRow.sku_id row) (SKUS default_config) /\
      In (SalesRow.channel row) (CHANNELS default_config) /\
      (SalesRow.store_id row =
         store_id_of (SalesRow.region_id row) (SalesRow.channel row) 0 \/
       SalesRow.store_id row =
         store_id_of (SalesRow.region_id row) (SalesRow.channel row) 1) /\
      SalesRow.mandi_id row = mandi_of (SalesRow.region_id row)) rows.
Proof.
  exact (row_coordinates default_config sample_today half_source
           default_config_runnable half_source_valid).
Defined.

Lemma NoDup_flat_map {A K : Type} (g : A -> list K) (xs : list A) :
  NoDup xs -> (forall x, In x xs -> NoDup (g x)) ->
  (forall x x' y, In x xs -> In x' xs -> In y (g x) -> In y (g x') -> x = x') ->
  NoDup (flat_map g xs).
Proof.
  induction xs as [| x xs IH]; intros Hnd Hg Hdisj; cbn [flat_map].
  - constructor.
  - inversion Hnd as [| ? ? Hnotin Hnd']; subst.
    apply NoDup_app.
    + apply Hg. now left.
    + apply IH; [exact Hnd' | intros; apply Hg; now right |].
      intros x1 x2 y H1 H2. apply Hdisj; now right.
    + intros y Hy Hy'. apply in_flat_map in Hy'. destruct Hy' as (x' & Hx' & Hy').
      assert (x = x') by (apply (Hdisj x x' y); [now left | now right | assumption ..]).
      subst x'. contradiction.
Qed.

Lemma append_cancel (p a b : string) : (p ++ a = p ++ b)%string -> a = b.
Proof.
  induction p as [| c p IH]; cbn [append]; intros H; [exact H |].
  injection H as H. now apply IH.
Qed.

Lemma store_id_of_inj (region0 ch : string) (i j : nat) :
  (i < 2)%nat -> (j < 2)%nat ->
  store_id_of region0 ch i = store_id_of region0 ch j -> i = j.
Proof.
  intros Hi Hj H. unfold store_id_of in H.
  do 4 apply append_cancel in H.
  destruct i as [| [| i]], j as [| [| j]]; try lia; try reflexivity; discriminate H.
Qed.

Lemma store_keys_NoDup (date : Z) (region0 sku ch : string) :
  NoDup (store_keys date region0 sku ch).
Proof.
  unfold store_keys. cbn [seq map].
  constructor; [| constructor; [intros [] | constructor]].
  intros [H | []]. injection H as H.
  apply store_id_of_inj in H; [discriminate H | lia | lia].
Qed.

Lemma cross_product_NoDup (cfg : Config) (today : Z) :
  NoDup (REGIONS cfg) -> NoDup (SKUS cfg) -> NoDup (CHANNELS cfg) ->
  NoDup (cross_product cfg today).
Proof.
  intros HR HS HC. unfold cross_product.
  apply NoDup_flat_map; [apply seq_NoDup | |].
  - intros off _. unfold day_keys.
    apply NoDup_flat_map; [exact HR | |].
    + intros region0 _. unfold region_keys.
      apply NoDup_flat_map; [exact HS | |].
      * intros sku _. unfold sku_keys.
        apply NoDup_flat_map; [exact HC | intros; apply store_keys_NoDup |].
        intros ch ch' y _ _ H H'. unfold store_keys in H, H'.
        apply in_map_iff in H. destruct H as (i & <- & _).
        apply in_map_iff in H'. destruct H' as (j & H' & _).
        now injection H'.
      * intros sku sku' y _ _ H H'. unfold sku_keys, store_keys in H, H'.
        apply in_flat_map in H. destruct H as (ch & _ & H).
        apply in_map_iff in H. destruct H as (i & <- & _).
        apply in_flat_map in H'. destruct H' as (ch' & _ & H').
        apply in_map_iff in H'. destruct H' as (j & H' & _).
        now injection H'.
    + intros region0 region' y _ _ H H'.
      unfold region_keys, sku_keys, store_keys in H, H'.
      apply in_flat_map in H. destruct H as (sku & _ & H).
      apply in_flat_map in H. destruct H as (ch & _ & H).
      apply in_map_iff in H. destruct H as (i & <- & _).
      apply in_flat_map in H'. destruct H' as (sku' & _ & H').
      apply in_flat_map in H'. destruct H' as (ch' & _ & H').
      apply in_map_iff in H'. destruct H' as (j & H' & _).
      now injection H'.
  - intros off off' y _ _ H H'.
    unfold day_keys, region_keys, sku_keys, store_keys in H, H'.
    apply in_flat_map in H. destruct H as (region0 & _ & H).
    apply in_flat_map in H. destruct H as (sku & _ & H).
    apply in_flat_map in H. destruct H as (ch & _ & H).
    apply in_map_iff in H. destruct H as (i & <- & _).
    apply in_flat_map in H'. destruct H' as (region' & _ & H').
    apply in_flat_map in H'. destruct H' as (sku' & _ & H').
    apply in_flat_map in H'. destruct H' as (ch' & _ & H').
    apply in_map_iff in H'. destruct H' as (j & H' & _).
    injection H' as Hd _. lia.
Qed.

(** X9. When the region, SKU and channel lists have no repeated entry,
    no two historical rows share the coordinates
    (date, region, SKU, channel, store id). *)
Theorem row_coordinates_unique (cfg : Config) (today : Z) (src : RandomSource) :
  runnable_config cfg -> valid_source src ->
  NoDup (REGIONS cfg) -> NoDup (SKUS cfg) -> NoDup (CHANNELS cfg) ->
  exists rows,
    generate_historical_sales cfg today src = Ok rows /\
    NoDup (map row_key rows).
Proof.
  intros Hcfg Hsrc HR HS HC.
  destruct (historical_sales_ok cfg today src Hcfg Hsrc) as (rows & Hrun & Hkey & _).
  exists rows. split; [exact Hrun |]. rewrite Hkey.
  now apply cross_product_NoDup.
Qed.

Lemma default_config_NoDup :
  NoDup (REGIONS default_config) /\ NoDup (SKUS default_config) /\
  NoDup (CHANNELS default_config).
Proof.
  cbn [default_config REGIONS SKUS CHANNELS].
  repeat split;
    repeat (constructor;
            [cbn [In]; intros H;
             repeat (destruct H as [H | H]; [discriminate H |]); exact H |]);
    constructor.
Qed.

Lemma row_coordinates_unique_witness :
  exists rows,
    generate_historical_sales default_config sample_today half_source = Ok rows /\
    NoDup (map row_key rows).
Proof.
  exact (row_coordinates_unique default_config sample_today half_source
           default_config_runnable half_source_valid
           (proj1 default_config_NoDup) (proj1 (proj2 default_config_NoDup))
           (proj2 (proj2 default_config_NoDup))).
Defined.

(** ** Rows of one day and of one region share their conditions *)

(** Two members of a block list with the same key lie in one block, when
    the key of a member names the iteration of its block. *)
Lemma blocks_same {A B : Type} (R : A -> list B -> Prop) (key : B -> A)
    (xs : list A) (yss : list (list B)) (y1 y2 : B) :
  NoDup xs -> Forall2 R xs yss ->
  (forall x ys y, R x ys -> In y ys -> key y = x) ->
  In y1 (List.concat yss) -> In y2 (List.concat yss) -> key y1 = key y2 ->
  exists x ys, R x ys /\ In y1 ys /\ In y2 ys.
Proof.
  intros Hnd HF Hkey H1 H2 Heq.
  destruct (Forall2_concat_In R xs yss y1 HF H1) as (i & x1 & ys1 & Hx1 & Hy1 & HR1 & Hin1).
  destruct (Forall2_concat_In R xs yss y2 HF H2) as (j & x2 & ys2 & Hx2 & Hy2 & HR2 & Hin2).
  assert (Hx : x1 = x2).
  { rewrite <- (Hkey x1 ys1 y1 HR1 Hin1), <- (Hkey x2 ys2 y2 HR2 Hin2). exact Heq. }
  subst x2.
  assert (Hij : i = j).
  { apply (proj1 (NoDup_nth_error xs) Hnd).
    - apply nth_error_Some. rewrite Hx1. discriminate.
    - now rewrite Hx1, Hx2. }
  subst j. rewrite Hy1 in Hy2. injection Hy2 as <-.
  exists x1, ys1. now repeat split.
Qed.

Lemma day_block_rows (cfg : Config) (today : Z) (off : nat)
    (ys : list (Locals.t * SalesRow.t)) (x : Locals.t * SalesRow.t) :
  day_block cfg today off ys -> In x ys ->
  SalesRow.date (snd x) = (today - Z.of_nat (NUM_DAYS cfg) + Z.of_nat off)%Z.
Proof.
  intros (d & yss & -> & Hd & HF) Hin.
  destruct (Forall2_concat_In _ _ _ _ HF Hin) as (_ & _ & zs & _ & _ & (r & _ & Hrows) & Hin').
  rewrite Forall_forall in Hrows. destruct (Hrows x Hin') as (sku & _ & _ & Ha).
  rewrite (ra_date _ _ _ _ _ _ Ha). apply (ds_date _ _ _ _ Hd).
Qed.

Lemma region_block_rows (cfg : Config) (d : DayVars) (region0 : string)
    (ys : list (Locals.t * SalesRow.t)) (x : Locals.t * SalesRow.t) :
  region_block cfg d region0 ys -> In x ys -> SalesRow.region_id (snd x) = region0.
Proof.
  intros (r & Hr & Hrows) Hin.
  rewrite Forall_forall in Hrows. destruct (Hrows x Hin) as (sku & _ & _ & Ha).
  rewrite (ra_region _ _ _ _ _ _ Ha). apply (rs_region _ _ _ Hr).
Qed.

(** Two rows of the trace with the same date were made from one [DayVars]
    and lie in the region blocks of that day. *)
Lemma same_date_same_day (cfg : Config) (today : Z) (src : RandomSource) :
  valid_source src -> runnable_config cfg ->
  exists t,
    generate_historical_trace cfg today src = Ok t /\
    forall x y, In x t -> In y t ->
      SalesRow.date (snd x) = SalesRow.date (snd y) ->
      exists d yss,
        Forall2 (region_block cfg d) (REGIONS cfg) yss /\
        In x (List.concat yss) /\ In y (List.concat yss).
Proof.
  intros Hsrc Hcfg.
  destruct (historical_trace_blocks cfg src Hsrc Hcfg today) as (blocks & Hrun & HF).
  exists (List.concat blocks). split; [exact Hrun |].
  intros x y Hx Hy Hdate.
  destruct (blocks_same (day_block cfg today)
              (fun z => Z.to_nat (SalesRow.date (snd z)
                                  - (today - Z.of_nat (NUM_DAYS cfg))))
              (seq 0 (NUM_DAYS cfg)) blocks x y (seq_NoDup _ _) HF)
    as (off & ys & (d & yss & -> & Hd & HFr) & Hinx & Hiny); try assumption.
  - intros off ys z Hblock Hin. rewrite (day_block_rows cfg today off ys z Hblock Hin).
    lia.
  - now rewrite Hdate.
  - now exists d, yss.
Qed.

(** X10. Historical rows with the same date carry the same fasting,
    festival and disruption flags and the same wedding density. *)
Theorem same_date_same_day_columns (cfg : Config) (today : Z) (src : RandomSource) :
  runnable_config cfg -> valid_source src ->
  exists rows,
    generate_historical_sales cfg today src = Ok rows /\
    forall a b, In a rows -> In b rows ->
      SalesRow.date a = SalesRow.date b ->
      SalesRow.panchang_fasting_flag a = SalesRow.panchang_fasting_flag b /\
      SalesRow.festival_flag a = SalesRow.festival_flag b /\
      SalesRow.logistics_disruption_flag a = SalesRow.logistics_disruption_flag b /\
      SalesRow.wedding_density_30d a = SalesRow.wedding_density_30d b.
Proof.
  intros Hcfg Hsrc.
  destruct (same_date_same_day cfg today src Hsrc Hcfg) as (t & Hrun & Hsame).
  exists (map snd t). split; [now apply historical_sales_of_trace |].
  intros a b Ha Hb Hdate.
  apply in_map_iff in Ha. destruct Ha as (x & <- & Hx).
  apply in_map_iff in Hb. destruct Hb as (y & <- & Hy).
  destruct (Hsame x y Hx Hy Hdate) as (d & yss & HF & Hinx & Hiny).
  destruct (Forall2_concat_In _ _ _ _ HF Hinx)
    as (_ & _ & zs & _ & _ & (r & _ & Hrows) & Hin).
  destruct (Forall2_concat_In _ _ _ _ HF Hiny)
    as (_ & _ & zs' & _ & _ & (r' & _ & Hrows') & Hin').
  rewrite Forall_forall in Hrows, Hrows'.
  destruct (Hrows x Hin) as (sku & _ & _ & A).
  destruct (Hrows' y Hin') as (sku' & _ & _ & A').
  rewrite (ra_fasting _ _ _ _ _ _ A), (ra_fasting _ _ _ _ _ _ A'),
    (ra_festival _ _ _ _ _ _ A), (ra_festival _ _ _ _ _ _ A'),
    (ra_disruption _ _ _ _ _ _ A), (ra_disruption _ _ _ _ _ _ A'),
    (ra_wedding _ _ _ _ _ _ A), (ra_wedding _ _ _ _ _ _ A').
  now repeat split.
Qed.

Lemma same_date_same_day_columns_witness :
  exists rows,
    generate_historical_sales default_config sample_today half_source = Ok rows /\
    forall a b, In a rows -> In b rows ->
      SalesRow.date a = SalesRow.date b ->
      SalesRow.panchang_fasting_flag a = SalesRow.panchang_fasting_flag b /\
      SalesRow.festival_flag a = SalesRow.festival_flag b /\
      SalesRow.logistics_disruption_flag a = SalesRow.logistics_disruption_flag b /\
      SalesRow.wedding_density_30d a = SalesRow.wedding_density_30d b.
Proof.
  exact (same_date_same_day_columns default_config sample_today half_source
           default_config_runnable half_source_valid).
Defined.

(** X11. When the region list has no repeated entry, historical rows with
    the same date and region carry the same weather, the same mandi price
    and change, and the same mandi id. *)
Theorem same_region_day_same_conditions (cfg : Config) (today : Z) (src : RandomSource) :
  runnable_config cfg -> valid_source src -> NoDup (REGIONS cfg) ->
  exists rows,
    generate_historical_sales cfg today src = Ok rows /\
    forall a b, In a rows -> In b rows ->
      SalesRow.date a = SalesRow.date b ->
      SalesRow.region_id a = SalesRow.region_id b ->
      SalesRow.temp_max_c a = SalesRow.temp_max_c b /\
      SalesRow.temp_min_c a = SalesRow.temp_min_c b /\
      SalesRow.humidity_avg a = SalesRow.humidity_avg b /\
      SalesRow.rainfall_mm a = SalesRow.rainfall_mm b /\
      SalesRow.mandi_price_per_kg a = SalesRow.mandi_price_per_kg b /\
      SalesRow.mandi_price_change_1d a = SalesRow.mandi_price_change_1d b /\
      SalesRow.mandi_id a = SalesRow.mandi_id b.
Proof.
  intros Hcfg Hsrc Hnd.
  destruct (same_date_same_day cfg today src Hsrc Hcfg) as (t & Hrun & Hsame).
  exists (map snd t). split; [now apply historical_sales_of_trace |].
  intros a b Ha Hb Hdate Hregion.
  apply in_map_iff in Ha. destruct Ha as (x & <- & Hx).
  apply in_map_iff in Hb. destruct Hb as (y & <- & Hy).
  destruct (Hsame x y Hx Hy Hdate) as (d & yss & HF & Hinx & Hiny).
  destruct (blocks_same (region_block cfg d) (fun z => SalesRow.region_id (snd z))
              (REGIONS cfg) yss x y Hnd HF)
    as (region0 & zs & (r & _ & Hrows) & Hin & Hin'); try assumption.
  { intros region0 zs z Hblock Hz. now apply (region_block_rows cfg d region0 zs). }
  rewrite Forall_forall in Hrows.
  destruct (Hrows x Hin) as (sku & _ & _ & A).
  destruct (Hrows y Hin') as (sku' & _ & _ & A').
  rewrite (ra_temp_max _ _ _ _ _ _ A), (ra_temp_max _ _ _ _ _ _ A'),
    (ra_temp_min _ _ _ _ _ _ A), (ra_temp_min _ _ _ _ _ _ A'),
    (ra_humidity _ _ _ _ _ _ A), (ra_humidity _ _ _ _ _ _ A'),
    (ra_rainfall _ _ _ _ _ _ A), (ra_rainfall _ _ _ _ _ _ A'),
    (ra_mandi_price _ _ _ _ _ _ A), (ra_mandi_price _ _ _ _ _ _ A'),
    (ra_mandi_change _ _ _ _ _ _ A), (ra_mandi_change _ _ _ _ _ _ A'),
    (ra_mandi _ _ _ _ _ _ A), (ra_mandi _ _ _ _ _ _ A').
  now repeat split.
Qed.

Lemma same_region_day_same_conditions_witness :
  exists rows,
    generate_historical_sales default_config sample_today half_source = Ok rows /\
    forall a b, In a rows -> In b rows ->
      SalesRow.date a = SalesRow.date b ->
      SalesRow.region_id a = SalesRow.region_id b ->
      SalesRow.temp_max_c a = SalesRow.temp_max_c b /\
      SalesRow.temp_min_c a = SalesRow.temp_min_c b /\
      SalesRow.humidity_avg a = SalesRow.humidity_avg b /\
      SalesRow.rainfall_mm a = SalesRow.rainfall_mm b /\
      SalesRow.mandi_price_per_kg a = SalesRow.mandi_price_per_kg b /\
      SalesRow.mandi_price_change_1d a = SalesRow.mandi_price_change_1d b /\
      SalesRow.mandi_id a = SalesRow.mandi_id b.
Proof.
  exact (same_region_day_same_conditions default_config sample_today half_source
           default_config_runnable half_source_valid (proj1 default_config_NoDup)).
Defined.

(** ** The auxiliary features *)

(** X12. The mock features of every historical row on a valid
    configuration: the volatility score is between 0 and 1, the packaging
    preference between 0.3 and 0.9, the lag-1 sales between nine tenths of
    the sales (less one unit) and eleven tenths of them, and the 7-day lag
    mean is not negative. *)
Theorem mock_features_in_range (cfg : Config) (today : Z) (src : RandomSource) :
  valid_config cfg -> valid_source src ->
  exists rows,
    generate_historical_sales cfg today src = Ok rows /\
    Forall (fun row =>
      0 <= SalesRow.volatility_score_14d row <= 1 /\
      0.3 <= SalesRow.packaging_pref_score row <= 0.9 /\
      (0 <= SalesRow.sales_units row)%Z /\
      (0 <= SalesRow.lag_1_sales row)%Z /\
      (9 * SalesRow.sales_units row - 10 < 10 * SalesRow.lag_1_sales row
       <= 11 * SalesRow.sales_units row)%Z /\
      0 <= SalesRow.lag_7_sales_mean row) rows.
Proof.
  intros Hcfg Hsrc.
  apply historical_sales_full; try assumption; [now apply valid_runnable |].
  intros off d region0 r l row _ Hd _ _ (sku & _ & G & Ha). cbn [fst snd] in G, Ha.
  destruct (generated_quotient cfg d r sku l row Hcfg G Ha)
    as (s & Hs & _ & Hsu & Hd0 & _).
  destruct (ra_volatility _ _ _ _ _ _ Ha) as (v & Hv & ->).
  destruct (ra_pref _ _ _ _ _ _ Ha) as (p & Hp & ->).
  destruct (ra_lag1 _ _ _ _ _ _ Ha) as (u & Hu & ->).
  destruct (ra_lag7 _ _ _ _ _ _ Ha) as (u7 & Hu7 & ->).
  rewrite (gen_row_units _ _ _ G).
  assert (Hsu0 : (0 <= Locals.sales_units l)%Z).
  { rewrite Hsu. apply Z.min_glb; [exact Hd0 |].
    apply Int_part_nonneg. apply Rmult_le_pos; [now apply IZR_le |].
    destruct (truthy (logistics_disruption d)); lra. }
  assert (Hsu0' : 0 <= IZR (Locals.sales_units l)) by now apply IZR_le.
  assert (Hprod : 0 <= IZR (Locals.sales_units l) * u) by (apply Rmult_le_pos; lra).
  split; [| split; [| split; [exact Hsu0 | split; [| split]]]].
  - pose proof (py_round2_between v 0 100 ltac:(lra)). lra.
  - pose proof (py_round2_between p 30 90 ltac:(lra)). lra.
  - now apply py_int_nonneg.
  - rewrite py_int_floor by exact Hprod.
    destruct (Int_part_bounds (IZR (Locals.sales_units l) * u)) as [Hlo Hhi].
    split.
    + apply lt_IZR. rewrite minus_IZR, !mult_IZR. nra.
    + apply le_IZR. rewrite !mult_IZR. nra.
  - pose proof (py_round_exact 0 2) as H0.
    pose proof (py_round_mono (IZR 0 / 10 ^ 2) (IZR (Locals.sales_units l) * u7) 2) as Hm.
    cbn [pow] in H0, Hm.
    assert (0 <= IZR (Locals.sales_units l) * u7) by (apply Rmult_le_pos; lra).
    lra.
Qed.

Lemma mock_features_in_range_witness :
  exists rows,
    generate_historical_sales default_config sample_today half_source = Ok rows /\
    Forall (fun row =>
      0 <= SalesRow.volatility_score_14d row <= 1 /\
      0.3 <= SalesRow.packaging_pref_score row <= 0.9 /\
      (0 <= SalesRow.sales_units row)%Z /\
      (0 <= SalesRow.lag_1_sales row)%Z /\
      (9 * SalesRow.sales_units row - 10 < 10 * SalesRow.lag_1_sales row
       <= 11 * SalesRow.sales_units row)%Z /\
      0 <= SalesRow.lag_7_sales_mean row) rows.
Proof.
  exact (mock_features_in_range default_config sample_today half_source
           default_config_valid half_source_valid).
Defined.

(** ** Configurations on which the historical generator fails *)

Lemma bind_raises_l {A B : Type} (m : M A) (f : A -> M B) :
  raises m -> raises (bind m f).
Proof.
  intros Hm k. destruct (Hm k) as (e & He). exists e. unfold bind. now rewrite He.
Qed.

Lemma bind_raises_r {A B : Type} (m : M A) (f : A -> M B) :
  (forall a, raises (f a)) -> raises (bind m f).
Proof.
  intros Hf k. unfold bind. destruct (m k) as [[a k'] | e].
  - apply Hf.
  - now exists e.
Qed.

(** A loop raises as soon as one of its iterations raises from every
    state: the iterations before it either raise or reach it. *)
Lemma for_each_raises {A B : Type} (xs : list A) (body : A -> M (list B)) (x : A) :
  In x xs -> raises (body x) -> raises (for_each xs body).
Proof.
  induction xs as [| y xs IH]; intros Hin Hx; [contradiction |].
  cbn [for_each]. destruct Hin as [-> | Hin].
  - now apply bind_raises_l.
  - apply bind_raises_r. intros ys. apply bind_raises_l. now apply IH.
Qed.

Lemma region_body_raises (cfg : Config) (src : RandomSource) (d : DayVars)
    (region0 sku : string) :
  In sku (SKUS cfg) -> (forall r, raises (sku_body cfg src d r sku)) ->
  raises (region_body cfg src d region0).
Proof.
  intros Hin Hsku k.
  unfold region_body, bind, uniform, random, ret, bind.
  destruct (Rgt_dec _ 70); [destruct (Rlt_dec _ 0.3) |];
    destruct (truthy (festival_flag d));
    apply (for_each_raises (SKUS cfg) _ sku Hin); apply Hsku.
Qed.

Lemma day_body_raises (cfg : Config) (src : RandomSource) (today : Z) (off : nat)
    (region0 : string) :
  In region0 (REGIONS cfg) ->
  (forall d,
     weekday d = weekday_of_ordinal (today - Z.of_nat (NUM_DAYS cfg) + Z.of_nat off) ->
     exists sku, In sku (SKUS cfg) /\ forall r, raises (sku_body cfg src d r sku)) ->
  raises (day_body cfg src today off).
Proof.
  intros Hin Hd k.
  unfold day_body, bind, uniform, random, ret, bind.
  destruct (zdict_mem _ _);
    apply (for_each_raises (REGIONS cfg) _ region0 Hin);
    match goal with
    | |- raises (region_body _ _ ?d0 _) =>
        destruct (Hd d0 eq_refl) as (sku & Hsku & Hr);
        now apply (region_body_raises cfg src d0 region0 sku)
    end.
Qed.

(** The generator returns no rows when the body of some day raises. *)
Lemma historical_sales_raises (cfg : Config) (today : Z) (src : RandomSource) (off : nat) :
  (off < NUM_DAYS cfg)%nat -> raises (day_body cfg src today off) ->
  exists e, generate_historical_sales cfg today src = Raise e.
Proof.
  intros Hoff Hday.
  destruct (for_each_raises (seq 0 (NUM_DAYS cfg))
              (fun o => day_body cfg src today o) off) with (k := 0%nat) as (e & He).
  - apply in_seq. lia.
  - exact Hday.
  - exists e. unfold generate_historical_sales, generate_historical_trace, run,
      historical_loop. now rewrite He.
Qed.

Lemma sku_body_raises_channel (cfg : Config) (src : RandomSource) (d : DayVars)
    (r : RegionVars) (sku ch : string) :
  In ch (CHANNELS cfg) ->
  (forall pkg idx, raises (store_body cfg src d r sku pkg ch idx)) ->
  raises (sku_body cfg src d r sku).
Proof.
  intros Hin Hstore. unfold sku_body. apply bind_raises_r. intros pkg.
  apply (for_each_raises (CHANNELS cfg) _ ch Hin).
  apply (for_each_raises (seq 0 2) _ 0%nat); [now left | apply Hstore].
Qed.

Lemma store_body_raises_table (cfg : Config) (src : RandomSource) (d : DayVars)
    (r : RegionVars) (sku : string) (pkg : R) (ch : string) (idx : nat) :
  match dict_get (WEEKDAY_FACTORS cfg) ch with
  | None => True
  | Some tbl => nth_error tbl (Z.to_nat (weekday d)) = None
  end ->
  raises (store_body cfg src d r sku pkg ch idx).
Proof.
  intros H k. unfold store_body, bind, lift, dict_index, list_index.
  destruct (dict_get (WEEKDAY_FACTORS cfg) ch) as [tbl |].
  - rewrite H. now exists IndexError.
  - now exists KeyError.
Qed.

Lemma store_body_raises_zero (cfg : Config) (src : RandomSource) (d : DayVars)
    (r : RegionVars) (sku ch : string) (idx : nat) :
  raises (store_body cfg src d r sku 0 ch idx).
Proof.
  intros k.
  unfold store_body, bind, lift, dict_index, list_index, uniform, random, ret, bind.
  destruct (dict_get (WEEKDAY_FACTORS cfg) ch) as [tbl |]; [| now exists KeyError].
  destruct (nth_error tbl (Z.to_nat (weekday d))) as [f |]; [| now exists IndexError].
  destruct (price_factor_of ch _ _) as [pf | e]; [| now exists e].
  unfold sales_units_of, py_div.
  destruct (truthy (logistics_disruption d));
    (destruct (Req_dec_T 0 0) as [_ | Hne]; [now exists ZeroDivisionError | now destruct Hne]).
Qed.

(** X13. When the horizon and the region list are not empty and some SKU
    has no packaging entry, the historical generator raises and returns no
    rows. *)
Theorem missing_packaging_entry_fails (cfg : Config) (today : Z) (src : RandomSource)
    (sku : string) :
  NUM_DAYS cfg <> 0%nat -> REGIONS cfg <> [] ->
  In sku (SKUS cfg) -> dict_get (PACKAGING_MAP cfg) sku = None ->
  exists e, generate_historical_sales cfg today src = Raise e.
Proof.
  intros Hn Hr Hin Hget.
  destruct (REGIONS cfg) as [| region0 regions] eqn:HR; [contradiction |].
  apply (historical_sales_raises cfg today src 0); [lia |].
  apply (day_body_raises cfg src today 0 region0); [rewrite HR; now left |].
  intros d _. exists sku. split; [exact Hin |].
  intros r k. exists KeyError. unfold sku_body, bind, lift, dict_index.
  now rewrite Hget.
Qed.

(** X14. When the horizon, the region list and the channel list are not
    empty and some SKU has the unit size 0, the historical generator raises
    and returns no rows. *)
Theorem zero_unit_size_fails (cfg : Config) (today : Z) (src : RandomSource)
    (sku : string) :
  NUM_DAYS cfg <> 0%nat -> REGIONS cfg <> [] -> CHANNELS cfg <> [] ->
  In sku (SKUS cfg) -> dict_get (PACKAGING_MAP cfg) sku = Some 0 ->
  exists e, generate_historical_sales cfg today src = Raise e.
Proof.
  intros Hn Hr Hc Hin Hget.
  destruct (REGIONS cfg) as [| region0 regions] eqn:HR; [contradiction |].
  destruct (CHANNELS cfg) as [| ch channels] eqn:HC; [contradiction |].
  apply (historical_sales_raises cfg today src 0); [lia |].
  apply (day_body_raises cfg src today 0 region0); [rewrite HR; now left |].
  intros d _. exists sku. split; [exact Hin |].
  intros r. unfold sku_body.
  intros k. unfold bind at 1. unfold lift, dict_index. rewrite Hget.
  apply (for_each_raises (CHANNELS cfg) _ ch); [rewrite HC; now left |].
  apply (for_each_raises (seq 0 2) _ 0%nat); [now left |].
  apply store_body_raises_zero.
Qed.

(** X15. When the horizon, the region list and the SKU list are not empty
    and some channel has no weekday table, the historical generator raises
    and returns no rows. *)
Theorem missing_weekday_table_fails (cfg : Config) (today : Z) (src : RandomSource)
    (ch : string) :
  NUM_DAYS cfg <> 0%nat -> REGIONS cfg <> [] -> SKUS cfg <> [] ->
  In ch (CHANNELS cfg) -> dict_get (WEEKDAY_FACTORS cfg) ch = None ->
  exists e, generate_historical_sales cfg today src = Raise e.
Proof.
  intros Hn Hr Hs Hin Hget.
  destruct (REGIONS cfg) as [| region0 regions] eqn:HR; [contradiction |].
  destruct (SKUS cfg) as [| sku skus] eqn:HS; [contradiction |].
  apply (historical_sales_raises cfg today src 0); [lia |].
  apply (day_body_raises cfg src today 0 region0); [rewrite HR; now left |].
  intros d _. exists sku. split; [rewrite HS; now left |].
  intros r. apply (sku_body_raises_channel cfg src d r sku ch Hin).
  intros pkg idx. apply store_body_raises_table. now rewrite Hget.
Qed.

(** Among seven consecutive days one is a Sunday. *)
Lemma sunday_within_a_week (start : Z) :
  exists off, (off < 7)%nat /\ weekday_of_ordinal (start + Z.of_nat off) = 6%Z.
Proof.
  unfold weekday_of_ordinal.
  pose proof (Z.mod_pos_bound (start + 6) 7 ltac:(lia)) as Hb.
  exists (Z.to_nat (6 - (start + 6) mod 7)). split; [lia |].
  rewrite Z2Nat.id by lia.
  Z.div_mod_to_equations. lia.
Qed.

(** X16. When the horizon spans at least seven days, the region list and
    the SKU list are not empty and some channel has a weekday table with
    fewer than seven entries, the historical generator raises and returns
    no rows: within a week it reaches a weekday the table has no entry
    for. *)
Theorem short_weekday_table_fails (cfg : Config) (today : Z) (src : RandomSource)
    (ch : string) (tbl : list R) :
  (7 <= NUM_DAYS cfg)%nat -> REGIONS cfg <> [] -> SKUS cfg <> [] ->
  In ch (CHANNELS cfg) -> dict_get (WEEKDAY_FACTORS cfg) ch = Some tbl ->
  (List.length tbl < 7)%nat ->
  exists e, generate_historical_sales cfg today src = Raise e.
Proof.
  intros Hn Hr Hs Hin Hget Hlen.
  destruct (REGIONS cfg) as [| region0 regions] eqn:HR; [contradiction |].
  destruct (SKUS cfg) as [| sku skus] eqn:HS; [contradiction |].
  destruct (sunday_within_a_week (today - Z.of_nat (NUM_DAYS cfg)))
    as (off & Hoff & Hsun).
  apply (historical_sales_raises cfg today src off); [lia |].
  apply (day_body_raises cfg src today off region0); [rewrite HR; now left |].
  intros d Hd. exists sku. split; [rewrite HS; now left |].
  intros r. apply (sku_body_raises_channel cfg src d r sku ch Hin).
  intros pkg idx. apply store_body_raises_table. rewrite Hget.
  apply nth_error_None. rewrite Hd, Hsun. cbn. lia.
Qed.

Lemma missing_packaging_entry_fails_witness :
  exists e, generate_historical_sales unpackaged_config sample_today half_source = Raise e.
Proof.
  apply (missing_packaging_entry_fails unpackaged_config sample_today half_source
           "MUSH-5kg").
  - discriminate.
  - discriminate.
  - cbn. tauto.
  - reflexivity.
Defined.

Lemma zero_unit_size_fails_witness :
  exists e, generate_historical_sales zero_unit_config sample_today half_source = Raise e.
Proof.
  apply (zero_unit_size_fails zero_unit_config sample_today half_source "MUSH-5kg").
  - discriminate.
  - discriminate.
  - discriminate.
  - cbn. tauto.
  - reflexivity.
Defined.

Lemma missing_weekday_table_fails_witness :
  exists e, generate_historical_sales untabled_config sample_today half_source = Raise e.
Proof.
  apply (missing_weekday_table_fails untabled_config sample_today half_source "B2C").
  - discriminate.
  - discriminate.
  - discriminate.
  - cbn. tauto.
  - reflexivity.
Defined.

Lemma short_weekday_table_fails_witness :
  exists e,
    generate_historical_sales weekdays_only_config sample_today half_source = Raise e.
Proof.
  apply (short_weekday_table_fails weekdays_only_config sample_today half_source
           "B2C" [0.8; 0.8; 0.8; 0.9; 1.1]).
  - cbn. lia.
  - discriminate.
  - discriminate.
  - cbn. tauto.
  - reflexivity.
  - cbn. lia.
Defined.

(** ** The full provenance of the telemetry rows *)

Lemma telemetry_body_full (src : RandomSource) (curr_dt : DateTime) (region0 : string)
    (k : nat) :
  valid_source src -> (0 <= dt_hour curr_dt < 24)%Z ->
  exists row k',
    telemetry_body src curr_dt (is_daytime_at curr_dt) region0 k = Ok ([row], k') /\
    Telemetry.datetime row = curr_dt /\ Telemetry.region_id row = region0 /\
    telemetry_assembled src k row.
Proof.
  intros [Hu _] Hh.
  destruct (hourly_profile_entry (Z.to_nat (dt_hour curr_dt))) as (f & Hf); [lia |].
  pose proof (Hu k) as U0. pose proof (Hu (S k)) as U1. pose proof (Hu (S (S k))) as U2.
  unfold telemetry_body, bind, lift, list_index, uniform, random, normalvariate,
    randint, ret, bind.
  replace (dt_hour curr_dt <? 24)%Z with true by (symmetry; apply Z.ltb_lt; lia).
  rewrite Hf.
  destruct (Rlt_dec (unit_at src (S (S (S (S k))))) 0.005) eqn:E2;
    destruct (Rlt_dec (unit_at src (S (S (S k)))) 0.01) eqn:E1;
    destruct (is_daytime_at curr_dt) eqn:Eday;
    cbn [String.eqb Ascii.eqb Bool.eqb];
    match goal with
    | |- context [Rlt_dec (unit_at src ?j) 0.05] =>
        destruct (Rlt_dec (unit_at src j) 0.05) eqn:E3
    end;
    do 2 eexists; (split; [reflexivity |]);
    cbn [Telemetry.datetime Telemetry.region_id];
    (split; [reflexivity |]); (split; [reflexivity |]);
    constructor;
    cbn [Telemetry.datetime Telemetry.intraday_event
         Telemetry.pos_transactions_last_hour Telemetry.vehicle_delay_minutes
         Telemetry.logistics_disruption_flag Telemetry.mandi_price_per_kg
         Telemetry.weather_now_temp Telemetry.weather_now_humidity
         Telemetry.intraday_baseline_pred Telemetry.intraday_actual_sales_partial];
    unfold telemetry_delay, minor_delay_call, telemetry_pos_tx, telemetry_event;
    cbn [Nat.add]; rewrite ?E1, ?E2, ?Eday;
    cbn [String.eqb Ascii.eqb Bool.eqb]; rewrite ?E3;
    try reflexivity.
  all: try (eexists; split; [| reflexivity]; lra).
  all: exists f; eexists; split; [exact Hf |];
    (split; [| split; reflexivity]);
    match goal with
    | |- context [unit_at _ ?j] => pose proof (Hu j); lra
    end.
Qed.

(** The rows of an intraday run, each with what it was assembled from. *)
Lemma intraday_full (cfg : Config) (now : DateTime) (src : RandomSource) :
  valid_source src ->
  exists rows,
    generate_intraday_telemetry cfg now src = Ok rows /\
    map telemetry_key rows = intraday_keys cfg now /\
    Forall (fun row =>
      (0 <= dt_hour (Telemetry.datetime row) < 24)%Z /\
      exists k, telemetry_assembled src k row) rows.
Proof.
  intros Hsrc.
  destruct (for_each_spec
              (fun row => (0 <= dt_hour (Telemetry.datetime row) < 24)%Z /\
                          exists k, telemetry_assembled src k row)
              telemetry_key
              (fun hour_offset =>
                 map (fun region =>
                        (add_hours (sub_days now 7) (Z.of_nat hour_offset), region))
                     (REGIONS cfg))
              (seq 0 (7 * 24))
              (fun hour_offset => hour_body cfg src (sub_days now 7) hour_offset))
    with (k := 0%nat) as (rows & k' & Hrun & Hkey & HP).
  - intros off _ k. unfold hour_body. rewrite <- flat_map_singleton.
    apply for_each_spec. intros region0 _ k1.
    destruct (telemetry_body_full src (add_hours (sub_days now 7) (Z.of_nat off))
                region0 k1 Hsrc (add_hours_range _ _))
      as (row & k2 & Hrun & Hdt & Hreg & Ha).
    exists [row], k2. split; [exact Hrun | split].
    + unfold telemetry_key. cbn [map]. now rewrite Hdt, Hreg.
    + constructor; [| constructor]. split; [| now exists k1].
      rewrite Hdt. apply add_hours_range.
  - exists rows. unfold generate_intraday_telemetry, run, intraday_loop.
    rewrite Hrun. now repeat split.
Qed.

Lemma intraday_rows (cfg : Config) (now : DateTime) (src : RandomSource)
    (P : Telemetry.t -> Prop) :
  valid_source src ->
  (forall row k,
     (0 <= dt_hour (Telemetry.datetime row) < 24)%Z ->
     telemetry_assembled src k row -> P row) ->
  exists rows,
    generate_intraday_telemetry cfg now src = Ok rows /\ Forall P rows.
Proof.
  intros Hsrc HP.
  destruct (intraday_full cfg now src Hsrc) as (rows & Hrun & _ & Hall).
  exists rows. split; [exact Hrun |].
  apply Forall_impl with (2 := Hall). intros row (Hh & k & Ha). now apply (HP row k).
Qed.

Lemma py_int_above_minus_one (x : R) : -1 < x -> (0 <= py_int x)%Z.
Proof.
  intros Hx. unfold py_int. destruct (Rle_dec 0 x) as [H0 | H0].
  - now apply Int_part_nonneg.
  - rewrite (Int_part_between (- x) 0) by lra. lia.
Qed.

Lemma telemetry_event_cases (src : RandomSource) (k : nat) :
  telemetry_event src k = "none"%string \/
  telemetry_event src k = "heavy_rain"%string \/
  telemetry_event src k = "strike"%string.
Proof.
  unfold telemetry_event.
  destruct (Rlt_dec _ 0.005); [now right; right |].
  destruct (Rlt_dec _ 0.01); [now right; left | now left].
Qed.

(** X17. Every telemetry row has one of the events [none], [heavy_rain]
    and [strike]; its transaction count is the truncated normal variate,
    halved and truncated again under heavy rain, and is negative only when
    the variate is at most -1. *)
Theorem event_and_transactions (cfg : Config) (now : DateTime) (src : RandomSource) :
  exists rows,
    generate_intraday_telemetry cfg now src = Ok rows /\
    Forall (fun row =>
      (Telemetry.intraday_event row = "none"%string \/
       Telemetry.intraday_event row = "heavy_rain"%string \/
       Telemetry.intraday_event row = "strike"%string) /\
      exists k,
        let g := if is_daytime_at (Telemetry.datetime row)
                 then 50 + gauss_at src k * 15 else 5 + gauss_at src k * 2 in
        Telemetry.pos_transactions_last_hour row =
          (if (Telemetry.intraday_event row =? "heavy_rain")%string
           then py_int (IZR (py_int g) * 0.5) else py_int g) /\
        (-1 < g -> (0 <= Telemetry.pos_transactions_last_hour row)%Z)) rows.
Proof.
  destruct (intraday_ok cfg now src) as (rows & Hrun & _ & HP).
  exists rows. split; [exact Hrun |].
  apply Forall_impl with (2 := HP).
  intros row (k & _ & _ & Hev & Htx & _).
  split; [rewrite Hev; apply telemetry_event_cases |].
  exists (5 + k)%nat. cbn zeta. rewrite Htx, Hev. unfold telemetry_pos_tx.
  split; [reflexivity |].
  intros Hg.
  pose proof (py_int_above_minus_one _ Hg) as H0.
  destruct (telemetry_event src k =? "heavy_rain")%string; [| exact H0].
  apply py_int_nonneg. apply Rmult_le_pos; [now apply IZR_le | lra].
Qed.

Lemma event_and_transactions_witness :
  exists rows,
    generate_intraday_telemetry default_config sample_now cold_source = Ok rows /\
    Forall (fun row =>
      (Telemetry.intraday_event row = "none"%string \/
       Telemetry.intraday_event row = "heavy_rain"%string \/
       Telemetry.intraday_event row = "strike"%string) /\
      exists k,
        let g := if is_daytime_at (Telemetry.datetime row)
                 then 50 + gauss_at cold_source k * 15
                 else 5 + gauss_at cold_source k * 2 in
        Telemetry.pos_transactions_last_hour row =
          (if (Telemetry.intraday_event row =? "heavy_rain")%string
           then py_int (IZR (py_int g) * 0.5) else py_int g) /\
        (-1 < g -> (0 <= Telemetry.pos_transactions_last_hour row)%Z)) rows.
Proof.
  exact (event_and_transactions default_config sample_now cold_source).
Defined.

(** X18. The disruption flag of a telemetry row is 1 exactly when the
    vehicle delay exceeds 60 minutes.  The delay is 0, between 10 and 45, or
    between 60 and 300; a row with the flag set is a strike row with a delay
    between 61 and 300, so a strike delay of exactly 60 and every minor
    delay leave the flag at 0. *)
Theorem disruption_flag_and_delay (cfg : Config) (now : DateTime) (src : RandomSource) :
  valid_source src ->
  exists rows,
    generate_intraday_telemetry cfg now src = Ok rows /\
    Forall (fun row =>
      let d := Telemetry.vehicle_delay_minutes row in
      let flag := Telemetry.logistics_disruption_flag row in
      (flag = 1%Z <-> (60 < d)%Z) /\ (flag = 0%Z <-> (d <= 60)%Z) /\
      (d = 0 \/ 10 <= d <= 45 \/ 60 <= d <= 300)%Z /\
      (flag = 1%Z ->
       Telemetry.intraday_event row = "strike"%string /\ (61 <= d <= 300)%Z)) rows.
Proof.
  intros Hsrc. apply intraday_rows; [exact Hsrc |].
  intros row k _ Ha. cbn zeta.
  destruct Hsrc as [_ Hb].
  pose proof (Hb (S (minor_delay_call src k)) (45 - 10 + 1)%Z ltac:(lia)) as H1.
  pose proof (Hb (6 + k)%nat (300 - 60 + 1)%Z ltac:(lia)) as H2.
  rewrite (ta_flag _ _ _ Ha), (ta_event _ _ _ Ha), (ta_delay _ _ _ Ha).
  unfold telemetry_delay.
  destruct (Rlt_dec (unit_at src (minor_delay_call src k)) 0.05);
    [| destruct (String.eqb_spec (telemetry_event src k) "strike")];
    match goal with
    | |- context [(60 <? ?d)%Z] => destruct (Z.ltb_spec 60 d)
    end;
    repeat split; intros; try lia; try discriminate; try assumption.
Qed.

Lemma disruption_flag_and_delay_witness :
  exists rows,
    generate_intraday_telemetry default_config sample_now zero_source = Ok rows /\
    Forall (fun row =>
      let d := Telemetry.vehicle_delay_minutes row in
      let flag := Telemetry.logistics_disruption_flag row in
      (flag = 1%Z <-> (60 < d)%Z) /\ (flag = 0%Z <-> (d <= 60)%Z) /\
      (d = 0 \/ 10 <= d <= 45 \/ 60 <= d <= 300)%Z /\
      (flag = 1%Z ->
       Telemetry.intraday_event row = "strike"%string /\ (61 <= d <= 300)%Z)) rows.
Proof.
  exact (disruption_flag_and_delay default_config sample_now zero_source
           zero_source_valid).
Defined.

(** X19. The conditions of every telemetry row: the mandi price is
    between 115 and 125, the humidity between 50 and 70, and the
    temperature between 28 and 32 from 8:00 to 20:59 and between 18 and 22
    in the other hours. *)
Theorem telemetry_conditions_in_range (cfg : Config) (now : DateTime)
    (src : RandomSource) :
  valid_source src ->
  exists rows,
    generate_intraday_telemetry cfg now src = Ok rows /\
    Forall (fun row =>
      let h := dt_hour (Telemetry.datetime row) in
      115 <= Telemetry.mandi_price_per_kg row <= 125 /\
      50 <= Telemetry.weather_now_humidity row <= 70 /\
      ((8 <= h <= 20)%Z -> 28 <= Telemetry.weather_now_temp row <= 32) /\
      (~ (8 <= h <= 20)%Z -> 18 <= Telemetry.weather_now_temp row <= 22)) rows.
Proof.
  intros Hsrc. apply intraday_rows; [exact Hsrc |].
  intros row k _ Ha. cbn zeta.
  destruct (ta_mandi _ _ _ Ha) as (n & Hn & ->).
  destruct (ta_humidity _ _ _ Ha) as (m & Hm & ->).
  destruct (ta_temp _ _ _ Ha) as (t & Ht & ->).
  split; [| split; [| split]].
  - pose proof (py_round2_between (120 + n) 11500 12500 ltac:(lra)). lra.
  - pose proof (py_round1_between (60 + m) 500 700 ltac:(lra)). lra.
  - intros Hh. unfold is_daytime_at.
    replace ((8 <=? dt_hour (Telemetry.datetime row))
             && (dt_hour (Telemetry.datetime row) <=? 20))%Z with true
      by (symmetry; apply andb_true_intro; split; apply Z.leb_le; lia).
    pose proof (py_round1_between (25 + 5 + t) 280 320 ltac:(lra)). lra.
  - intros Hh. unfold is_daytime_at.
    replace ((8 <=? dt_hour (Telemetry.datetime row))
             && (dt_hour (Telemetry.datetime row) <=? 20))%Z with false.
    + pose proof (py_round1_between (25 + -5 + t) 180 220 ltac:(lra)). lra.
    + symmetry. apply andb_false_iff.
      destruct (Z.leb_spec 8 (dt_hour (Telemetry.datetime row))); [| now left].
      right. apply Z.leb_gt. lia.
Qed.

Lemma telemetry_conditions_in_range_witness :
  exists rows,
    generate_intraday_telemetry default_config sample_now half_source = Ok rows /\
    Forall (fun row =>
      let h := dt_hour (Telemetry.datetime row) in
      115 <= Telemetry.mandi_price_per_kg row <= 125 /\
      50 <= Telemetry.weather_now_humidity row <= 70 /\
      ((8 <= h <= 20)%Z -> 28 <= Telemetry.weather_now_temp row <= 32) /\
      (~ (8 <= h <= 20)%Z -> 18 <= Telemetry.weather_now_temp row <= 22)) rows.
Proof.
  exact (telemetry_conditions_in_range default_config sample_now half_source
           half_source_valid).
Defined.

Lemma hourly_profile_range (h : nat) (f : R) :
  nth_error hourly_profile h = Some f -> 0 <= f <= 0.1.
Proof.
  unfold hourly_profile. cbn [repeat app].
  do 24 (destruct h as [| h]; [intros H; injection H as <-; lra |]).
  destruct h; discriminate.
Qed.

Lemma hourly_profile_night (h : nat) (f : R) :
  (h < 8)%nat -> nth_error hourly_profile h = Some f -> f = 0.01.
Proof.
  unfold hourly_profile. cbn [repeat app].
  do 8 (destruct h as [| h]; [intros _ H; now injection H as <- |]).
  intros Hh. lia.
Qed.

Lemma hourly_profile_late (h : nat) (f : R) :
  (20 <= h)%nat -> nth_error hourly_profile h = Some f -> f = 0.
Proof.
  unfold hourly_profile. cbn [repeat app].
  do 20 (destruct h as [| h]; [intros Hh; lia |]).
  do 4 (destruct h as [| h]; [intros _ H; injection H as <-; lra |]).
  destruct h; discriminate.
Qed.

(** X20. The baseline and the sales of every telemetry row: the baseline
    is between 0 and 100 and the sales between 0 and 120; from 20:00 on both
    are 0 (although 20:00 still counts as daytime for the transactions), and
    before 8:00 the baseline is 10 and the sales are between 8 and 12. *)
Theorem baseline_and_sales_in_range (cfg : Config) (now : DateTime)
    (src : RandomSource) :
  valid_source src ->
  exists rows,
    generate_intraday_telemetry cfg now src = Ok rows /\
    Forall (fun row =>
      let h := dt_hour (Telemetry.datetime row) in
      0 <= Telemetry.intraday_baseline_pred row <= 100 /\
      (0 <= Telemetry.intraday_actual_sales_partial row <= 120)%Z /\
      ((20 <= h)%Z ->
       Telemetry.intraday_baseline_pred row = 0 /\
       Telemetry.intraday_actual_sales_partial row = 0%Z) /\
      ((h < 8)%Z ->
       Telemetry.intraday_baseline_pred row = 10 /\
       (8 <= Telemetry.intraday_actual_sales_partial row <= 12)%Z)) rows.
Proof.
  intros Hsrc. apply intraday_rows; [exact Hsrc |].
  intros row k Hh Ha. cbn zeta.
  destruct (ta_sales _ _ _ Ha) as (f & s & Hf & Hs & -> & ->).
  pose proof (hourly_profile_range _ _ Hf) as Hrange.
  assert (Hprod : 0 <= 1000 * f * s) by (apply Rmult_le_pos; lra).
  assert (Hfloor : forall lo hi : Z,
             IZR lo <= 1000 * f * s < IZR hi + 1 ->
             (lo <= py_int (1000 * f * s) <= hi)%Z).
  { intros lo hi [Hlo Hhi]. rewrite py_int_floor by exact Hprod.
    destruct (Int_part_bounds (1000 * f * s)) as [H1 H2]. split.
    - apply Z.lt_succ_r. apply lt_IZR. rewrite succ_IZR. lra.
    - apply Z.lt_succ_r. apply lt_IZR. rewrite succ_IZR. lra. }
  split; [| split; [| split]].
  - pose proof (py_round2_between (1000 * f) 0 10000 ltac:(lra)). lra.
  - apply Hfloor. nra.
  - intros H20.
    assert (f = 0) as ->
      by (apply (hourly_profile_late (Z.to_nat (dt_hour (Telemetry.datetime row))));
          [lia | exact Hf]).
    split.
    + pose proof (py_round2_between (1000 * 0) 0 0 ltac:(lra)). lra.
    + assert (H0 : (0 <= py_int (1000 * 0 * s) <= 0)%Z) by (apply Hfloor; lra). lia.
  - intros H8.
    assert (f = 0.01) as ->
      by (apply (hourly_profile_night (Z.to_nat (dt_hour (Telemetry.datetime row))));
          [lia | exact Hf]).
    split.
    + pose proof (py_round2_between (1000 * 0.01) 1000 1000 ltac:(lra)). lra.
    + apply Hfloor. lra.
Qed.

Lemma baseline_and_sales_in_range_witness :
  exists rows,
    generate_intraday_telemetry default_config sample_now half_source = Ok rows /\
    Forall (fun row =>
      let h := dt_hour (Telemetry.datetime row) in
      0 <= Telemetry.intraday_baseline_pred row <= 100 /\
      (0 <= Telemetry.intraday_actual_sales_partial row <= 120)%Z /\
      ((20 <= h)%Z ->
       Telemetry.intraday_baseline_pred row = 0 /\
       Telemetry.intraday_actual_sales_partial row = 0%Z) /\
      ((h < 8)%Z ->
       Telemetry.intraday_baseline_pred row = 10 /\
       (8 <= Telemetry.intraday_actual_sales_partial row <= 12)%Z)) rows.
Proof.
  exact (baseline_and_sales_in_range default_config sample_now half_source
           half_source_valid).
Defined.

(** X21. The telemetry rows come hour by hour, one per region in the
    order of the region list: the row of hour offset [h] lies [168 - h]
    hours before the clock reading, with its minutes and seconds, so every
    row lies within the seven days before the clock reading and none at or
    after it. *)
Theorem telemetry_time_axis (cfg : Config) (now : DateTime) (src : RandomSource) :
  exists rows,
    generate_intraday_telemetry cfg now src = Ok rows /\
    map telemetry_key rows = intraday_keys cfg now /\
    Forall (fun row =>
      let dt := Telemetry.datetime row in
      In (Telemetry.region_id row) (REGIONS cfg) /\
      (0 <= dt_hour dt < 24)%Z /\
      dt_minute dt = dt_minute now /\ dt_second dt = dt_second now /\
      exists h,
        (0 <= h < 168)%Z /\
        (dt_ordinal dt * 24 + dt_hour dt =
         dt_ordinal now * 24 + dt_hour now - 168 + h)%Z) rows.
Proof.
  destruct (intraday_ok cfg now src) as (rows & Hrun & Hkey & _).
  exists rows. split; [exact Hrun | split; [exact Hkey |]].
  apply Forall_forall. intros row Hin.
  assert (Hk : In (telemetry_key row) (intraday_keys cfg now)).
  { rewrite <- Hkey. now apply in_map. }
  unfold intraday_keys in Hk.
  apply in_flat_map in Hk. destruct Hk as (off & Hoff & Hk).
  apply in_map_iff in Hk. destruct Hk as (region0 & Heq & Hreg).
  apply in_seq in Hoff. unfold telemetry_key in Heq. injection Heq as Hdt Hr.
  cbn zeta. rewrite <- Hr, <- Hdt.
  split; [exact Hreg |]. split; [apply add_hours_range |].
  unfold add_hours, sub_days. cbn [dt_ordinal dt_hour dt_minute dt_second].
  split; [reflexivity | split; [reflexivity |]].
  exists (Z.of_nat off). split; [lia |].
  Z.div_mod_to_equations. lia.
Qed.

(** The intraday loop completes from every state. *)
Lemma intraday_loop_total (cfg : Config) (src : RandomSource) (now : DateTime) (k : nat) :
  exists rows k',
    intraday_loop cfg src now k = Ok (rows, k') /\
    List.length rows = (7 * 24 * List.length (REGIONS cfg))%nat.
Proof.
  destruct (for_each_spec (telemetry_generated src) telemetry_key
              (fun hour_offset =>
                 map (fun region =>
                        (add_hours (sub_days now 7) (Z.of_nat hour_offset), region))
                     (REGIONS cfg))
              (seq 0 (7 * 24))
              (fun hour_offset => hour_body cfg src (sub_days now 7) hour_offset))
    with (k := k) as (rows & k' & Hrun & Hkey & _).
  - intros off _ j. apply hour_body_ok.
  - exists rows, k'. split; [exact Hrun |].
    rewrite <- (length_map telemetry_key), Hkey. apply intraday_keys_length.
Qed.

(** X22. The entry point fails exactly when the historical generator
    fails, with its error and before any telemetry is made; when the
    historical generator returns its rows, the entry point returns them
    together with 168 telemetry rows per region. *)
Theorem main_follows_historical (cfg : Config) (today : Z) (now : DateTime)
    (src : RandomSource) :
  (forall e,
     generate_historical_sales cfg today src = Raise e ->
     main cfg today now src = Raise e) /\
  (forall rows,
     generate_historical_sales cfg today src = Ok rows ->
     exists trows,
       main cfg today now src = Ok (rows, trows) /\
       List.length trows = (7 * 24 * List.length (REGIONS cfg))%nat).
Proof.
  unfold generate_historical_sales, generate_historical_trace, main, run, bind.
  destruct (historical_loop cfg src today 0%nat) as [[t k] | e0].
  - split; [discriminate |].
    intros rows H. injection H as <-.
    destruct (intraday_loop_total cfg src now k) as (trows & k' & Hrun & Hlen).
    exists trows. rewrite Hrun. now split.
  - split; [intros e H; injection H as <-; reflexivity | discriminate].
Qed.

Lemma main_follows_historical_witness :
  exists rows trows,
    generate_historical_sales default_config sample_today half_source = Ok rows /\
    main default_config sample_today sample_now half_source = Ok (rows, trows) /\
    List.length trows = (7 * 24 * List.length (REGIONS default_config))%nat.
Proof.
  destruct (historical_sales_ok default_config sample_today half_source
              default_config_runnable half_source_valid) as (rows & Hrun & _).
  destruct (proj2 (main_follows_historical default_config sample_today sample_now
                     half_source) rows Hrun) as (trows & Hmain & Hlen).
  exists rows, trows. split; [exact Hrun | split; [exact Hmain | exact Hlen]].
Defined.
